(** * Life Replay: the narrative generator and the local entry store

    A shallow embedding of [storyEngine/generateStory.ts] and
    [storage/moodStorage.ts], followed by the properties established for
    them.

    Conventions of the embedding:
    - a JavaScript string is its UTF-8 byte string ([string]); every
      pattern that the code searches for is ASCII, so a byte-level search
      finds exactly the occurrences the code-unit search finds;
    - a [number] that is compared against a fractional threshold is an IEEE
      binary64 value ([float], the kernel's primitive doubles); timestamps
      and energy levels are integers ([Z]); lengths are [nat];
    - what [Math.random()], [Date.now()], the calendar and the device give
      are inputs of the functions that consult them;
    - an [async] function returns a [Promise]: resolved with a value or
      rejected with an error. *)

From Stdlib Require Import ZArith Ascii String List Bool Lia.
From Stdlib Require Import Floats Uint63 DecimalString Permutation Sorted.
From stdpp Require Import gmap strings list.

Local Open Scope string_scope.
Local Open Scope list_scope.

(* ================================================================= *)
(** ** The JavaScript primitives the two modules rely on *)
(* ================================================================= *)

Module JS.

(** The double quote character (U+0022). *)
Definition dquote : string := String (ascii_of_nat 34) EmptyString.

(** [s.startsWith(p)], returning what follows [p]. *)
Fixpoint strip_prefix (p s : string) : option string :=
  match p, s with
  | EmptyString, _ => Some s
  | String a p', String b s' => if Ascii.eqb a b then strip_prefix p' s' else None
  | String _ _, EmptyString => None
  end.

(** The first occurrence of [p] in [s]: the text before it and the text
    after it ([s.indexOf(p)], as a split). *)
Fixpoint split_at_first (p s : string) : option (string * string) :=
  match strip_prefix p s with
  | Some rest => Some (EmptyString, rest)
  | None =>
      match s with
      | EmptyString => None
      | String c s' =>
          match split_at_first p s' with
          | Some (before, after) => Some (String c before, after)
          | None => None
          end
      end
  end.

(** [s.includes(p)]. *)
Definition includes (s p : string) : bool :=
  match split_at_first p s with Some _ => true | None => false end.

(** ECMAScript's GetSubstitution for a string pattern (no captures): in the
    replacement text, [$$] stands for a dollar sign, [$&] for the matched
    text, [$`] for the text before the match and [$'] for the text after
    it; every other character, a lone [$] included, stands for itself. *)
Fixpoint GetSubstitution (matched before after replacement : string) : string :=
  match replacement with
  | EmptyString => EmptyString
  | String c r =>
      if Ascii.eqb c "$" then
        match r with
        | String d r' =>
            if Ascii.eqb d "$" then String "$" (GetSubstitution matched before after r')
            else if Ascii.eqb d "&" then matched +:+ GetSubstitution matched before after r'
            else if Ascii.eqb d "`" then before +:+ GetSubstitution matched before after r'
            else if Ascii.eqb d "'" then after +:+ GetSubstitution matched before after r'
            else String c (GetSubstitution matched before after r)
        | EmptyString => String c EmptyString
        end
      else String c (GetSubstitution matched before after r)
  end.

(** [s.replace(pattern, replacement)] with a string pattern: only the first
    occurrence is replaced, and the replacement text is expanded by
    [GetSubstitution]. *)
Definition replace (s pattern replacement : string) : string :=
  match split_at_first pattern s with
  | None => s
  | Some (before, after) =>
      before +:+ GetSubstitution pattern before after replacement +:+ after
  end.

(** White space and line terminators of ECMAScript, as UTF-8 sequences of
    one, two and three bytes. *)
Definition ws1 (a : ascii) : bool :=
  let n := nat_of_ascii a in
  (n =? 9)%nat || (n =? 10)%nat || (n =? 11)%nat || (n =? 12)%nat
  || (n =? 13)%nat || (n =? 32)%nat.

(* U+00A0 *)
Definition ws2 (a b : ascii) : bool :=
  (nat_of_ascii a =? 194)%nat && (nat_of_ascii b =? 160)%nat.

(* U+1680, U+2000..U+200A, U+2028, U+2029, U+202F, U+205F, U+3000, U+FEFF *)
Definition ws3 (a b c : ascii) : bool :=
  let x := nat_of_ascii a in
  let y := nat_of_ascii b in
  let z := nat_of_ascii c in
  ((x =? 225)%nat && (y =? 154)%nat && (z =? 128)%nat)
  || ((x =? 226)%nat && (y =? 128)%nat
      && (((128 <=? z)%nat && (z <=? 138)%nat)
          || (z =? 168)%nat || (z =? 169)%nat || (z =? 175)%nat))
  || ((x =? 226)%nat && (y =? 129)%nat && (z =? 159)%nat)
  || ((x =? 227)%nat && (y =? 128)%nat && (z =? 128)%nat)
  || ((x =? 239)%nat && (y =? 187)%nat && (z =? 191)%nat).

(** [s.trimStart()]. *)
Fixpoint trimStart (s : string) : string :=
  match s with
  | EmptyString => EmptyString
  | String a s1 =>
      if ws1 a then trimStart s1
      else
        match s1 with
        | EmptyString => s
        | String b s2 =>
            if ws2 a b then trimStart s2
            else
              match s2 with
              | EmptyString => s
              | String c s3 => if ws3 a b c then trimStart s3 else s
              end
        end
  end.

(** [s.trimEnd()]: a character is kept as long as something other than
    white space follows or is it. *)
Fixpoint trimEnd (s : string) : string :=
  match s with
  | EmptyString => EmptyString
  | String a s' =>
      match trimStart s with
      | EmptyString => EmptyString
      | String _ _ => String a (trimEnd s')
      end
  end.

(** [s.trim()]. *)
Definition trim (s : string) : string := trimEnd (trimStart s).

(** A string is truthy unless it is empty. *)
Definition truthy_string (s : string) : bool :=
  match s with EmptyString => false | String _ _ => true end.

(** [c.toUpperCase()] on the letters a..z; the phrases it is applied to
    start with one. *)
Definition toUpperCase_char (a : ascii) : ascii :=
  let n := nat_of_ascii a in
  if (97 <=? n)%nat && (n <=? 122)%nat then ascii_of_nat (n - 32) else a.

(** [s.charAt(0).toUpperCase() + s.slice(1)]. *)
Definition capitalize (s : string) : string :=
  match s with
  | EmptyString => EmptyString
  | String a s' => String (toUpperCase_char a) s'
  end.

(** [Math.floor(Math.random() * len)]: [Math.random()] is at least 0 and
    below 1, so the index is below [len], and any such index can come
    out. A draw is given by a number, of which the index is the remainder
    by [len]. *)
Definition random_index (draw len : nat) : nat := draw mod len.

(** [arr[i]]: [None] is [undefined]. *)
Definition at_index {T : Type} (arr : list T) (i : nat) : option T := nth_error arr i.

(** A stable sort by a comparator [cmp a b] (negative: [a] first), as
    [Array.prototype.sort] is since ES2019. *)
Fixpoint sort_insert {T : Type} (cmp : T -> T -> Z) (x : T) (l : list T) : list T :=
  match l with
  | [] => [x]
  | y :: l' => if (cmp x y <=? 0)%Z then x :: y :: l' else y :: sort_insert cmp x l'
  end.

Definition sort {T : Type} (cmp : T -> T -> Z) (l : list T) : list T :=
  foldr (sort_insert cmp) [] l.

(** [[...new Set(l)]]: the distinct elements in the order of their first
    occurrence. *)
Fixpoint distinct_from (seen l : list string) : list string :=
  match l with
  | [] => []
  | x :: l' =>
      if existsb (String.eqb x) seen then distinct_from seen l'
      else x :: distinct_from (x :: seen) l'
  end.

Definition Set_spread (l : list string) : list string := distinct_from [] l.

(** [arr.includes(x)] on strings. *)
Definition array_includes (arr : list string) (x : string) : bool :=
  existsb (String.eqb x) arr.

(** A promise that has settled. *)
Inductive Promise (A : Type) : Type :=
  | Resolved (a : A)
  | Rejected (error : string).
Arguments Resolved {A} a.
Arguments Rejected {A} error.

(** Numbers as doubles: a length or a count (below [2^53], where the
    conversion is exact) and an integer. *)
Definition number_of_nat (n : nat) : float :=
  PrimFloat.of_uint63 (Uint63.of_Z (Z.of_nat n)).

Definition number_of_Z (z : Z) : float :=
  if (z <? 0)%Z then PrimFloat.opp (PrimFloat.of_uint63 (Uint63.of_Z (- z)))
  else PrimFloat.of_uint63 (Uint63.of_Z z).

(** The literals [0.2] and [0.7]: the doubles nearest to them. *)
Definition number_0_2 : float := 0x1.999999999999ap-3%float.
Definition number_0_7 : float := 0x1.6666666666666p-1%float.

Definition gt (a b : float) : bool := PrimFloat.ltb b a.
Definition lt (a b : float) : bool := PrimFloat.ltb a b.
Definition ge (a b : float) : bool := PrimFloat.leb b a.
Definition le (a b : float) : bool := PrimFloat.leb a b.

End JS.

(* ================================================================= *)
(** ** storyEngine/generateStory.ts *)
(* ================================================================= *)

Module StoryEngine.

Inductive Mood : Type := happy | calm | tired | anxious | focused | neutral | excited.
Inductive TimeOfDay : Type := morning | afternoon | evening.
Inductive ActivityId : Type :=
  work | social | exercise | creative | rest | nature | learning | family.

Record StoryContext : Type := mkStoryContext {
  mood : Mood;
  timeOfDay : TimeOfDay;
  activities : option (list ActivityId);
  energyLevel : option Z;
  note : option string
}.


Record DayStory : Type := mkDayStory {
  story_morning : string;
  story_afternoon : string;
  story_evening : string;
  story_summary : string
}.

Record ActivityPhrase : Type := mkPhrase { doing : string; past : string; effect : string }.

Definition activityPhrases (a : ActivityId) : ActivityPhrase :=
  match a with
  | work => mkPhrase "navigating work demands" "after hours of focus"
                     "productivity shaped the hours"
  | social => mkPhrase "connecting with others" "after moments of connection"
                       "human warmth filled the spaces"
  | exercise => mkPhrase "moving your body" "after physical movement"
                         "your body thanked you"
  | creative => mkPhrase "creating something new" "after letting creativity flow"
                         "imagination colored your thoughts"
  | rest => mkPhrase "allowing yourself to slow down" "after giving yourself rest"
                     "stillness became a gift"
  | nature => mkPhrase "breathing in the outdoors" "after time with nature"
                       "the world felt a little bigger"
  | learning => mkPhrase "expanding your mind" "after absorbing something new"
                         "curiosity led the way"
  | family => mkPhrase "being with loved ones" "after moments with family"
                       "love anchored the day"
  end.

Record EnergyDescription : Type := mkEnergy { state : string; verb : string }.

(** [energyDescriptions[level]]: [None] is [undefined]. *)
Definition energyDescriptions (level : Z) : option EnergyDescription :=
  if (level =? 1)%Z then Some (mkEnergy "running on empty" "dragged through")
  else if (level =? 2)%Z then Some (mkEnergy "low on fuel" "pushed through")
  else if (level =? 3)%Z then Some (mkEnergy "steadily moving" "navigated")
  else if (level =? 4)%Z then Some (mkEnergy "feeling capable" "embraced")
  else if (level =? 5)%Z then Some (mkEnergy "fully charged" "powered through")
  else None.

Definition energyDescriptions_3 : EnergyDescription :=
  mkEnergy "steadily moving" "navigated".

Definition storyTemplates (m : Mood) (t : TimeOfDay) : list string :=
  match m, t with
  | happy, morning =>
      [ "The sun greeted you gently, and something felt lighter today."
      ; "You woke with a quiet smile, {{ACTIVITY_EFFECT}}."
      ; "Morning light filtered through, carrying promises of good things."
      ; "{{ENERGY_STATE}}, you welcomed the day with open arms."
      ; "Joy found you early, settling into your morning like an old friend."
      ]
  | happy, afternoon =>
      [ "The day unfolded with warmth, {{ACTIVITY_DOING}}."
      ; "Afternoon passed in a pleasant rhythm, contentment in the small things."
      ; "Hours slipped by easily, touched by a sense of gratitude."
      ; "You {{ENERGY_VERB}} the afternoon, finding happiness in the flow."
      ; "Lightness carried you through the midday hours."
      ]
  | happy, evening =>
      [ "The day ended softly, leaving behind traces of joy to remember."
      ; "Night came with a peaceful heart, {{ACTIVITY_PAST}}."
      ; "You carried warmth into the evening, a gentle glow within."
      ; "{{NOTE_REFLECTION}}"
      ; "The day closed on a high note, happiness lingering like a melody."
      ]
  | calm, morning =>
      [ "The morning arrived in stillness, a quiet beginning."
      ; "You rose with a steady breath, {{ACTIVITY_EFFECT}}."
      ; "Dawn brought a sense of peace, like the world had paused for you."
      ; "{{ENERGY_STATE}}, you found tranquility in the ordinary."
      ; "Serenity wrapped around the morning like a soft blanket."
      ]
  | calm, afternoon =>
      [ "The afternoon moved like a slow river, calm and clear."
      ; "Time stretched gently, {{ACTIVITY_DOING}}."
      ; "You found tranquility in the ordinary moments."
      ; "Peace was your companion as you {{ENERGY_VERB}} the hours."
      ; "The afternoon hummed with quiet contentment."
      ]
  | calm, evening =>
      [ "The day gently slowed down, leaving space to breathe."
      ; "Evening settled in like a familiar embrace, {{ACTIVITY_PAST}}."
      ; "Night arrived softly, wrapping everything in quiet calm."
      ; "{{NOTE_REFLECTION}}"
      ; "You drifted into evening with a serene heart."
      ]
  | tired, morning =>
      [ "Morning felt heavier than usual, your energy still gathering."
      ; "You began the day carrying weight, {{ENERGY_STATE}}."
      ; "The morning asked for patience as you slowly found your footing."
      ; "Dawn arrived, but energy lagged behind, {{ACTIVITY_EFFECT}}."
      ; "You rose despite the weight, honoring your commitment to show up."
      ]
  | tired, afternoon =>
      [ "The afternoon challenged you, but you kept moving forward."
      ; "Energy ebbed and flowed as you {{ENERGY_VERB}} the hours."
      ; "You pushed through the fog, {{ACTIVITY_DOING}}."
      ; "Weariness sat with you, but you didn't let it stop you."
      ; "The afternoon demanded more than you had, yet you persisted."
      ]
  | tired, evening =>
      [ "Rest finally called, and you answered with relief."
      ; "The evening welcomed you with the promise of restoration."
      ; "Night arrived as a sanctuary, {{ACTIVITY_PAST}}."
      ; "{{NOTE_REFLECTION}}"
      ; "You earned this rest. Tomorrow is a new beginning."
      ]
  | anxious, morning =>
      [ "The morning carried an edge, thoughts racing before your feet hit the ground."
      ; "You woke with a flutter in your chest, {{ENERGY_STATE}}."
      ; "Dawn arrived with restless energy, but you faced it anyway."
      ; "Uncertainty colored the morning, yet you showed up, {{ACTIVITY_DOING}}."
      ; "The mind raced ahead while the body tried to catch up."
      ]
  | anxious, afternoon =>
      [ "The afternoon tested your calm, but you held on."
      ; "Waves of worry came and went, yet you stayed afloat."
      ; "You breathed through the tension, {{ACTIVITY_DOING}}."
      ; "Anxiety whispered, but you chose to keep moving, {{ENERGY_VERB}}."
      ; "The hours felt longer, but you navigated each one."
      ]
  | anxious, evening =>
      [ "As night approached, the anxiety began to loosen its grip."
      ; "The evening offered relief, {{ACTIVITY_PAST}}."
      ; "You made it through, and that itself was enough."
      ; "{{NOTE_REFLECTION}}"
      ; "Night came as a gentle reminder: you survived another day."
      ]
  | focused, morning =>
      [ "You woke with clarity, ready to channel your energy."
      ; "The morning brought purpose, {{ACTIVITY_EFFECT}}."
      ; "Dawn arrived with intention, each task waiting to be claimed."
      ; "{{ENERGY_STATE}}, your mind was sharp and ready."
      ; "Focus found you early, guiding your first hours."
      ]
  | focused, afternoon =>
      [ "The afternoon became your canvas, {{ACTIVITY_DOING}}."
      ; "You moved with direction, accomplishing what mattered."
      ; "Time passed productively, your attention unwavering."
      ; "You {{ENERGY_VERB}} the afternoon with precision and purpose."
      ; "Goals fell like dominoes under your focused effort."
      ]
  | focused, evening =>
      [ "The evening arrived with satisfaction of a day well spent."
      ; "You closed the day having created something meaningful."
      ; "Night came to reward your dedication, {{ACTIVITY_PAST}}."
      ; "{{NOTE_REFLECTION}}"
      ; "Rest now. You've earned every moment of it."
      ]
  | neutral, morning =>
      [ "The morning began without fanfare, steady and unremarkable."
      ; "You rose into an ordinary day, {{ACTIVITY_EFFECT}}."
      ; "Dawn arrived quietly, bringing an average kind of peace."
      ; "{{ENERGY_STATE}}, the day started on an even keel."
      ; "Neither heavy nor light, the morning simply was."
      ]
  | neutral, afternoon =>
      [ "The afternoon passed in familiar rhythms."
      ; "Hours moved along their usual path, {{ACTIVITY_DOING}}."
      ; "You navigated the day on autopilot, and that was okay."
      ; "The middle of the day held no surprises, just steady progress."
      ; "You {{ENERGY_VERB}} the afternoon with quiet consistency."
      ]
  | neutral, evening =>
      [ "The day ended as it began â€“ quietly, simply."
      ; "Evening brought closure to an unremarkable but honest day."
      ; "Night arrived to bookmark another page in your story."
      ; "{{NOTE_REFLECTION}}"
      ; "Not every day needs to be extraordinary to matter."
      ]
  | excited, morning =>
      [ "Energy sparked the moment you opened your eyes."
      ; "The morning hummed with anticipation, {{ACTIVITY_EFFECT}}."
      ; "You woke ready to chase whatever the day would offer."
      ; "{{ENERGY_STATE}}, excitement bubbled up naturally."
      ; "The air felt electric with possibility."
      ]
  | excited, afternoon =>
      [ "The afternoon crackled with momentum, {{ACTIVITY_DOING}}."
      ; "Hours raced by, filled with energy and engagement."
      ; "You rode the wave of excitement, alive in each moment."
      ; "You {{ENERGY_VERB}} the afternoon with infectious enthusiasm."
      ; "Every moment felt charged with potential."
      ]
  | excited, evening =>
      [ "The evening buzzed with the afterglow of a vibrant day."
      ; "Night arrived but couldn't dim your inner spark."
      ; "You carried the day's excitement into your dreams, {{ACTIVITY_PAST}}."
      ; "{{NOTE_REFLECTION}}"
      ; "What a day to remember. The energy lives on."
      ]
  end.

Definition summaryTemplates (m : Mood) : list string :=
  match m with
  | happy =>
      [ "Today held moments of quiet joy."
      ; "You found lightness in the ordinary."
      ; "A day touched by happiness, {{ACTIVITY_SUMMARY}}."
      ; "Joy was your companion today."
      ]
  | calm =>
      [ "Today was a gentle exhale."
      ; "Peace found you in the stillness."
      ; "A day of quiet presence, {{ACTIVITY_SUMMARY}}."
      ; "Serenity colored your hours."
      ]
  | tired =>
      [ "You carried yourself through today."
      ; "Rest was the day's true destination."
      ; "A day of pushing through, {{ACTIVITY_SUMMARY}}."
      ; "Tomorrow, you rise again."
      ]
  | anxious =>
      [ "You navigated stormy waters today."
      ; "Despite the waves, you stayed afloat."
      ; "A day of quiet courage, {{ACTIVITY_SUMMARY}}."
      ; "You showed up. That's enough."
      ]
  | focused =>
      [ "Today was shaped by intention."
      ; "You moved with purpose, {{ACTIVITY_SUMMARY}}."
      ; "A day of meaningful progress."
      ; "Focus was your superpower today."
      ]
  | neutral =>
      [ "Today was simply today."
      ; "An ordinary day, honestly lived."
      ; "A quiet chapter in your story, {{ACTIVITY_SUMMARY}}."
      ; "Steady and balanced, just as it should be."
      ]
  | excited =>
      [ "Today buzzed with energy."
      ; "You embraced the day's possibilities, {{ACTIVITY_SUMMARY}}."
      ; "A day alive with spark and wonder."
      ; "The excitement will echo in your dreams."
      ]
  end.

(** [arr[Math.floor(Math.random() * arr.length)]] for the draw [r]. *)
Definition pickRandom {T : Type} (arr : list T) (r : nat) : option T :=
  JS.at_index arr (JS.random_index r (length arr)).

(** The activity placeholders of [fillTemplate]. *)
Definition fill_activities (result : string) (context : StoryContext) : string :=
  match activities context with
  | Some (primaryActivity :: _) =>
      let phrases := activityPhrases primaryActivity in
      JS.replace
        (JS.replace
           (JS.replace
              (JS.replace result "{{ACTIVITY_DOING}}" (doing phrases))
              "{{ACTIVITY_PAST}}" (past phrases))
           "{{ACTIVITY_EFFECT}}" (effect phrases))
        "{{ACTIVITY_SUMMARY}}" ("filled with " +:+ doing phrases)
  | _ =>
      JS.replace
        (JS.replace
           (JS.replace
              (JS.replace
                 (JS.replace
                    (JS.replace
                       (JS.replace result ", {{ACTIVITY_DOING}}" "")
                       ", {{ACTIVITY_PAST}}" "")
                    ", {{ACTIVITY_EFFECT}}" "")
                 "{{ACTIVITY_DOING}}" "moving through the hours")
              "{{ACTIVITY_PAST}}" "after the day unfolded")
           "{{ACTIVITY_EFFECT}}" "the day took shape")
        ", {{ACTIVITY_SUMMARY}}" ""
  end.

(** [if (context.energyLevel)]: a level that is present and not 0. *)
Definition energy_given (context : StoryContext) : option Z :=
  match energyLevel context with
  | Some level => if (level =? 0)%Z then None else Some level
  | None => None
  end.

(** The energy placeholders of [fillTemplate]. *)
Definition fill_energy (result : string) (context : StoryContext) : string :=
  match energy_given context with
  | Some level =>
      let energy :=
        match energyDescriptions level with
        | Some d => d
        | None => energyDescriptions_3
        end in
      JS.replace
        (JS.replace result "{{ENERGY_STATE}}" (JS.capitalize (state energy)))
        "{{ENERGY_VERB}}" (verb energy)
  | None =>
      JS.replace
        (JS.replace
           (JS.replace result "{{ENERGY_STATE}}, " "")
           "{{ENERGY_STATE}}" "Moving forward")
        "{{ENERGY_VERB}}" "moved through"
  end.

(** [context.note && context.note.trim()]: the trimmed note when that is
    not empty. *)
Definition note_given (context : StoryContext) : option string :=
  match note context with
  | Some n =>
      if JS.truthy_string n && JS.truthy_string (JS.trim n) then Some (JS.trim n)
      else None
  | None => None
  end.

(** The note placeholder of [fillTemplate]. *)
Definition fill_note (result : string) (context : StoryContext) : string :=
  match note_given context with
  | Some trimmed =>
      let noteReflection := "In your words: " +:+ JS.dquote +:+ trimmed +:+ JS.dquote in
      JS.replace result "{{NOTE_REFLECTION}}" noteReflection
  | None => JS.replace result "{{NOTE_REFLECTION}}" "A moment worth remembering."
  end.

Definition fillTemplate (template : string) (context : StoryContext) : string :=
  let result := template in
  let result := fill_activities result context in
  let result := fill_energy result context in
  let result := fill_note result context in
  result.










(** [a || []]. *)
Definition activities_or_empty (c : StoryContext) : list ActivityId :=
  match activities c with Some l => l | None => [] end.






End StoryEngine.

(* ================================================================= *)
(** ** storage/moodStorage.ts *)
(* ================================================================= *)

Module MoodStorage.

Abbreviation TimeOfDay := StoryEngine.TimeOfDay.
Abbreviation ActivityId := StoryEngine.ActivityId.

(** The moods the store counts: the seven of the story engine and [sad]
    (the keys of [moodCounts], in the order they are written). *)
Inductive Mood : Type :=
  happy | calm | tired | anxious | focused | neutral | excited | sad.

#[global] Instance Mood_eq_dec : EqDecision Mood.
Proof. solve_decision. Defined.
#[global] Instance TimeOfDay_eq_dec : EqDecision StoryEngine.TimeOfDay.
Proof. solve_decision. Defined.
#[global] Instance ActivityId_eq_dec : EqDecision StoryEngine.ActivityId.
Proof. solve_decision. Defined.

(** *** Storage keys and the activity catalog *)

Definition MOOD_ENTRIES : string := "life_replay_mood_entries".
Definition STORIES : string := "life_replay_stories".
Definition SETTINGS : string := "life_replay_settings".
Definition CUSTOM_MOODS : string := "life_replay_custom_moods".

(** [Object.values(STORAGE_KEYS)]. *)
Definition STORAGE_KEYS_values : list string :=
  [MOOD_ENTRIES; STORIES; SETTINGS; CUSTOM_MOODS].

Record Activity : Type := mkActivity {
  activity_id : ActivityId;
  label : string;
  emoji : string
}.

Definition ACTIVITIES : list Activity :=
  [ mkActivity StoryEngine.work "Work" "💼"
  ; mkActivity StoryEngine.social "Social" "👥"
  ; mkActivity StoryEngine.exercise "Exercise" "🏃"
  ; mkActivity StoryEngine.creative "Creative" "🎨"
  ; mkActivity StoryEngine.rest "Rest" "🛋️"
  ; mkActivity StoryEngine.nature "Nature" "🌿"
  ; mkActivity StoryEngine.learning "Learning" "📚"
  ; mkActivity StoryEngine.family "Family" "👨‍👩‍👧"
  ].

(** The string an [ActivityId] is. *)
Definition activity_string (a : ActivityId) : string :=
  match a with
  | StoryEngine.work => "work"
  | StoryEngine.social => "social"
  | StoryEngine.exercise => "exercise"
  | StoryEngine.creative => "creative"
  | StoryEngine.rest => "rest"
  | StoryEngine.nature => "nature"
  | StoryEngine.learning => "learning"
  | StoryEngine.family => "family"
  end.

(** *** Types *)

Record MoodEntry : Type := mkMoodEntry {
  id : string;
  date : string;
  timeOfDay : TimeOfDay;
  mood : Mood;
  emotionTag : option string;
  note : option string;
  activities : option (list ActivityId);
  energyLevel : option Z;
  timestamp : Z
}.

(** [Omit<MoodEntry, 'id' | 'timestamp'>]. *)
Record NewMoodEntry : Type := mkNewMoodEntry {
  new_date : string;
  new_timeOfDay : TimeOfDay;
  new_mood : Mood;
  new_emotionTag : option string;
  new_note : option string;
  new_activities : option (list ActivityId);
  new_energyLevel : option Z
}.

Record StoryMoods : Type := mkStoryMoods {
  moods_morning : option Mood;
  moods_afternoon : option Mood;
  moods_evening : option Mood
}.

Record DayStory : Type := mkDayStory {
  story_date : string;
  story_morning : string;
  story_afternoon : string;
  story_evening : string;
  story_summary : string;
  story_moods : StoryMoods;
  story_activities : option (list ActivityId);
  story_averageEnergy : option float;
  story_notes : option (list string)
}.

Inductive PatternType : Type :=
  pattern_time | pattern_activity | pattern_energy | pattern_streak | pattern_trend.

Record PatternInsight : Type := mkPattern {
  pattern_type : PatternType;
  title : string;
  description : string;
  icon : string
}.

Inductive StreakType : Type := streak_logging | streak_mood.

Record StreakInfo : Type := mkStreak {
  streak_type : StreakType;
  count : nat;
  streak_description : string
}.

(** [Record<Mood, number>]: the keys in the order they were written, each
    with its count. *)
Definition MoodCounts : Type := list (Mood * nat).

Record WeeklyInsight : Type := mkWeeklyInsight {
  week : string;
  dominantMood : Mood;
  moodCounts : MoodCounts;
  insights : list string;
  patterns : list PatternInsight;
  streaks : list StreakInfo
}.

(** *** AsyncStorage and JSON *)

(** A stored text, by what [JSON.parse] makes of it: what
    [JSON.stringify] writes for a [MoodEntry[]] or a [DayStory[]], a text
    that parses to a value of another shape, or a text on which
    [JSON.parse] throws (the empty text is one). *)
Inductive Stored : Type :=
  | EntriesJson (l : list MoodEntry)
  | StoriesJson (l : list DayStory)
  | OtherJson
  | NotJson (s : string).

(** A parsed value cast to [T[]]: the items, or a value that is not of
    that shape. *)
Inductive Parsed (T : Type) : Type :=
  | Items (l : list T)
  | Foreign.
Arguments Items {T} l.
Arguments Foreign {T}.

Abbreviation Promise := JS.Promise.
Abbreviation Resolved := JS.Resolved.
Abbreviation Rejected := JS.Rejected.

(** [await p] followed by the rest of the function. *)
Definition await {A B : Type} (p : Promise A) (k : A -> Promise B) : Promise B :=
  match p with
  | Resolved a => k a
  | Rejected e => Rejected e
  end.

(** [try { body } catch (error) { handler }]. *)
Definition try_catch {A : Type} (body : Promise A) (handler : string -> Promise A) : Promise A :=
  match body with
  | Resolved a => Resolved a
  | Rejected e => handler e
  end.

(** The device: the texts under their keys. A call of [getItem],
    [setItem] or [multiRemove] is given whether the platform carries it
    out ([ok]); a call it does not carry out rejects and leaves the
    texts as they were. *)
Definition getItem (ok : bool) (disk : gmap string Stored) (key : string)
    : Promise (option Stored) :=
  if ok then Resolved (disk !! key) else Rejected "AsyncStorage.getItem".

Definition setItem (ok : bool) (disk : gmap string Stored) (key : string) (value : Stored)
    : Promise unit * gmap string Stored :=
  if ok then (Resolved tt, <[key := value]> disk)
  else (Rejected "AsyncStorage.setItem", disk).

Definition multiRemove (ok : bool) (disk : gmap string Stored) (keys : list string)
    : Promise unit * gmap string Stored :=
  if ok then (Resolved tt, foldr delete disk keys)
  else (Rejected "AsyncStorage.multiRemove", disk).

(** [data ? ... : ...]: a text is truthy unless it is empty. *)
Definition truthy_text (t : Stored) : bool :=
  match t with
  | NotJson s => JS.truthy_string s
  | _ => true
  end.

(** [JSON.parse(data)] read as a [MoodEntry[]]. *)
Definition JSON_parse_entries (t : Stored) : Promise (Parsed MoodEntry) :=
  match t with
  | EntriesJson l => Resolved (Items l)
  | StoriesJson _ | OtherJson => Resolved Foreign
  | NotJson _ => Rejected "SyntaxError"
  end.

(** [JSON.parse(data)] read as a [DayStory[]]. *)
Definition JSON_parse_stories (t : Stored) : Promise (Parsed DayStory) :=
  match t with
  | StoriesJson l => Resolved (Items l)
  | EntriesJson _ | OtherJson => Resolved Foreign
  | NotJson _ => Rejected "SyntaxError"
  end.

(** An array method called on the value: on a value of another shape the
    embedding stops with the [TypeError] a non-array raises. *)
Definition array_of {T : Type} (v : Parsed T) : Promise (list T) :=
  match v with
  | Items l => Resolved l
  | Foreign => Rejected "TypeError"
  end.

(** *** Helpers *)

Definition string_of_Z (z : Z) : string := NilZero.string_of_int (Z.to_int z).
Definition string_of_nat (n : nat) : string := NilZero.string_of_uint (Nat.to_uint n).

(** [`${Date.now()}-${Math.random().toString(36).substr(2, 9)}`]: [now] is
    the clock's reading and [suffix] the digits the random draw gives. *)
Definition generateId (now : Z) (suffix : string) : string :=
  string_of_Z now +:+ "-" +:+ suffix.

(** *** Mood entries *)

Definition getMoodEntries_try (read_ok : bool) (disk : gmap string Stored)
    : Promise (Parsed MoodEntry) :=
  await (getItem read_ok disk MOOD_ENTRIES) (fun data =>
    match data with
    | Some t => if truthy_text t then JSON_parse_entries t else Resolved (Items [])
    | None => Resolved (Items [])
    end).

Definition getMoodEntries (read_ok : bool) (disk : gmap string Stored)
    : Promise (Parsed MoodEntry) :=
  try_catch (getMoodEntries_try read_ok disk) (fun _ => Resolved (Items [])).

(** [e.date === entry.date && e.timeOfDay === entry.timeOfDay]. *)
Definition same_slot (d : string) (t : TimeOfDay) (e : MoodEntry) : bool :=
  String.eqb (date e) d && bool_decide (timeOfDay e = t).

(** [{ ...entry, id, timestamp }]. *)
Definition make_entry (entry : NewMoodEntry) (new_id : string) (now : Z) : MoodEntry :=
  mkMoodEntry new_id (new_date entry) (new_timeOfDay entry) (new_mood entry)
    (new_emotionTag entry) (new_note entry) (new_activities entry)
    (new_energyLevel entry) now.

(** [saveMoodEntry]: [now_id] and [suffix] make the id, [now] is the
    reading of the clock for the timestamp. The result is the promise and
    the texts the device holds afterwards. *)
Definition saveMoodEntry (read_ok write_ok : bool) (now_id : Z) (suffix : string) (now : Z)
    (disk : gmap string Stored) (entry : NewMoodEntry)
    : Promise MoodEntry * gmap string Stored :=
  match await (getMoodEntries read_ok disk) array_of with
  | Rejected e => (Rejected e, disk)
  | Resolved entries =>
      let newEntry := make_entry entry (generateId now_id suffix) now in
      let filteredEntries :=
        List.filter (fun e => negb (same_slot (new_date entry) (new_timeOfDay entry) e))
          entries in
      let filteredEntries := filteredEntries ++ [newEntry] in
      match setItem write_ok disk MOOD_ENTRIES (EntriesJson filteredEntries) with
      | (Resolved _, disk') => (Resolved newEntry, disk')
      | (Rejected e, disk') => (Rejected e, disk')
      end
  end.

Definition getEntriesForDate (read_ok : bool) (disk : gmap string Stored) (d : string)
    : Promise (list MoodEntry) :=
  await (getMoodEntries read_ok disk) (fun v =>
  await (array_of v) (fun entries =>
    Resolved (List.filter (fun e => String.eqb (date e) d) entries))).

(** [today] is what [getTodayDate()] returns. *)
Definition getTodayMoods (read_ok : bool) (disk : gmap string Stored) (today : string)
    : Promise (list MoodEntry) :=
  getEntriesForDate read_ok disk today.

Definition week_ms : Z := 7 * 24 * 60 * 60 * 1000.
Definition fortnight_ms : Z := 14 * 24 * 60 * 60 * 1000.
Definition month_ms : Z := 30 * 24 * 60 * 60 * 1000.

Definition getWeekEntries (read_ok : bool) (disk : gmap string Stored) (now : Z)
    : Promise (list MoodEntry) :=
  await (getMoodEntries read_ok disk) (fun v =>
  await (array_of v) (fun entries =>
    let weekAgo := (now - week_ms)%Z in
    Resolved (List.filter (fun e => (weekAgo <=? timestamp e)%Z) entries))).

Definition getMonthEntries (read_ok : bool) (disk : gmap string Stored) (now : Z)
    : Promise (list MoodEntry) :=
  await (getMoodEntries read_ok disk) (fun v =>
  await (array_of v) (fun entries =>
    let monthAgo := (now - month_ms)%Z in
    Resolved (List.filter (fun e => (monthAgo <=? timestamp e)%Z) entries))).

(** [localeCompare] is the collation of the platform. *)
Definition getDatesWithEntries (read_ok : bool) (disk : gmap string Stored)
    (localeCompare : string -> string -> Z) : Promise (list string) :=
  await (getMoodEntries read_ok disk) (fun v =>
  await (array_of v) (fun entries =>
    let dates := JS.Set_spread (map date entries) in
    Resolved (JS.sort (fun a b => localeCompare b a) dates))).

(** *** Stories *)

Definition getStories_try (read_ok : bool) (disk : gmap string Stored)
    : Promise (Parsed DayStory) :=
  await (getItem read_ok disk STORIES) (fun data =>
    match data with
    | Some t => if truthy_text t then JSON_parse_stories t else Resolved (Items [])
    | None => Resolved (Items [])
    end).

Definition getStories (read_ok : bool) (disk : gmap string Stored)
    : Promise (Parsed DayStory) :=
  try_catch (getStories_try read_ok disk) (fun _ => Resolved (Items [])).

Definition saveStory (read_ok write_ok : bool) (disk : gmap string Stored) (story : DayStory)
    : Promise unit * gmap string Stored :=
  match await (getStories read_ok disk) array_of with
  | Rejected e => (Rejected e, disk)
  | Resolved stories =>
      let filteredStories :=
        List.filter (fun s => negb (String.eqb (story_date s) (story_date story))) stories in
      let filteredStories := filteredStories ++ [story] in
      setItem write_ok disk STORIES (StoriesJson filteredStories)
  end.

Definition getStoryForDate (read_ok : bool) (disk : gmap string Stored) (d : string)
    : Promise (option DayStory) :=
  await (getStories read_ok disk) (fun v =>
  await (array_of v) (fun stories =>
    Resolved (List.find (fun s => String.eqb (story_date s) d) stories))).

Definition getTodayStory (read_ok : bool) (disk : gmap string Stored) (today : string)
    : Promise (option DayStory) :=
  getStoryForDate read_ok disk today.

(** *** Clearing *)

Definition clearAllData (write_ok : bool) (disk : gmap string Stored)
    : Promise unit * gmap string Stored :=
  match multiRemove write_ok disk STORAGE_KEYS_values with
  | (Resolved _, disk') => (Resolved tt, disk')
  | (Rejected _, disk') => (Resolved tt, disk')
  end.

(** *** Advanced insights *)

(** [list.includes(m)] on moods. *)
Definition mood_in (l : list Mood) (m : Mood) : bool :=
  existsb (fun x => bool_decide (x = m)) l.

(** [['happy', 'calm', 'excited', 'focused'].includes(m)]. *)
Definition positive (m : Mood) : bool := mood_in [happy; calm; excited; focused] m.

Definition moodCounts_init : MoodCounts :=
  [ (happy, 0); (calm, 0); (tired, 0); (anxious, 0)
  ; (focused, 0); (neutral, 0); (excited, 0); (sad, 0) ].

(** [moodCounts[m]]. *)
Fixpoint count_of (counts : MoodCounts) (m : Mood) : nat :=
  match counts with
  | [] => 0
  | (k, n) :: rest => if bool_decide (k = m) then n else count_of rest m
  end.

(** [moodCounts[m]++]. *)
Definition increment (m : Mood) (counts : MoodCounts) : MoodCounts :=
  map (fun kv => if bool_decide (fst kv = m) then (fst kv, S (snd kv)) else kv) counts.

(** [entries.forEach(entry => { moodCounts[entry.mood]++; })]. *)
Definition tally (entries : list MoodEntry) : MoodCounts :=
  fold_left (fun counts entry => increment (mood entry) counts) entries moodCounts_init.

(** One round of the loop over [Object.keys(moodCounts)]; the state is
    [(dominantMood, maxCount)]. *)
Definition dominant_step (counts : MoodCounts) (st : Mood * nat) (m : Mood) : Mood * nat :=
  if (snd st <? count_of counts m)%nat then (m, count_of counts m) else st.

Definition find_dominant (counts : MoodCounts) : Mood * nat :=
  fold_left (dominant_step counts) (map fst counts) (neutral, 0).

Definition moodDescriptions (m : Mood) : string :=
  match m with
  | happy => "joyful"
  | calm => "peaceful"
  | tired => "exhausted"
  | anxious => "restless"
  | focused => "driven"
  | neutral => "balanced"
  | excited => "energized"
  | sad => "melancholic"
  end.

(** [n / 2] as a number. *)
Definition half (n : nat) : float := PrimFloat.div (JS.number_of_nat n) 2%float.

(** [Record<ActivityId, Mood[]>], the keys in the order of their first
    insertion. *)
Definition ActivityMoodMap : Type := list (ActivityId * list Mood).

(** [if (!map[act]) map[act] = []; map[act].push(m)]. *)
Fixpoint push_mood (act : ActivityId) (m : Mood) (amap : ActivityMoodMap) : ActivityMoodMap :=
  match amap with
  | [] => [(act, [m])]
  | (k, ms) :: rest =>
      if bool_decide (k = act) then (k, ms ++ [m]) :: rest
      else (k, ms) :: push_mood act m rest
  end.

Definition activities_or_empty (e : MoodEntry) : list ActivityId :=
  match activities e with Some l => l | None => [] end.

Definition activityMoodMap (entriesWithActivities : list MoodEntry) : ActivityMoodMap :=
  fold_left
    (fun amap e => fold_left (fun amap act => push_mood act (mood e) amap)
                     (activities_or_empty e) amap)
    entriesWithActivities [].

(** [ACTIVITIES.find(a => a.id === activity)?.label || activity]. *)
Definition activityName (activity : ActivityId) : string :=
  match List.find (fun a => bool_decide (activity_id a = activity)) ACTIVITIES with
  | Some a => if JS.truthy_string (label a) then label a else activity_string activity
  | None => activity_string activity
  end.

Definition activity_insights (amap : ActivityMoodMap) : list string :=
  flat_map
    (fun '(activity, moods) =>
       let positiveCount := length (List.filter positive moods) in
       if JS.gt (JS.number_of_nat positiveCount) (half (length moods))
       then [activityName activity +:+ " seems to lift your spirits."]
       else [])
    amap.

Definition generateBasicInsights (entries : list MoodEntry) (counts : MoodCounts)
    (dominant : Mood) : list string :=
  let insights :=
    ["You've been feeling mostly " +:+ moodDescriptions dominant +:+ " this week."] in
  let eveningEntries :=
    List.filter (fun e => bool_decide (timeOfDay e = StoryEngine.evening)) entries in
  let eveningCalm :=
    length (List.filter (fun e => mood_in [calm; happy; sad] (mood e)) eveningEntries) in
  let insights :=
    if (0 <? length eveningEntries)%nat
       && JS.gt (JS.number_of_nat eveningCalm) (half (length eveningEntries))
    then insights ++ ["Evenings bring you peace. You're often calmer as the day winds down."]
    else insights in
  let morningEntries :=
    List.filter (fun e => bool_decide (timeOfDay e = StoryEngine.morning)) entries in
  let morningTired :=
    length (List.filter (fun e => bool_decide (mood e = tired)) morningEntries) in
  let insights :=
    if (0 <? length morningEntries)%nat
       && JS.gt (JS.number_of_nat morningTired) (half (length morningEntries))
    then insights ++ ["Mornings have been heavy. Consider adjusting your sleep routine."]
    else insights in
  let entriesWithActivities :=
    List.filter (fun e => match activities e with Some (_ :: _) => true | _ => false end)
      entries in
  let insights :=
    if (0 <? length entriesWithActivities)%nat
    then insights ++ activity_insights (activityMoodMap entriesWithActivities)
    else insights in
  take 3 insights.

(** The energy detector of [generatePatternInsights]. *)
Definition energy_pattern (weekEntries : list MoodEntry) : list PatternInsight :=
  let entriesWithEnergy :=
    List.filter (fun e => match energyLevel e with Some _ => true | None => false end)
      weekEntries in
  if (3 <=? length entriesWithEnergy)%nat then
    let avgEnergy :=
      PrimFloat.div
        (fold_left
           (fun sum e =>
              PrimFloat.add sum
                (JS.number_of_Z (match energyLevel e with Some z => z | None => 0%Z end)))
           entriesWithEnergy 0%float)
        (JS.number_of_nat (length entriesWithEnergy)) in
    if JS.ge avgEnergy 4%float then
      [mkPattern pattern_energy "High Energy Week"
         "Your energy levels have been above average this week!" "⚡"]
    else if JS.le avgEnergy 2%float then
      [mkPattern pattern_energy "Low Energy Pattern"
         "You might need more rest. Consider taking breaks." "🔋"]
    else []
  else [].

Definition morningMoods (weekEntries : list MoodEntry) : list Mood :=
  map mood (List.filter (fun e => bool_decide (timeOfDay e = StoryEngine.morning)) weekEntries).

Definition eveningMoods (weekEntries : list MoodEntry) : list Mood :=
  map mood (List.filter (fun e => bool_decide (timeOfDay e = StoryEngine.evening)) weekEntries).

Definition morningPositive (weekEntries : list MoodEntry) : nat :=
  length (List.filter (mood_in [happy; excited; focused]) (morningMoods weekEntries)).

Definition eveningPositive (weekEntries : list MoodEntry) : nat :=
  length (List.filter (mood_in [happy; calm; excited]) (eveningMoods weekEntries)).

Definition morning_person : PatternInsight :=
  mkPattern pattern_time "Morning Person" "You tend to feel best in the mornings!" "🌅".

Definition night_owl : PatternInsight :=
  mkPattern pattern_time "Night Owl" "Your mood improves as the day goes on." "🌙".

(** The time-of-day detector. *)
Definition time_pattern (weekEntries : list MoodEntry) : list PatternInsight :=
  if (3 <=? length (morningMoods weekEntries))%nat
     && JS.gt (JS.number_of_nat (morningPositive weekEntries))
          (PrimFloat.mul (JS.number_of_nat (length (morningMoods weekEntries))) JS.number_0_7)
  then [morning_person]
  else if (3 <=? length (eveningMoods weekEntries))%nat
          && JS.gt (JS.number_of_nat (eveningPositive weekEntries))
               (PrimFloat.mul (JS.number_of_nat (length (eveningMoods weekEntries))) JS.number_0_7)
  then [night_owl]
  else [].

(** [l.filter(e => positive(e.mood)).length / l.length]. *)
Definition positive_fraction (l : list MoodEntry) : float :=
  PrimFloat.div
    (JS.number_of_nat (length (List.filter (fun e => positive (mood e)) l)))
    (JS.number_of_nat (length l)).

(** The entries of the week before; the two bounds are computed from two
    readings of the clock. *)
Definition lastWeekEntries (allEntries : list MoodEntry) (now_start now_end : Z)
    : list MoodEntry :=
  let lastWeekStart := (now_start - fortnight_ms)%Z in
  let lastWeekEnd := (now_end - week_ms)%Z in
  List.filter
    (fun e => (lastWeekStart <=? timestamp e)%Z && (timestamp e <? lastWeekEnd)%Z)
    allEntries.

Definition upward_trend : PatternInsight :=
  mkPattern pattern_trend "Upward Trend"
    "Your mood has been improving compared to last week!" "📈".

Definition challenging_week : PatternInsight :=
  mkPattern pattern_trend "Challenging Week"
    "This week has been tougher. Be gentle with yourself." "💙".

(** The trend detector. *)
Definition trend_pattern (weekEntries allEntries : list MoodEntry) (now_start now_end : Z)
    : list PatternInsight :=
  let lastWeek := lastWeekEntries allEntries now_start now_end in
  if (3 <=? length weekEntries)%nat && (3 <=? length lastWeek)%nat then
    let thisWeekPositive := positive_fraction weekEntries in
    let lastWeekPositive := positive_fraction lastWeek in
    if JS.gt thisWeekPositive (PrimFloat.add lastWeekPositive JS.number_0_2)
    then [upward_trend]
    else if JS.lt thisWeekPositive (PrimFloat.sub lastWeekPositive JS.number_0_2)
    then [challenging_week]
    else []
  else [].

(** One round of the loop over the week's entries in time order; the
    state is [(consecutiveTired, maxConsecutiveTired)]. *)
Definition tired_step (st : nat * nat) (entry : MoodEntry) : nat * nat :=
  if bool_decide (mood entry = tired) || bool_decide (mood entry = anxious)
  then (S (fst st), Nat.max (snd st) (S (fst st)))
  else (0, snd st).

(** The detector of consecutive tired or anxious entries. *)
Definition fatigue_pattern (weekEntries : list MoodEntry) : list PatternInsight :=
  let sortedEntries := JS.sort (fun a b => (timestamp a - timestamp b)%Z) weekEntries in
  let maxConsecutiveTired := snd (fold_left tired_step sortedEntries (0, 0)) in
  if (3 <=? maxConsecutiveTired)%nat then
    [mkPattern pattern_streak "Rest Needed"
       ("You've been " +:+ (if (4 <=? maxConsecutiveTired)%nat then "really " else "")
        +:+ "tired or anxious for a while. Prioritize self-care.")
       "🫂"]
  else [].

Definition generatePatternInsights (weekEntries allEntries : list MoodEntry)
    (now_start now_end : Z) : list PatternInsight :=
  let patterns := [] in
  let patterns := patterns ++ energy_pattern weekEntries in
  let patterns := patterns ++ time_pattern weekEntries in
  let patterns := patterns ++ trend_pattern weekEntries allEntries now_start now_end in
  let patterns := patterns ++ fatigue_pattern weekEntries in
  take 4 patterns.

(** The dates of the entries, without repetition, latest first. *)
Definition uniqueDates (allEntries : list MoodEntry) (localeCompare : string -> string -> Z)
    : list string :=
  JS.sort (fun a b => localeCompare b a) (JS.Set_spread (map date allEntries)).

(** The loop [for (let i = 0; i < 30; i++)] from the rounds [days] still
    to run: a day without an entry ends it, unless it is day 0. *)
Fixpoint logging_loop (dates : list string) (getDateDaysAgo : nat -> string)
    (days : list nat) (loggingStreak : nat) : nat :=
  match days with
  | [] => loggingStreak
  | i :: rest =>
      let checkDate := getDateDaysAgo i in
      if JS.array_includes dates checkDate
      then logging_loop dates getDateDaysAgo rest (S loggingStreak)
      else if (0 <? i)%nat then loggingStreak
      else logging_loop dates getDateDaysAgo rest loggingStreak
  end.

Definition loggingStreak (allEntries : list MoodEntry) (getDateDaysAgo : nat -> string)
    (localeCompare : string -> string -> Z) : nat :=
  logging_loop (uniqueDates allEntries localeCompare) getDateDaysAgo (seq 0 30) 0.

(** The loop over the entries, latest first, that stops at the first entry
    whose mood is not positive. *)
Fixpoint positive_loop (sortedEntries : list MoodEntry) (positiveStreak : nat) : nat :=
  match sortedEntries with
  | [] => positiveStreak
  | entry :: rest =>
      if positive (mood entry) then positive_loop rest (S positiveStreak)
      else positiveStreak
  end.

Definition positiveStreak (allEntries : list MoodEntry) : nat :=
  positive_loop (JS.sort (fun a b => (timestamp b - timestamp a)%Z) allEntries) 0.

Definition logging_info (n : nat) : StreakInfo :=
  mkStreak streak_logging n
    (string_of_nat n +:+ " day" +:+ (if (1 <? n)%nat then "s" else "")
     +:+ " logging streak! 🔥").

Definition mood_info (n : nat) : StreakInfo :=
  mkStreak streak_mood n (string_of_nat n +:+ " positive entries in a row! ✨").

(** [getDateDaysAgo i] is the date the call of round [i] returns. *)
Definition calculateStreaks (allEntries : list MoodEntry) (getDateDaysAgo : nat -> string)
    (localeCompare : string -> string -> Z) : list StreakInfo :=
  let streaks := [] in
  let logging := loggingStreak allEntries getDateDaysAgo localeCompare in
  let streaks := if (2 <=? logging)%nat then streaks ++ [logging_info logging] else streaks in
  let positives := positiveStreak allEntries in
  let streaks := if (3 <=? positives)%nat then streaks ++ [mood_info positives] else streaks in
  streaks.

(** What [calculateWeeklyInsights] takes from its surroundings: whether
    each of its two reads is carried out, the readings of the clock, the
    calendar and the collation. *)
Record Env : Type := mkEnv {
  read_week_ok : bool;
  read_all_ok : bool;
  now_week : Z;
  now_lastWeekStart : Z;
  now_lastWeekEnd : Z;
  getDateDaysAgo : nat -> string;
  getTodayDate : string;
  localeCompare : string -> string -> Z
}.

Definition calculateWeeklyInsights (env : Env) (disk : gmap string Stored)
    : Promise WeeklyInsight :=
  await (getWeekEntries (read_week_ok env) disk (now_week env)) (fun entries =>
  await (getMoodEntries (read_all_ok env) disk) (fun parsed =>
  await (array_of parsed) (fun allEntries =>
    let counts := tally entries in
    let dominant := fst (find_dominant counts) in
    let insights := generateBasicInsights entries counts dominant in
    let patterns :=
      generatePatternInsights entries allEntries
        (now_lastWeekStart env) (now_lastWeekEnd env) in
    let streaks := calculateStreaks allEntries (getDateDaysAgo env) (localeCompare env) in
    Resolved (mkWeeklyInsight (getTodayDate env) dominant counts insights patterns streaks)))).

End MoodStorage.

(* ================================================================= *)
(** ** Properties of the entry store *)
(* ================================================================= *)

Section EntryStore.
Import MoodStorage.

(** At most one entry per (date, timeOfDay) pair. *)
Definition at_most_one_per_slot (l : list MoodEntry) : Prop :=
  forall d t, length (List.filter (same_slot d t) l) <= 1.

(** The store reads as a collection with at most one entry per slot. *)
Definition store_invariant (disk : gmap string Stored) : Prop :=
  exists l, getMoodEntries true disk = Resolved (Items l) /\ at_most_one_per_slot l.

Lemma same_slot_spec d t e :
  same_slot d t e = true <-> date e = d /\ timeOfDay e = t.
Proof.
  unfold same_slot. rewrite andb_true_iff, String.eqb_eq, bool_decide_eq_true.
  reflexivity.
Qed.

Lemma filter_filter_length {A : Type} (P Q : A -> bool) (l : list A) :
  length (List.filter P (List.filter Q l)) <= length (List.filter P l).
Proof.
  induction l as [|x l IH]; simpl; [lia|].
  destruct (Q x); simpl; destruct (P x); simpl; lia.
Qed.

Lemma filter_none {A : Type} (P Q : A -> bool) (l : list A) :
  (forall x, P x = true -> Q x = true) ->
  List.filter P (List.filter (fun x => negb (Q x)) l) = [].
Proof.
  intros HPQ. induction l as [|x l IH]; simpl; [reflexivity|].
  destruct (Q x) eqn:HQ; simpl; [exact IH|].
  destruct (P x) eqn:HP; [|exact IH].
  apply HPQ in HP. congruence.
Qed.

(** Dropping the entries of a slot and appending one for it leaves that
    one alone in the slot, and no other slot grows. *)
Lemma replace_slot_unique (l : list MoodEntry) (e : MoodEntry) :
  let l' := List.filter (fun x => negb (same_slot (date e) (timeOfDay e) x)) l ++ [e] in
  List.filter (same_slot (date e) (timeOfDay e)) l' = [e]
  /\ (at_most_one_per_slot l -> at_most_one_per_slot l').
Proof.
  intros l'. subst l'. split.
  - rewrite List.filter_app, filter_none by auto. simpl.
    assert (H : same_slot (date e) (timeOfDay e) e = true) by (apply same_slot_spec; auto).
    now rewrite H.
  - intros Hl d t. rewrite List.filter_app, length_app. simpl.
    destruct (same_slot d t e) eqn:He; simpl.
    + apply same_slot_spec in He. destruct He as [<- <-].
      rewrite filter_none by auto. simpl. lia.
    + pose proof (filter_filter_length (same_slot d t)
        (fun x => negb (same_slot (date e) (timeOfDay e) x)) l).
      specialize (Hl d t). lia.
Qed.

Lemma getMoodEntries_after_write (disk : gmap string Stored) (l : list MoodEntry) ok :
  ok = true ->
  getMoodEntries ok (<[MOOD_ENTRIES := EntriesJson l]> disk) = Resolved (Items l).
Proof.
  intros ->. unfold getMoodEntries, getMoodEntries_try, getItem. simpl.
  rewrite lookup_insert_eq. reflexivity.
Qed.

Lemma getMoodEntries_resolves (read_ok : bool) (disk : gmap string Stored) :
  exists v, getMoodEntries read_ok disk = Resolved v.
Proof.
  unfold getMoodEntries, getMoodEntries_try, getItem.
  destruct read_ok; simpl; [|eauto].
  destruct (disk !! MOOD_ENTRIES) as [[l|l| |s]|]; simpl; eauto.
  destruct (JS.truthy_string s); simpl; eauto.
Qed.

Lemma getStories_resolves (read_ok : bool) (disk : gmap string Stored) :
  exists v, getStories read_ok disk = Resolved v.
Proof.
  unfold getStories, getStories_try, getItem.
  destruct read_ok; simpl; [|eauto].
  destruct (disk !! STORIES) as [[l|l| |s]|]; simpl; eauto.
  destruct (JS.truthy_string s); simpl; eauto.
Qed.

(** What one save does to a store that reads as [l]. *)
Lemma saveMoodEntry_written (read_ok : bool) (now_id : Z) (suffix : string) (now : Z)
    (disk : gmap string Stored) (entry : NewMoodEntry) (l : list MoodEntry) :
  getMoodEntries read_ok disk = Resolved (Items l) ->
  let newEntry := make_entry entry (generateId now_id suffix) now in
  let l' :=
    List.filter (fun x => negb (same_slot (new_date entry) (new_timeOfDay entry) x)) l
    ++ [newEntry] in
  saveMoodEntry read_ok true now_id suffix now disk entry
  = (Resolved newEntry, <[MOOD_ENTRIES := EntriesJson l']> disk).
Proof.
  intros Hread newEntry l'. unfold saveMoodEntry. rewrite Hread. reflexivity.
Qed.

Lemma getMoodEntries_fault (disk : gmap string Stored) :
  getMoodEntries false disk = Resolved (Items []).
Proof. reflexivity. Qed.

End EntryStore.

Section EntryStoreClaims.
Import MoodStorage.

(** The content of an entry: everything but its id and timestamp. *)
Definition content_of (e : MoodEntry) : NewMoodEntry :=
  mkNewMoodEntry (date e) (timeOfDay e) (mood e) (emotionTag e) (note e)
    (activities e) (energyLevel e).

(** C1. On a store with at most one entry per (date, timeOfDay), a save
    whose write is carried out resolves with the new entry (the content
    given, the id and the timestamp assigned by the save); afterwards the
    store reads as a collection in which that entry is the only one of
    its slot, and the collection still has at most one entry per slot. A
    second save for the same slot leaves the second entry alone in it. *)
Theorem saveMoodEntry_replaces_slot
    (disk : gmap string Stored) (entry : NewMoodEntry)
    (read_ok : bool) (now_id : Z) (suffix : string) (now : Z) :
  store_invariant disk ->
  let newEntry := make_entry entry (generateId now_id suffix) now in
  let saved := saveMoodEntry read_ok true now_id suffix now disk entry in
  fst saved = Resolved newEntry
  /\ content_of newEntry = entry
  /\ id newEntry = generateId now_id suffix
  /\ timestamp newEntry = now
  /\ (exists l',
        getMoodEntries true (snd saved) = Resolved (Items l')
        /\ List.filter (same_slot (new_date entry) (new_timeOfDay entry)) l' = [newEntry]
        /\ at_most_one_per_slot l')
  /\ store_invariant (snd saved)
  /\ (forall (entry2 : NewMoodEntry) (read_ok2 : bool) (now_id2 : Z) (suffix2 : string)
        (now2 : Z),
        new_date entry2 = new_date entry ->
        new_timeOfDay entry2 = new_timeOfDay entry ->
        let newEntry2 := make_entry entry2 (generateId now_id2 suffix2) now2 in
        let saved2 := saveMoodEntry read_ok2 true now_id2 suffix2 now2 (snd saved) entry2 in
        fst saved2 = Resolved newEntry2
        /\ exists l'',
             getMoodEntries true (snd saved2) = Resolved (Items l'')
             /\ List.filter (same_slot (new_date entry) (new_timeOfDay entry)) l''
                = [newEntry2]).
Proof.
  intros [l [Hread Hinv]] newEntry saved.
  (* the entries the save starts from: those of the store, or none when its
     read is not carried out *)
  assert (Hfrom : exists l0, getMoodEntries read_ok disk = Resolved (Items l0)
                             /\ at_most_one_per_slot l0).
  { destruct read_ok; [eauto|].
    exists []. split; [reflexivity|]. intros d t. simpl. lia. }
  destruct Hfrom as [l0 [Hread0 Hinv0]].
  pose proof (saveMoodEntry_written read_ok now_id suffix now disk entry l0 Hread0) as Hsave.
  cbv zeta in Hsave. fold newEntry in Hsave. fold saved in Hsave.
  pose proof (replace_slot_unique l0 newEntry) as [Hslot Hkeep].
  change (date newEntry) with (new_date entry) in Hslot, Hkeep.
  change (timeOfDay newEntry) with (new_timeOfDay entry) in Hslot, Hkeep.
  set (l' := List.filter
               (fun x => negb (same_slot (new_date entry) (new_timeOfDay entry) x)) l0
             ++ [newEntry]) in *.
  assert (Hread' : getMoodEntries true (snd saved) = Resolved (Items l')).
  { rewrite Hsave. simpl. now apply getMoodEntries_after_write. }
  split; [now rewrite Hsave|].
  split; [now destruct entry|].
  split; [reflexivity|].
  split; [reflexivity|].
  split; [exists l'; auto|].
  split; [exists l'; auto|].
  intros entry2 read_ok2 now_id2 suffix2 now2 Hd Ht newEntry2 saved2.
  assert (Hfrom2 : exists l1, getMoodEntries read_ok2 (snd saved) = Resolved (Items l1)).
  { destruct read_ok2; [eauto|]. exists []. reflexivity. }
  destruct Hfrom2 as [l1 Hread1].
  pose proof (saveMoodEntry_written read_ok2 now_id2 suffix2 now2 (snd saved) entry2 l1 Hread1)
    as Hsave2.
  cbv zeta in Hsave2. fold newEntry2 in Hsave2. fold saved2 in Hsave2.
  split; [now rewrite Hsave2|].
  eexists. split.
  - rewrite Hsave2. simpl. now apply getMoodEntries_after_write.
  - pose proof (replace_slot_unique l1 newEntry2) as [Hslot2 _].
    change (date newEntry2) with (new_date entry2) in Hslot2.
    change (timeOfDay newEntry2) with (new_timeOfDay entry2) in Hslot2.
    rewrite <- Hd, <- Ht. exact Hslot2.
Qed.

(** C9. Whatever the device holds and whether or not the read is carried
    out, [getMoodEntries] and [getStories] resolve; when the read or the
    parse fails (the body of the [try] rejects: the device does not carry
    out the read, or the stored text is not JSON) they resolve with the
    empty list. *)
Theorem reads_never_reject (read_ok : bool) (disk : gmap string Stored) :
  (exists v, getMoodEntries read_ok disk = Resolved v)
  /\ (exists v, getStories read_ok disk = Resolved v)
  /\ ((exists e, getMoodEntries_try read_ok disk = Rejected e) ->
      getMoodEntries read_ok disk = Resolved (Items []))
  /\ ((exists e, getStories_try read_ok disk = Rejected e) ->
      getStories read_ok disk = Resolved (Items []))
  /\ (read_ok = false ->
      getMoodEntries read_ok disk = Resolved (Items [])
      /\ getStories read_ok disk = Resolved (Items []))
  /\ (forall s, disk !! MOOD_ENTRIES = Some (NotJson s) ->
      getMoodEntries read_ok disk = Resolved (Items []))
  /\ (forall s, disk !! STORIES = Some (NotJson s) ->
      getStories read_ok disk = Resolved (Items [])).
Proof.
  split; [apply getMoodEntries_resolves|].
  split; [apply getStories_resolves|].
  split; [intros [e He]; unfold getMoodEntries; now rewrite He|].
  split; [intros [e He]; unfold getStories; now rewrite He|].
  split; [intros ->; split; reflexivity|].
  split.
  - intros s Hs. unfold getMoodEntries, getMoodEntries_try, getItem.
    destruct read_ok; simpl; [|reflexivity].
    rewrite Hs. simpl. now destruct (JS.truthy_string s).
  - intros s Hs. unfold getStories, getStories_try, getItem.
    destruct read_ok; simpl; [|reflexivity].
    rewrite Hs. simpl. now destruct (JS.truthy_string s).
Qed.

Lemma multiRemove_lookup (disk : gmap string Stored) (keys : list string) (k : string) :
  foldr delete disk keys !! k = if bool_decide (k ∈ keys) then None else disk !! k.
Proof.
  induction keys as [|k' keys IH]; cbn [foldr].
  - case_bool_decide as Hin; [|reflexivity]. now apply elem_of_nil in Hin.
  - rewrite lookup_delete, IH. destruct (decide (k' = k)) as [->|Hne].
    + rewrite bool_decide_eq_true_2; [reflexivity|]. apply list_elem_of_here.
    + rewrite (bool_decide_ext (k ∈ k' :: keys) (k ∈ keys)); [reflexivity|].
      rewrite elem_of_cons. intuition congruence.
Qed.

Lemma getMoodEntries_absent (read_ok : bool) (disk : gmap string Stored) :
  disk !! MOOD_ENTRIES = None -> getMoodEntries read_ok disk = Resolved (Items []).
Proof.
  intros Hnone. unfold getMoodEntries, getMoodEntries_try, getItem.
  destruct read_ok; simpl; [|reflexivity]. now rewrite Hnone.
Qed.

Lemma getStories_absent (read_ok : bool) (disk : gmap string Stored) :
  disk !! STORIES = None -> getStories read_ok disk = Resolved (Items []).
Proof.
  intros Hnone. unfold getStories, getStories_try, getItem.
  destruct read_ok; simpl; [|reflexivity]. now rewrite Hnone.
Qed.

(** C10. A clear that the device carries out removes the text under each
    of the four keys (mood entries, stories, settings, custom moods) and
    under no other key; afterwards [getMoodEntries] and [getStories]
    resolve with the empty list. *)
Theorem clearAllData_erases_all_keys (disk : gmap string Stored) :
  let cleared := clearAllData true disk in
  fst cleared = Resolved tt
  /\ snd cleared !! MOOD_ENTRIES = None
  /\ snd cleared !! STORIES = None
  /\ snd cleared !! SETTINGS = None
  /\ snd cleared !! CUSTOM_MOODS = None
  /\ (forall k, k ∉ STORAGE_KEYS_values -> snd cleared !! k = disk !! k)
  /\ (forall read_ok,
        getMoodEntries read_ok (snd cleared) = Resolved (Items [])
        /\ getStories read_ok (snd cleared) = Resolved (Items [])).
Proof.
  intros cleared.
  assert (Hk : forall k, snd cleared !! k
                         = if bool_decide (k ∈ STORAGE_KEYS_values) then None else disk !! k).
  { intros k. apply multiRemove_lookup. }
  assert (Hm : snd cleared !! MOOD_ENTRIES = None) by (rewrite Hk; reflexivity).
  assert (Hs : snd cleared !! STORIES = None) by (rewrite Hk; reflexivity).
  split; [reflexivity|].
  split; [exact Hm|].
  split; [exact Hs|].
  split; [rewrite Hk; reflexivity|].
  split; [rewrite Hk; reflexivity|].
  split.
  - intros k Hnin. rewrite Hk. now rewrite bool_decide_eq_false_2.
  - intros read_ok. split.
    + now apply getMoodEntries_absent.
    + now apply getStories_absent.
Qed.

End EntryStoreClaims.

(* ================================================================= *)
(** ** Facts about the array primitives *)
(* ================================================================= *)

Section Arrays.

Lemma sort_insert_perm {T : Type} (cmp : T -> T -> Z) (x : T) (l : list T) :
  Permutation (JS.sort_insert cmp x l) (x :: l).
Proof.
  induction l as [|y l IH]; simpl; [reflexivity|].
  destruct (cmp x y <=? 0)%Z; [reflexivity|].
  rewrite IH. apply perm_swap.
Qed.

Lemma sort_perm {T : Type} (cmp : T -> T -> Z) (l : list T) :
  Permutation (JS.sort cmp l) l.
Proof.
  induction l as [|x l IH]; simpl; [reflexivity|].
  unfold JS.sort in *. simpl. rewrite sort_insert_perm. now constructor.
Qed.

(** Sorting by a numeric key, largest first. *)
Lemma sort_insert_descending {T : Type} (key : T -> Z) (x : T) (l : list T) :
  StronglySorted (fun a b => (key b <= key a)%Z) l ->
  StronglySorted (fun a b => (key b <= key a)%Z)
    (JS.sort_insert (fun a b => (key b - key a)%Z) x l).
Proof.
  induction l as [|y l IH]; intros Hs; simpl.
  - constructor; constructor.
  - inversion Hs as [|? ? Hl Hy]; subst.
    destruct (key y - key x <=? 0)%Z eqn:Hc.
    + apply Z.leb_le in Hc. constructor; [exact Hs|].
      constructor; [lia|].
      rewrite List.Forall_forall in Hy |- *. intros z Hz. specialize (Hy z Hz). lia.
    + apply Z.leb_gt in Hc. constructor; [now apply IH|].
      rewrite List.Forall_forall in Hy |- *. intros z Hz.
      apply (Permutation_in _ (sort_insert_perm _ x l)) in Hz.
      destruct Hz as [<-|Hz]; [lia|now apply Hy].
Qed.

Lemma sort_descending {T : Type} (key : T -> Z) (l : list T) :
  StronglySorted (fun a b => (key b <= key a)%Z)
    (JS.sort (fun a b => (key b - key a)%Z) l).
Proof.
  induction l as [|x l IH]; simpl; [constructor|].
  unfold JS.sort in *. simpl. now apply sort_insert_descending.
Qed.

(** The sort is stable: entries with the same key keep their order. *)
Lemma sort_insert_stable {T : Type} (key : T -> Z) (k : Z) (x : T) (l : list T) :
  List.filter (fun a => (key a =? k)%Z)
    (JS.sort_insert (fun a b => (key b - key a)%Z) x l)
  = List.filter (fun a => (key a =? k)%Z) (x :: l).
Proof.
  induction l as [|y l IH]; simpl; [reflexivity|].
  destruct (key y - key x <=? 0)%Z eqn:Hc; [reflexivity|].
  apply Z.leb_gt in Hc. simpl. rewrite IH. simpl.
  destruct (key x =? k)%Z eqn:Hx, (key y =? k)%Z eqn:Hy; try reflexivity.
  apply Z.eqb_eq in Hx, Hy. lia.
Qed.

Lemma sort_stable {T : Type} (key : T -> Z) (k : Z) (l : list T) :
  List.filter (fun a => (key a =? k)%Z) (JS.sort (fun a b => (key b - key a)%Z) l)
  = List.filter (fun a => (key a =? k)%Z) l.
Proof.
  induction l as [|x l IH]; simpl; [reflexivity|].
  unfold JS.sort in *. simpl. rewrite sort_insert_stable. simpl. now rewrite IH.
Qed.

Lemma array_includes_In (arr : list string) (x : string) :
  JS.array_includes arr x = true <-> In x arr.
Proof.
  unfold JS.array_includes. rewrite existsb_exists. split.
  - intros [y [Hy Heq]]. apply String.eqb_eq in Heq. now subst.
  - intros Hin. exists x. split; [exact Hin|apply String.eqb_refl].
Qed.

Lemma distinct_from_In (seen l : list string) (x : string) :
  In x (JS.distinct_from seen l) <-> In x l /\ ~ In x seen.
Proof.
  revert seen. induction l as [|y l IH]; intros seen; simpl; [tauto|].
  destruct (existsb (String.eqb y) seen) eqn:Hy.
  - apply (array_includes_In seen y) in Hy. rewrite IH. split.
    + intros [H1 H2]. tauto.
    + intros [[->|H1] H2]; tauto.
  - assert (Hn : ~ In y seen).
    { intros Hin. apply (array_includes_In seen y) in Hin.
      unfold JS.array_includes in Hin. congruence. }
    simpl. rewrite IH. simpl. split.
    + intros [->|[H1 H2]]; tauto.
    + intros [[->|H1] H2]; [tauto|].
      destruct (String.eqb_spec y x) as [->|Hne]; [tauto|]. right. tauto.
Qed.

Lemma Set_spread_In (l : list string) (x : string) :
  In x (JS.Set_spread l) <-> In x l.
Proof. unfold JS.Set_spread. rewrite distinct_from_In. simpl. tauto. Qed.

End Arrays.

(* ================================================================= *)
(** ** Streaks *)
(* ================================================================= *)

Section Streaks.
Import MoodStorage.

(** Day [i] before today has at least one entry. *)
Definition logged (allEntries : list MoodEntry) (getDateDaysAgo : nat -> string) (i : nat)
    : bool :=
  existsb (fun e => String.eqb (date e) (getDateDaysAgo i)) allEntries.

(** The number of consecutive days with an entry, from day [a] on, among
    [k] days. *)
Fixpoint run_of_days (has : nat -> bool) (a k : nat) : nat :=
  match k with
  | 0 => 0
  | S k' => if has a then S (run_of_days has (S a) k') else 0
  end.


Definition is_mood (s : StreakInfo) : bool :=
  match streak_type s with streak_mood => true | streak_logging => false end.

Lemma uniqueDates_includes allEntries getDateDaysAgo localeCompare i :
  JS.array_includes (uniqueDates allEntries localeCompare) (getDateDaysAgo i)
  = logged allEntries getDateDaysAgo i.
Proof.
  apply Bool.eq_iff_eq_true. rewrite array_includes_In. unfold uniqueDates, logged.
  rewrite existsb_exists. split.
  - intros Hin. apply (Permutation_in _ (sort_perm _ _)) in Hin.
    rewrite Set_spread_In, in_map_iff in Hin.
    destruct Hin as [e [He Hin]]. exists e. split; [exact Hin|]. now apply String.eqb_eq.
  - intros [e [Hin He]]. apply String.eqb_eq in He.
    apply (Permutation_in _ (Permutation_sym (sort_perm _ _))).
    rewrite Set_spread_In, in_map_iff. eauto.
Qed.

Lemma run_of_days_ext (has has' : nat -> bool) (a k : nat) :
  (forall i, has i = has' i) -> run_of_days has a k = run_of_days has' a k.
Proof.
  intros Hext. revert a. induction k as [|k IH]; intros a; simpl; [reflexivity|].
  now rewrite Hext, IH.
Qed.

(** From day 1 on, the loop adds the run of days to its counter. *)
Lemma logging_loop_run dates getDateDaysAgo (k a acc : nat) :
  1 <= a ->
  logging_loop dates getDateDaysAgo (seq a k) acc
  = acc + run_of_days (fun i => JS.array_includes dates (getDateDaysAgo i)) a k.
Proof.
  revert a acc. induction k as [|k IH]; intros a acc Ha; simpl; [lia|].
  destruct (JS.array_includes dates (getDateDaysAgo a)).
  - rewrite IH by lia. lia.
  - destruct a; [lia|]. simpl. lia.
Qed.

Lemma run_of_days_spec (has : nat -> bool) (k a : nat) :
  run_of_days has a k <= k
  /\ (forall i, a <= i < a + run_of_days has a k -> has i = true)
  /\ (run_of_days has a k < k -> has (a + run_of_days has a k) = false).
Proof.
  revert a. induction k as [|k IH]; intros a; simpl.
  - split; [lia|]. split; intros; lia.
  - destruct (has a) eqn:Ha.
    + destruct (IH (S a)) as [H1 [H2 H3]]. split; [lia|]. split.
      * intros i Hi. destruct (Nat.eq_dec i a) as [->|Hne]; [exact Ha|].
        apply H2. lia.
      * intros Hlt. replace (a + S (run_of_days has (S a) k))
          with (S a + run_of_days has (S a) k) by lia.
        apply H3. lia.
    + split; [lia|]. split.
      * intros i Hi. lia.
      * intros _. now rewrite Nat.add_0_r.
Qed.

(** Day 0 is counted when it has an entry and never stops the loop. *)
Lemma logging_loop_from_today dates getDateDaysAgo (k : nat) :
  logging_loop dates getDateDaysAgo (seq 0 (S k)) 0
  = (if JS.array_includes dates (getDateDaysAgo 0) then 1 else 0)
    + run_of_days (fun i => JS.array_includes dates (getDateDaysAgo i)) 1 k.
Proof.
  cbn [seq logging_loop].
  destruct (JS.array_includes dates (getDateDaysAgo 0)).
  - apply logging_loop_run, Nat.le_refl.
  - change (0 <? 0)%nat with false. cbv iota. apply logging_loop_run, Nat.le_refl.
Qed.

Lemma loggingStreak_eq allEntries getDateDaysAgo localeCompare :
  loggingStreak allEntries getDateDaysAgo localeCompare
  = (if logged allEntries getDateDaysAgo 0 then 1 else 0)
    + run_of_days (logged allEntries getDateDaysAgo) 1 29.
Proof.
  unfold loggingStreak. rewrite (logging_loop_from_today _ _ 29).
  rewrite uniqueDates_includes. f_equal.
  apply run_of_days_ext. intros i. apply uniqueDates_includes.
Qed.

Lemma calculateStreaks_eq allEntries getDateDaysAgo localeCompare :
  calculateStreaks allEntries getDateDaysAgo localeCompare
  = (if (2 <=? loggingStreak allEntries getDateDaysAgo localeCompare)%nat
     then [logging_info (loggingStreak allEntries getDateDaysAgo localeCompare)] else [])
    ++ (if (3 <=? positiveStreak allEntries)%nat
        then [mood_info (positiveStreak allEntries)] else []).
Proof.
  unfold calculateStreaks.
  destruct (2 <=? loggingStreak allEntries getDateDaysAgo localeCompare)%nat;
    destruct (3 <=? positiveStreak allEntries)%nat; reflexivity.
Qed.


(** The loop adds to its counter the length of the leading run of
    positive entries. *)
Lemma positive_loop_spec (l : list MoodEntry) (acc : nat) :
  exists run rest,
    l = run ++ rest
    /\ Forall (fun e => positive (mood e) = true) run
    /\ match rest with [] => True | e :: _ => positive (mood e) = false end
    /\ positive_loop l acc = acc + length run.
Proof.
  revert acc. induction l as [|e l IH]; intros acc; simpl.
  - exists [], []. repeat split; [constructor|simpl; lia].
  - destruct (positive (mood e)) eqn:He.
    + destruct (IH (S acc)) as [run [rest [-> [Hall [Hhd Hlen]]]]].
      exists (e :: run), rest. repeat split; [now constructor|exact Hhd|].
      rewrite Hlen. simpl. lia.
    + exists [], (e :: l). repeat split; [constructor|exact He|simpl; lia].
Qed.

(** C3. The mood count is the length of the leading run of entries with
    a positive mood (happy, calm, excited, focused) in the entries sorted
    by timestamp, latest first (entries with equal timestamps in their
    stored order); the run ends at the first entry whose mood is not
    positive. The mood streak is reported exactly when the count is at
    least 3. Moods happy, excited, tired, calm in that order give 2. *)
Theorem mood_streak_is_leading_positive_run (allEntries : list MoodEntry)
    (getDateDaysAgo : nat -> string) (localeCompare : string -> string -> Z) :
  let sortedEntries := JS.sort (fun a b => (timestamp b - timestamp a)%Z) allEntries in
  let n := positiveStreak allEntries in
  Permutation sortedEntries allEntries
  /\ StronglySorted (fun a b => (timestamp b <= timestamp a)%Z) sortedEntries
  /\ (forall t, List.filter (fun e => (timestamp e =? t)%Z) sortedEntries
                = List.filter (fun e => (timestamp e =? t)%Z) allEntries)
  /\ (exists run rest,
        sortedEntries = run ++ rest
        /\ Forall (fun e => In (mood e) [happy; calm; excited; focused]) run
        /\ match rest with
           | [] => True
           | e :: _ => ~ In (mood e) [happy; calm; excited; focused]
           end
        /\ n = length run)
  /\ List.filter is_mood (calculateStreaks allEntries getDateDaysAgo localeCompare)
     = (if (3 <=? n)%nat then [mood_info n] else [])
  /\ count (mood_info n) = n
  /\ (map mood sortedEntries = [happy; excited; tired; calm] -> n = 2).
Proof.
  intros sortedEntries n.
  assert (Hpos : forall m, positive m = true <-> In m [happy; calm; excited; focused]).
  { intros m. destruct m; simpl; split; intros H; try reflexivity; try discriminate;
      intuition congruence. }
  split; [apply sort_perm|].
  split; [apply (sort_descending timestamp)|].
  split; [intros t; apply (sort_stable timestamp)|].
  split.
  { destruct (positive_loop_spec sortedEntries 0) as [run [rest [Hsplit [Hall [Hhd Hlen]]]]].
    exists run, rest. split; [exact Hsplit|]. split; [|split].
    - eapply List.Forall_impl; [|exact Hall]. intros e He. now apply Hpos.
    - destruct rest as [|e rest]; [exact I|]. intros Hin. apply Hpos in Hin. congruence.
    - exact Hlen. }
  split.
  { rewrite calculateStreaks_eq. fold n. rewrite List.filter_app.
    destruct (2 <=? loggingStreak allEntries getDateDaysAgo localeCompare)%nat;
      destruct (3 <=? n)%nat; reflexivity. }
  split; [reflexivity|].
  intros Hmoods. subst n. unfold positiveStreak. fold sortedEntries.
  destruct sortedEntries as [|e1 [|e2 [|e3 [|e4 [|e5 l]]]]]; try discriminate.
  simpl in Hmoods. injection Hmoods as H1 H2 H3 H4.
  simpl. now rewrite H1, H2, H3.
Qed.

End Streaks.

(* ================================================================= *)
(** ** The dominant mood *)
(* ================================================================= *)

Section DominantMood.
Import MoodStorage.

(** The fixed order of the eight moods. *)
Definition enumeration : list Mood :=
  [happy; calm; tired; anxious; focused; neutral; excited; sad].

(** The place of a mood in that order. *)
Definition position (m : Mood) : nat :=
  match m with
  | happy => 0 | calm => 1 | tired => 2 | anxious => 3
  | focused => 4 | neutral => 5 | excited => 6 | sad => 7
  end.

(** How many of the entries have mood [m]. *)
Definition occurrences (entries : list MoodEntry) (m : Mood) : nat :=
  length (List.filter (fun e => bool_decide (mood e = m)) entries).

Lemma increment_keys (m : Mood) (counts : MoodCounts) :
  map fst (increment m counts) = map fst counts.
Proof.
  unfold increment. induction counts as [|[k n] counts IH]; simpl; [reflexivity|].
  rewrite IH. now destruct (bool_decide (k = m)).
Qed.

Lemma count_of_increment (m k : Mood) (counts : MoodCounts) :
  In m (map fst counts) ->
  count_of (increment m counts) k
  = if bool_decide (m = k) then S (count_of counts k) else count_of counts k.
Proof.
  unfold increment. induction counts as [|[k0 n0] counts IH]; simpl; [tauto|].
  intros Hin.
  destruct (decide (k0 = m)) as [->|Hne].
  - rewrite bool_decide_eq_true_2 by reflexivity. simpl.
    destruct (decide (m = k)) as [->|Hmk].
    + now rewrite !bool_decide_eq_true_2.
    + rewrite !bool_decide_eq_false_2 by assumption.
      fold (increment m counts). clear IH Hin.
      induction counts as [|[k1 n1] counts IH]; simpl; [reflexivity|].
      destruct (decide (k1 = m)) as [->|H1].
      * rewrite bool_decide_eq_true_2 by reflexivity. simpl.
        rewrite bool_decide_eq_false_2 by assumption. exact IH.
      * rewrite (bool_decide_eq_false_2 (k1 = m)) by assumption.
        simpl. destruct (bool_decide (k1 = k)); [reflexivity|exact IH].
  - rewrite bool_decide_eq_false_2 by assumption. simpl.
    destruct Hin as [Hin|Hin]; [congruence|].
    destruct (decide (k0 = k)) as [->|Hk].
    + rewrite bool_decide_eq_true_2 by reflexivity.
      rewrite bool_decide_eq_false_2; [reflexivity|congruence].
    + rewrite bool_decide_eq_false_2 by assumption. now apply IH.
Qed.

Lemma tally_from (entries : list MoodEntry) (counts : MoodCounts) :
  map fst counts = enumeration ->
  map fst (fold_left (fun c e => increment (mood e) c) entries counts) = enumeration
  /\ forall m,
       count_of (fold_left (fun c e => increment (mood e) c) entries counts) m
       = count_of counts m + occurrences entries m.
Proof.
  revert counts. induction entries as [|e entries IH]; intros counts Hkeys; simpl.
  - split; [exact Hkeys|]. intros m. unfold occurrences. simpl. lia.
  - destruct (IH (increment (mood e) counts)) as [H1 H2].
    { now rewrite increment_keys. }
    split; [exact H1|]. intros m. rewrite H2, count_of_increment.
    + unfold occurrences. simpl. destruct (bool_decide (mood e = m)); simpl; lia.
    + rewrite Hkeys. destruct (mood e); simpl; tauto.
Qed.

Lemma tally_counts (entries : list MoodEntry) :
  map fst (tally entries) = enumeration
  /\ forall m, count_of (tally entries) m = occurrences entries m.
Proof.
  destruct (tally_from entries moodCounts_init eq_refl) as [H1 H2].
  split; [exact H1|]. intros m. unfold tally. rewrite H2. now destruct m.
Qed.

(** The loop over the keys: either no key has a count above the starting
    maximum and the state is unchanged, or the result is the first key
    that reaches the largest count. *)
Lemma dominant_loop (counts : MoodCounts) (keys : list Mood) (d0 : Mood) (n0 : nat) :
  let result := fold_left (dominant_step counts) keys (d0, n0) in
  (forall k, In k keys -> count_of counts k <= snd result)
  /\ ((result = (d0, n0) /\ forall k, In k keys -> count_of counts k <= n0)
      \/ (exists before after,
            keys = before ++ fst result :: after
            /\ snd result = count_of counts (fst result)
            /\ n0 < snd result
            /\ forall k, In k before -> count_of counts k < snd result)).
Proof.
  revert d0 n0. induction keys as [|k keys IH]; intros d0 n0; simpl.
  - split; [tauto|]. left. split; [reflexivity|tauto].
  - change (dominant_step counts (d0, n0) k)
      with (if (n0 <? count_of counts k)%nat then (k, count_of counts k) else (d0, n0)).
    destruct (n0 <? count_of counts k)%nat eqn:Hlt.
    + apply Nat.ltb_lt in Hlt.
      destruct (IH k (count_of counts k)) as [Hmax Hcase]. split.
      * intros k' [<-|Hin]; [|now apply Hmax].
        destruct Hcase as [[-> _]|[b [a [_ [_ [Hgt _]]]]]]; simpl; lia.
      * right. destruct Hcase as [[Hres Hall]|[b [a [Hkeys [Hn [Hgt Hb]]]]]].
        -- exists [], keys. rewrite Hres. simpl. repeat split; [lia|tauto].
        -- exists (k :: b), a. split; [simpl; now rewrite <- Hkeys|].
           split; [exact Hn|]. split; [lia|].
           intros k' [<-|Hin]; [lia|now apply Hb].
    + apply Nat.ltb_ge in Hlt.
      destruct (IH d0 n0) as [Hmax Hcase]. split.
      * intros k' [<-|Hin]; [|now apply Hmax].
        destruct Hcase as [[-> _]|[b [a [_ [_ [Hgt _]]]]]]; simpl; lia.
      * destruct Hcase as [[Hres Hall]|[b [a [Hkeys [Hn [Hgt Hb]]]]]].
        -- left. split; [exact Hres|]. intros k' [<-|Hin]; [lia|now apply Hall].
        -- right. exists (k :: b), a. split; [simpl; now rewrite <- Hkeys|].
           split; [exact Hn|]. split; [lia|].
           intros k' [<-|Hin]; [lia|now apply Hb].
Qed.

(** In the fixed order, what stands before a mood has a smaller position. *)
Lemma before_in_enumeration (before after : list Mood) (d m : Mood) :
  enumeration = before ++ d :: after -> position m < position d -> In m before.
Proof.
  unfold enumeration. intros Hsplit Hpos.
  repeat (destruct before as [|? before];
          [ simpl in Hsplit; injection Hsplit as <- _;
            destruct m; simpl in Hpos; try lia; simpl; tauto
          | simpl in Hsplit; injection Hsplit as <- Hsplit ]).
  destruct before; discriminate.
Qed.

End DominantMood.

Section WeeklyReport.
Import MoodStorage.

(** A report is computed from the entries of the last week and from all
    the entries, as the two reads give them. *)
Lemma weekly_report_shape (env : Env) (disk : gmap string Stored) (report : WeeklyInsight) :
  calculateWeeklyInsights env disk = Resolved report ->
  exists entries allEntries,
    getWeekEntries (read_week_ok env) disk (now_week env) = Resolved entries
    /\ getMoodEntries (read_all_ok env) disk = Resolved (Items allEntries)
    /\ report
       = mkWeeklyInsight (getTodayDate env) (fst (find_dominant (tally entries)))
           (tally entries)
           (generateBasicInsights entries (tally entries)
              (fst (find_dominant (tally entries))))
           (generatePatternInsights entries allEntries
              (now_lastWeekStart env) (now_lastWeekEnd env))
           (calculateStreaks allEntries (getDateDaysAgo env) (localeCompare env)).
Proof.
  unfold calculateWeeklyInsights. intros Hreport.
  destruct (getWeekEntries (read_week_ok env) disk (now_week env)) as [entries|e];
    [|discriminate].
  destruct (getMoodEntries (read_all_ok env) disk) as [[allEntries|]|e];
    simpl in Hreport; try discriminate.
  injection Hreport as <-. exists entries, allEntries. repeat split.
Qed.

(** A report is produced whenever both reads give entries. *)
Lemma calculateWeeklyInsights_resolves (env : Env) (disk : gmap string Stored)
    (stored allEntries : list MoodEntry) :
  getMoodEntries (read_week_ok env) disk = Resolved (Items stored) ->
  getMoodEntries (read_all_ok env) disk = Resolved (Items allEntries) ->
  exists report, calculateWeeklyInsights env disk = Resolved report.
Proof.
  intros Hweek Hall. unfold calculateWeeklyInsights, getWeekEntries.
  rewrite Hweek, Hall. simpl. eauto.
Qed.

(** The week's entries are those of the store whose timestamp is within
    the last 7 x 24 hours. *)
Lemma getWeekEntries_window (read_ok : bool) (disk : gmap string Stored) (now : Z)
    (entries : list MoodEntry) :
  getWeekEntries read_ok disk now = Resolved entries ->
  exists stored,
    getMoodEntries read_ok disk = Resolved (Items stored)
    /\ entries = List.filter (fun e => (now - week_ms <=? timestamp e)%Z) stored.
Proof.
  unfold getWeekEntries. intros Hweek.
  destruct (getMoodEntries read_ok disk) as [[stored|]|e]; simpl in Hweek; try discriminate.
  injection Hweek as <-. exists stored. split; reflexivity.
Qed.

(** C4. In a weekly report the counts are the numbers of the week's
    entries per mood, kept in the fixed order of the eight moods. The
    dominant mood is neutral when every count is 0; otherwise no mood has
    a larger count and every mood before it in the fixed order has a
    smaller one (the first mood with the largest count wins). With two
    entries happy, two calm and no other, it is happy. *)
Theorem dominant_mood_is_first_with_highest_count
    (env : Env) (disk : gmap string Stored) (report : WeeklyInsight) :
  calculateWeeklyInsights env disk = Resolved report ->
  exists entries,
    getWeekEntries (read_week_ok env) disk (now_week env) = Resolved entries
    /\ map fst (moodCounts report) = enumeration
    /\ (forall m, count_of (moodCounts report) m = occurrences entries m)
    /\ ((forall m, occurrences entries m = 0) -> dominantMood report = neutral)
    /\ ((exists m, 0 < occurrences entries m) ->
        (forall m, occurrences entries m <= occurrences entries (dominantMood report))
        /\ (forall m, position m < position (dominantMood report) ->
              occurrences entries m < occurrences entries (dominantMood report)))
    /\ (occurrences entries happy = 2 ->
        occurrences entries calm = 2 ->
        (forall m, m <> happy -> m <> calm -> occurrences entries m = 0) ->
        dominantMood report = happy).
Proof.
  intros Hreport.
  destruct (weekly_report_shape env disk report Hreport)
    as [entries [allEntries [Hweek [_ ->]]]].
  exists entries. cbn [moodCounts dominantMood].
  destruct (tally_counts entries) as [Hkeys Hcount].
  pose proof (dominant_loop (tally entries) (map fst (tally entries)) neutral 0) as Hloop.
  cbv zeta in Hloop. fold (find_dominant (tally entries)) in Hloop.
  rewrite Hkeys in Hloop. destruct Hloop as [Hmax Hcase].
  set (d := fst (find_dominant (tally entries))) in *.
  assert (Hall : forall m, In m enumeration) by (intros m; destruct m; simpl; tauto).
  assert (Hzero : (forall m, occurrences entries m = 0) -> d = neutral).
  { intros Hz. destruct Hcase as [[Hres _]|[b [a [_ [Hn [Hgt _]]]]]].
    - subst d. now rewrite Hres.
    - rewrite Hn, Hcount, (Hz d) in Hgt. lia. }
  assert (Hsome : (exists m, 0 < occurrences entries m) ->
                  (forall m, occurrences entries m <= occurrences entries d)
                  /\ (forall m, position m < position d ->
                        occurrences entries m < occurrences entries d)).
  { intros [m0 Hm0]. destruct Hcase as [[_ Hle]|[b [a [Hsplit [Hn [Hgt Hb]]]]]].
    - specialize (Hle m0 (Hall m0)). rewrite Hcount in Hle. lia.
    - split.
      + intros m. specialize (Hmax m (Hall m)).
        rewrite Hn, !Hcount in Hmax. exact Hmax.
      + intros m Hpos. specialize (Hb m (before_in_enumeration b a d m Hsplit Hpos)).
        rewrite Hn, !Hcount in Hb. exact Hb. }
  split; [exact Hweek|]. split; [exact Hkeys|]. split; [exact Hcount|].
  split; [exact Hzero|]. split; [exact Hsome|].
  intros Hh Hc Hother.
  destruct Hsome as [Hmost Hfirst]; [exists happy; lia|].
  destruct (decide (d = happy)) as [Hd|Hd]; [exact Hd|].
  destruct (decide (d = calm)) as [Hdc|Hdc].
  - specialize (Hfirst happy). rewrite Hdc in Hfirst. simpl in Hfirst.
    rewrite Hh, Hc in Hfirst. lia.
  - specialize (Hmost happy). rewrite (Hother d Hd Hdc), Hh in Hmost. lia.
Qed.

End WeeklyReport.

(* ================================================================= *)
(** ** Thresholds in double precision *)
(* ================================================================= *)

Section Thresholds.


(** [p1 / n1] exceeds [p2 / n2] by more than one fifth. *)
Definition exceeds_by_more_than_fifth (p1 n1 p2 n2 : nat) : Prop :=
  5 * p2 * n1 + n1 * n2 < 5 * p1 * n2.

(** [p1 / n1] and [p2 / n2] differ by exactly one fifth. *)
Definition differ_by_exactly_fifth (p1 n1 p2 n2 : nat) : Prop :=
  5 * p1 * n2 = 5 * p2 * n1 + n1 * n2 \/ 5 * p2 * n1 = 5 * p1 * n2 + n1 * n2.

(** [p > n * 0.7] as the code evaluates it. *)
Definition above_70 (p n : nat) : bool :=
  JS.gt (JS.number_of_nat p) (PrimFloat.mul (JS.number_of_nat n) JS.number_0_7).

(** [p / n] as the code evaluates it. *)
Definition fraction (p n : nat) : float :=
  PrimFloat.div (JS.number_of_nat p) (JS.number_of_nat n).

(** [p1 / n1 > p2 / n2 + 0.2] and [p1 / n1 < p2 / n2 - 0.2] as the code
    evaluates them. *)
Definition above_by_fifth (p1 n1 p2 n2 : nat) : bool :=
  JS.gt (fraction p1 n1) (PrimFloat.add (fraction p2 n2) JS.number_0_2).

Definition below_by_fifth (p1 n1 p2 n2 : nat) : bool :=
  JS.lt (fraction p1 n1) (PrimFloat.sub (fraction p2 n2) JS.number_0_2).



Definition trend_agrees (p1 n1 p2 n2 : nat) : bool :=
  let a := (5 * Z.of_nat p1 * Z.of_nat n2)%Z in
  let b := (5 * Z.of_nat p2 * Z.of_nat n1)%Z in
  let c := (Z.of_nat n1 * Z.of_nat n2)%Z in
  (a =? b + c)%Z || (b =? a + c)%Z
  || (Bool.eqb (above_by_fifth p1 n1 p2 n2) (b + c <? a)%Z
      && Bool.eqb (below_by_fifth p1 n1 p2 n2) (a + c <? b)%Z).

Definition trend_check (bound : nat) : bool :=
  forallb
    (fun n1 =>
       forallb
         (fun p1 =>
            forallb
              (fun n2 => forallb (fun p2 => trend_agrees p1 n1 p2 n2) (seq 0 (S n2)))
              (seq 1 bound))
         (seq 0 (S n1)))
    (seq 1 bound).

Lemma forallb_seq (f : nat -> bool) (a k i : nat) :
  forallb f (seq a k) = true -> a <= i < a + k -> f i = true.
Proof.
  intros Hall Hi. apply (proj1 (forallb_forall f (seq a k)) Hall). apply in_seq. exact Hi.
Qed.


Lemma trend_check_sound (bound p1 n1 p2 n2 : nat) :
  trend_check bound = true ->
  1 <= n1 <= bound -> 1 <= n2 <= bound -> p1 <= n1 -> p2 <= n2 ->
  trend_agrees p1 n1 p2 n2 = true.
Proof.
  unfold trend_check. intros Hc H1 H2 Hp1 Hp2.
  pose proof (forallb_seq _ _ _ n1 Hc ltac:(lia)) as Hc1.
  pose proof (forallb_seq _ _ _ p1 Hc1 ltac:(lia)) as Hc2.
  pose proof (forallb_seq _ _ _ n2 Hc2 ltac:(lia)) as Hc3.
  exact (forallb_seq _ _ _ p2 Hc3 ltac:(lia)).
Qed.


Lemma trend_check_24 : trend_check 24 = true.
Proof. vm_compute. reflexivity. Qed.


(** Up to 24 items a side, the double-precision tests are the exact ones
    unless the fractions differ by exactly one fifth. *)
Lemma trend_exact (p1 n1 p2 n2 : nat) :
  1 <= n1 <= 24 -> 1 <= n2 <= 24 -> p1 <= n1 -> p2 <= n2 ->
  ~ differ_by_exactly_fifth p1 n1 p2 n2 ->
  (above_by_fifth p1 n1 p2 n2 = true <-> exceeds_by_more_than_fifth p1 n1 p2 n2)
  /\ (below_by_fifth p1 n1 p2 n2 = true <-> exceeds_by_more_than_fifth p2 n2 p1 n1).
Proof.
  intros H1 H2 Hp1 Hp2 Hnb.
  pose proof (trend_check_sound 24 p1 n1 p2 n2 trend_check_24 H1 H2 Hp1 Hp2) as Hag.
  unfold trend_agrees in Hag. cbv zeta in Hag.
  unfold differ_by_exactly_fifth in Hnb. unfold exceeds_by_more_than_fifth.
  apply orb_true_iff in Hag. destruct Hag as [Hag|Hag].
  - apply orb_true_iff in Hag. destruct Hag as [Hag|Hag]; apply Z.eqb_eq in Hag; lia.
  - apply andb_true_iff in Hag. destruct Hag as [Ha Hb].
    apply Bool.eqb_prop in Ha, Hb. rewrite Ha, Hb.
    rewrite !Z.ltb_lt. lia.
Qed.

End Thresholds.

(* ================================================================= *)
(** ** Pattern detection *)
(* ================================================================= *)

Section Patterns.
Import MoodStorage.

Definition is_time (p : PatternInsight) : bool :=
  match pattern_type p with pattern_time => true | _ => false end.

Definition is_trend (p : PatternInsight) : bool :=
  match pattern_type p with pattern_trend => true | _ => false end.

Definition is_morning (e : MoodEntry) : bool :=
  bool_decide (timeOfDay e = StoryEngine.morning).

Definition is_evening (e : MoodEntry) : bool :=
  bool_decide (timeOfDay e = StoryEngine.evening).

(** The morning entries, and those of them with a mood that counts as
    positive in the morning (happy, excited, focused). *)
Definition morning_count (entries : list MoodEntry) : nat :=
  length (List.filter is_morning entries).

Definition morning_positive_count (entries : list MoodEntry) : nat :=
  length (List.filter
            (fun e => is_morning e && mood_in [happy; excited; focused] (mood e)) entries).

(** The evening entries, and those of them with a mood that counts as
    positive in the evening (happy, calm, excited). *)
Definition evening_count (entries : list MoodEntry) : nat :=
  length (List.filter is_evening entries).

Definition evening_positive_count (entries : list MoodEntry) : nat :=
  length (List.filter
            (fun e => is_evening e && mood_in [happy; calm; excited] (mood e)) entries).

(** The entries with a positive mood (happy, calm, excited, focused). *)
Definition positive_count (entries : list MoodEntry) : nat :=
  length (List.filter (fun e => positive (mood e)) entries).

Lemma filter_map_filter_length {A B : Type} (P : B -> bool) (f : A -> B) (Q : A -> bool)
    (l : list A) :
  length (List.filter P (map f (List.filter Q l)))
  = length (List.filter (fun a => Q a && P (f a)) l).
Proof.
  induction l as [|a l IH]; simpl; [reflexivity|].
  destruct (Q a); simpl; [|exact IH]. destruct (P (f a)); simpl; now rewrite IH.
Qed.

Lemma morning_counts (entries : list MoodEntry) :
  length (morningMoods entries) = morning_count entries
  /\ morningPositive entries = morning_positive_count entries.
Proof.
  split.
  - unfold morningMoods, morning_count. now rewrite length_map.
  - unfold morningPositive, morningMoods, morning_positive_count.
    apply filter_map_filter_length.
Qed.

Lemma evening_counts (entries : list MoodEntry) :
  length (eveningMoods entries) = evening_count entries
  /\ eveningPositive entries = evening_positive_count entries.
Proof.
  split.
  - unfold eveningMoods, evening_count. now rewrite length_map.
  - unfold eveningPositive, eveningMoods, evening_positive_count.
    apply filter_map_filter_length.
Qed.

Ltac split_ifs :=
  repeat match goal with
         | |- context [if ?c then _ else _] => destruct c
         end.

(** Each detector gives at most one pattern, of its own type. *)
Lemma energy_pattern_shape (weekEntries : list MoodEntry) :
  length (energy_pattern weekEntries) <= 1
  /\ List.filter is_time (energy_pattern weekEntries) = []
  /\ List.filter is_trend (energy_pattern weekEntries) = [].
Proof. unfold energy_pattern. split_ifs; simpl; auto. Qed.

Lemma time_pattern_shape (weekEntries : list MoodEntry) :
  length (time_pattern weekEntries) <= 1
  /\ List.filter is_time (time_pattern weekEntries) = time_pattern weekEntries
  /\ List.filter is_trend (time_pattern weekEntries) = [].
Proof. unfold time_pattern. split_ifs; simpl; auto. Qed.

Lemma trend_pattern_shape (weekEntries allEntries : list MoodEntry) (now_start now_end : Z) :
  length (trend_pattern weekEntries allEntries now_start now_end) <= 1
  /\ List.filter is_time (trend_pattern weekEntries allEntries now_start now_end) = []
  /\ List.filter is_trend (trend_pattern weekEntries allEntries now_start now_end)
     = trend_pattern weekEntries allEntries now_start now_end.
Proof. unfold trend_pattern. split_ifs; simpl; auto. Qed.

Lemma fatigue_pattern_shape (weekEntries : list MoodEntry) :
  length (fatigue_pattern weekEntries) <= 1
  /\ List.filter is_time (fatigue_pattern weekEntries) = []
  /\ List.filter is_trend (fatigue_pattern weekEntries) = [].
Proof.
  unfold fatigue_pattern.
  destruct (3 <=? _)%nat; simpl; auto.
Qed.

(** The cut to four patterns never drops one. *)
Lemma generatePatternInsights_all (weekEntries allEntries : list MoodEntry)
    (now_start now_end : Z) :
  generatePatternInsights weekEntries allEntries now_start now_end
  = energy_pattern weekEntries ++ time_pattern weekEntries
    ++ trend_pattern weekEntries allEntries now_start now_end
    ++ fatigue_pattern weekEntries.
Proof.
  unfold generatePatternInsights. cbn [app].
  destruct (energy_pattern_shape weekEntries) as [H1 _].
  destruct (time_pattern_shape weekEntries) as [H2 _].
  destruct (trend_pattern_shape weekEntries allEntries now_start now_end) as [H3 _].
  destruct (fatigue_pattern_shape weekEntries) as [H4 _].
  rewrite <- !app_assoc. apply firstn_all2. rewrite !length_app. lia.
Qed.


Lemma trend_patterns_of (weekEntries allEntries : list MoodEntry) (now_start now_end : Z) :
  List.filter is_trend (generatePatternInsights weekEntries allEntries now_start now_end)
  = trend_pattern weekEntries allEntries now_start now_end.
Proof.
  rewrite generatePatternInsights_all, !List.filter_app.
  destruct (energy_pattern_shape weekEntries) as [_ [_ ->]].
  destruct (time_pattern_shape weekEntries) as [_ [_ ->]].
  destruct (trend_pattern_shape weekEntries allEntries now_start now_end) as [_ [_ ->]].
  destruct (fatigue_pattern_shape weekEntries) as [_ [_ ->]].
  simpl. now rewrite app_nil_r.
Qed.

(** A pattern of a type is among the patterns when it is among those of
    its type. *)
Lemma In_filter_type (is_type : PatternInsight -> bool) (p : PatternInsight)
    (l : list PatternInsight) :
  is_type p = true -> (In p l <-> In p (List.filter is_type l)).
Proof. intros Hp. rewrite filter_In. tauto. Qed.

Lemma time_pattern_cases (weekEntries : list MoodEntry) :
  time_pattern weekEntries
  = if (3 <=? morning_count weekEntries)%nat
       && above_70 (morning_positive_count weekEntries) (morning_count weekEntries)
    then [morning_person]
    else if (3 <=? evening_count weekEntries)%nat
            && above_70 (evening_positive_count weekEntries) (evening_count weekEntries)
    then [night_owl]
    else [].
Proof.
  unfold time_pattern, above_70.
  destruct (morning_counts weekEntries) as [-> ->].
  destruct (evening_counts weekEntries) as [-> ->]. reflexivity.
Qed.

Lemma trend_pattern_cases (weekEntries allEntries : list MoodEntry) (now_start now_end : Z) :
  let lastWeek := lastWeekEntries allEntries now_start now_end in
  trend_pattern weekEntries allEntries now_start now_end
  = if (3 <=? length weekEntries)%nat && (3 <=? length lastWeek)%nat then
      if above_by_fifth (positive_count weekEntries) (length weekEntries)
           (positive_count lastWeek) (length lastWeek)
      then [upward_trend]
      else if below_by_fifth (positive_count weekEntries) (length weekEntries)
                (positive_count lastWeek) (length lastWeek)
      then [challenging_week]
      else []
    else [].
Proof. reflexivity. Qed.

End Patterns.

Section PatternClaims.
Import MoodStorage.


(** C7, with the 0.2 tests in double precision. The week's entries are
    the stored ones whose timestamp is at most 7 days before the reading
    of the clock; the prior window holds the entries whose timestamp is at
    most 14 days and more than 7 days before the readings of the clock. A
    trend pattern is among the patterns exactly when the week's entries
    and the prior window both have at least 3 entries and one of the two
    tests of the code holds in double precision: Upward Trend when the
    week's positive fraction is above the prior one plus 0.2, otherwise
    Challenging Week when it is below the prior one minus 0.2; never
    both. With at most 24 entries a side, the tests are the exact
    comparisons of the fractions unless these differ by exactly 0.2. *)
Theorem trend_pattern_by_thresholds
    (weekEntries allEntries : list MoodEntry) (now_start now_end : Z) :
  let found := generatePatternInsights weekEntries allEntries now_start now_end in
  let lastWeek := lastWeekEntries allEntries now_start now_end in
  let pw := positive_count weekEntries in
  let nw := length weekEntries in
  let pl := positive_count lastWeek in
  let nl := length lastWeek in
  (forall read_ok disk now entries,
     getWeekEntries read_ok disk now = Resolved entries ->
     exists stored,
       getMoodEntries read_ok disk = Resolved (Items stored)
       /\ forall e, In e entries <->
                    In e stored /\ (now - 7 * 24 * 60 * 60 * 1000 <= timestamp e)%Z)
  /\ (forall e, In e lastWeek <->
             In e allEntries
             /\ (now_start - 14 * 24 * 60 * 60 * 1000 <= timestamp e)%Z
             /\ (timestamp e < now_end - 7 * 24 * 60 * 60 * 1000)%Z)
  /\ length (List.filter is_trend found) <= 1
  /\ (In upward_trend found <-> 3 <= nw /\ 3 <= nl /\ above_by_fifth pw nw pl nl = true)
  /\ (In challenging_week found <->
      3 <= nw /\ 3 <= nl /\ above_by_fifth pw nw pl nl = false
      /\ below_by_fifth pw nw pl nl = true)
  /\ (forall p, In p found -> is_trend p = true -> p = upward_trend \/ p = challenging_week)
  /\ (3 <= nw <= 24 -> 3 <= nl <= 24 -> ~ differ_by_exactly_fifth pw nw pl nl ->
      (above_by_fifth pw nw pl nl = true <-> exceeds_by_more_than_fifth pw nw pl nl)
      /\ (below_by_fifth pw nw pl nl = true <-> exceeds_by_more_than_fifth pl nl pw nw)).
Proof.
  intros found lastWeek pw nw pl nl.
  pose proof (trend_patterns_of weekEntries allEntries now_start now_end) as Htrend.
  rewrite trend_pattern_cases in Htrend. cbv zeta in Htrend.
  fold found lastWeek in Htrend. fold pw nw pl nl in Htrend.
  assert (Hu : is_trend upward_trend = true) by reflexivity.
  assert (Hc : is_trend challenging_week = true) by reflexivity.
  assert (Hne : upward_trend <> challenging_week) by discriminate.
  rewrite (In_filter_type is_trend upward_trend found Hu).
  rewrite (In_filter_type is_trend challenging_week found Hc).
  assert (Hcases : forall p, In p found -> is_trend p = true ->
                             In p (List.filter is_trend found)).
  { intros p Hin Hp. apply filter_In. tauto. }
  assert (Hpw : pw <= nw) by apply List.filter_length_le.
  assert (Hpl : pl <= nl) by apply List.filter_length_le.
  assert (Hwindow : forall e, In e lastWeek <->
             In e allEntries
             /\ (now_start - 14 * 24 * 60 * 60 * 1000 <= timestamp e)%Z
             /\ (timestamp e < now_end - 7 * 24 * 60 * 60 * 1000)%Z).
  { intros e. unfold lastWeek, lastWeekEntries. rewrite filter_In, andb_true_iff.
    rewrite Z.leb_le, Z.ltb_lt. unfold fortnight_ms, week_ms. tauto. }
  split.
  { intros read_ok disk now entries Hweek.
    destruct (getWeekEntries_window read_ok disk now entries Hweek) as [stored [Hread ->]].
    exists stored. split; [exact Hread|]. intros e.
    rewrite filter_In, Z.leb_le. unfold week_ms. tauto. }
  split; [exact Hwindow|]. clear Hwindow.
  rewrite Htrend in Hcases |- *. clear Htrend.
  clearbody found lastWeek pw nw pl nl.
  split; [|split; [|split; [|split]]];
    try (intros Hw Hl Hnb; apply trend_exact; try lia; exact Hnb);
    (destruct (3 <=? nw)%nat eqn:E1; [apply Nat.leb_le in E1|apply Nat.leb_gt in E1]);
    (destruct (3 <=? nl)%nat eqn:E2; [apply Nat.leb_le in E2|apply Nat.leb_gt in E2]);
    destruct (above_by_fifth pw nw pl nl) eqn:A1;
    destruct (below_by_fifth pw nw pl nl) eqn:A2;
    simpl in Hcases |- *;
    try lia;
    try (intros p Hin Hp; specialize (Hcases p Hin Hp));
    intuition (try discriminate; try congruence; try lia).
Qed.

End PatternClaims.

(* ================================================================= *)
(** ** Facts about the string primitives *)
(* ================================================================= *)

Section Strings.



















(** Nothing is replaced where the pattern does not occur. *)
Lemma replace_absent (s pattern replacement : string) :
  JS.split_at_first pattern s = None -> JS.replace s pattern replacement = s.
Proof. unfold JS.replace. now intros ->. Qed.

End Strings.

(* ================================================================= *)
(** ** The narrative generator *)
(* ================================================================= *)

Section Narrative.
Import StoryEngine.

Definition moods : list Mood := [happy; calm; tired; anxious; focused; neutral; excited].
Definition segments : list TimeOfDay := [morning; afternoon; evening].

(** Every template: the pools of the segments and the summary pools. *)
Definition pool : list string :=
  flat_map (fun m => flat_map (storyTemplates m) segments ++ summaryTemplates m) moods.


Definition NOTE_REFLECTION : string := "{{NOTE_REFLECTION}}".






(** What [fillTemplate] looks at in a context: the first activity and the
    energy level, up to the levels that have a description. *)
Definition primary (context : StoryContext) : option ActivityId :=
  match activities context with
  | Some (a :: _) => Some a
  | _ => None
  end.

Definition energy_class (context : StoryContext) : option Z :=
  match energy_given context with
  | Some z => if (1 <=? z)%Z && (z <=? 5)%Z then Some z else Some 3%Z
  | None => None
  end.

Definition rep_context (a : option ActivityId) (e : option Z) : StoryContext :=
  mkStoryContext neutral morning
    (match a with Some x => Some [x] | None => None end) e None.

Definition activity_cases : list (option ActivityId) :=
  [None; Some work; Some social; Some exercise; Some creative; Some rest;
   Some nature; Some learning; Some family].

Definition energy_cases : list (option Z) :=
  [None; Some 1%Z; Some 2%Z; Some 3%Z; Some 4%Z; Some 5%Z].

(** The text before the note is filled in. *)
Definition pre_note (template : string) (context : StoryContext) : string :=
  fill_energy (fill_activities template context) context.







Lemma in_pool (m : Mood) (t : TimeOfDay) (template : string) :
  In template (storyTemplates m t) \/ In template (summaryTemplates m) ->
  In template pool.
Proof.
  intros H. unfold pool. apply in_flat_map. exists m. split.
  - destruct m; simpl; tauto.
  - apply in_or_app. destruct H as [H|H]; [left|now right].
    apply in_flat_map. exists t. split; [destruct t; simpl; tauto|exact H].
Qed.

Lemma fill_activities_rep (r : string) (context : StoryContext) (e : option Z) :
  fill_activities r context = fill_activities r (rep_context (primary context) e).
Proof.
  unfold fill_activities, primary, rep_context. simpl.
  now destruct (activities context) as [[|a l]|].
Qed.

Lemma fill_energy_rep (r : string) (context : StoryContext) (a : option ActivityId) :
  fill_energy r context = fill_energy r (rep_context a (energy_class context)).
Proof.
  unfold fill_energy, energy_class, energy_given, rep_context. simpl.
  destruct (energyLevel context) as [z|]; [|reflexivity].
  destruct (z =? 0)%Z eqn:H0; [reflexivity|].
  destruct ((1 <=? z)%Z && (z <=? 5)%Z) eqn:Hrange.
  - now rewrite H0.
  - simpl. unfold energyDescriptions.
    destruct (z =? 1)%Z eqn:H1; [apply Z.eqb_eq in H1; subst; discriminate|].
    destruct (z =? 2)%Z eqn:H2; [apply Z.eqb_eq in H2; subst; discriminate|].
    destruct (z =? 3)%Z eqn:H3; [apply Z.eqb_eq in H3; subst; discriminate|].
    destruct (z =? 4)%Z eqn:H4; [apply Z.eqb_eq in H4; subst; discriminate|].
    destruct (z =? 5)%Z eqn:H5; [apply Z.eqb_eq in H5; subst; discriminate|].
    reflexivity.
Qed.

Lemma primary_case (context : StoryContext) : In (primary context) activity_cases.
Proof.
  unfold primary. destruct (activities context) as [[|a l]|]; try (now left).
  destruct a; simpl; tauto.
Qed.

Lemma energy_class_case (context : StoryContext) : In (energy_class context) energy_cases.
Proof.
  unfold energy_class. destruct (energy_given context) as [z|]; [|now left].
  destruct ((1 <=? z)%Z && (z <=? 5)%Z) eqn:Hrange; [|simpl; tauto].
  apply andb_true_iff in Hrange. destruct Hrange as [H1 H5].
  apply Z.leb_le in H1, H5.
  assert (Hz : (z = 1 \/ z = 2 \/ z = 3 \/ z = 4 \/ z = 5)%Z) by lia.
  destruct Hz as [->|[->|[->|[->| ->]]]]; simpl; tauto.
Qed.





End Narrative.

Section NarrativeClaims.
Import StoryEngine.








End NarrativeClaims.

(* ================================================================= *)
(** ** The entry store: faults, frames and round trips *)
(* ================================================================= *)

Section StoreFrames.
Import MoodStorage.

Lemma filter_filter_implied {A : Type} (P Q : A -> bool) (l : list A) :
  (forall x, P x = true -> Q x = true) ->
  List.filter P (List.filter Q l) = List.filter P l.
Proof.
  intros HPQ. induction l as [|x l IH]; simpl; [reflexivity|].
  destruct (Q x) eqn:HQ; simpl.
  - now rewrite IH.
  - destruct (P x) eqn:HP; [|exact IH]. apply HPQ in HP. congruence.
Qed.

Lemma filter_In_length {A : Type} (P : A -> bool) (x : A) (l : list A) :
  In x l -> P x = true -> 1 <= length (List.filter P l).
Proof.
  intros Hin HP. assert (H : In x (List.filter P l)) by (apply filter_In; auto).
  destruct (List.filter P l); [destruct H|simpl; lia].
Qed.

Lemma getStories_after_write (disk : gmap string Stored) (l : list DayStory) :
  getStories true (<[STORIES := StoriesJson l]> disk) = Resolved (Items l).
Proof.
  unfold getStories, getStories_try, getItem. simpl.
  rewrite lookup_insert_eq. reflexivity.
Qed.

(** What one save of a story does to a store that reads as [l]. *)
Lemma saveStory_written (read_ok : bool) (disk : gmap string Stored) (story : DayStory)
    (l : list DayStory) :
  getStories read_ok disk = Resolved (Items l) ->
  saveStory read_ok true disk story
  = (Resolved tt,
     <[STORIES := StoriesJson
         (List.filter (fun s => negb (String.eqb (story_date s) (story_date story))) l
          ++ [story])]> disk).
Proof. intros Hread. unfold saveStory. rewrite Hread. reflexivity. Qed.

(** The entries of a date, under the one-per-slot invariant, have
    different times of day. *)
Lemma one_per_slot_times (l : list MoodEntry) (d : string) :
  at_most_one_per_slot l ->
  List.NoDup (map timeOfDay (List.filter (fun e => String.eqb (date e) d) l)).
Proof.
  induction l as [|x l IH]; intros Hinv; simpl; [apply List.NoDup_nil|].
  assert (Hl : at_most_one_per_slot l).
  { intros d' t'. specialize (Hinv d' t'). simpl in Hinv.
    destruct (same_slot d' t' x); simpl in Hinv; lia. }
  destruct (String.eqb (date x) d) eqn:Hd; [|now apply IH].
  simpl. apply List.NoDup_cons; [|now apply IH].
  intros Hin. apply in_map_iff in Hin. destruct Hin as [e [Ht He]].
  apply filter_In in He. destruct He as [He Hde]. apply String.eqb_eq in Hd, Hde.
  specialize (Hinv d (timeOfDay x)). simpl in Hinv.
  assert (Hx : same_slot d (timeOfDay x) x = true) by (apply same_slot_spec; auto).
  assert (Hse : same_slot d (timeOfDay x) e = true) by (apply same_slot_spec; auto).
  rewrite Hx in Hinv. simpl in Hinv.
  pose proof (filter_In_length _ e l He Hse). lia.
Qed.

Lemma times_of_day_bound (l : list TimeOfDay) : List.NoDup l -> length l <= 3.
Proof.
  intros Hnd.
  apply (List.NoDup_incl_length Hnd
           (l' := [StoryEngine.morning; StoryEngine.afternoon; StoryEngine.evening])).
  intros t _. destruct t; simpl; tauto.
Qed.

End StoreFrames.

Section StoreProperties.
Import MoodStorage.


(** X2. When the save cannot read the collection (the device does not
    carry out the read, nothing is stored under the key, or the stored
    text is not JSON), it still resolves, and the store then holds the new
    entry alone: what was stored before is overwritten. *)
Theorem saveMoodEntry_on_unreadable_store
    (disk : gmap string Stored) (entry : NewMoodEntry) (read_ok : bool)
    (now_id : Z) (suffix : string) (now : Z) :
  let newEntry := make_entry entry (generateId now_id suffix) now in
  let saved := saveMoodEntry read_ok true now_id suffix now disk entry in
  (read_ok = false
   \/ disk !! MOOD_ENTRIES = None
   \/ exists s, disk !! MOOD_ENTRIES = Some (NotJson s)) ->
  fst saved = Resolved newEntry
  /\ snd saved = <[MOOD_ENTRIES := EntriesJson [newEntry]]> disk
  /\ getMoodEntries true (snd saved) = Resolved (Items [newEntry]).
Proof.
  intros newEntry saved Hcase.
  assert (Hread : getMoodEntries read_ok disk = Resolved (Items [])).
  { destruct Hcase as [->|[Hnone|[s Hs]]].
    - reflexivity.
    - now apply getMoodEntries_absent.
    - unfold getMoodEntries, getMoodEntries_try, getItem.
      destruct read_ok; simpl; [|reflexivity].
      rewrite Hs. simpl. now destruct (JS.truthy_string s). }
  pose proof (saveMoodEntry_written read_ok now_id suffix now disk entry [] Hread) as Hsave.
  cbv zeta in Hsave. fold newEntry in Hsave. fold saved in Hsave. simpl in Hsave.
  rewrite Hsave. simpl. repeat split. now apply getMoodEntries_after_write.
Qed.

(** X3. A save of an entry or of a story that rejects leaves the device
    as it was. It rejects when the device does not carry out the write;
    when the write is carried out and the store reads as a collection, it
    resolves. *)
Theorem rejected_saves_leave_device
    (disk : gmap string Stored) (entry : NewMoodEntry) (story : DayStory)
    (read_ok write_ok : bool) (now_id : Z) (suffix : string) (now : Z) :
  let saved := saveMoodEntry read_ok write_ok now_id suffix now disk entry in
  let savedStory := saveStory read_ok write_ok disk story in
  (forall e, fst saved = Rejected e -> snd saved = disk)
  /\ (forall e, fst savedStory = Rejected e -> snd savedStory = disk)
  /\ (write_ok = false ->
      (exists e, fst saved = Rejected e) /\ (exists e, fst savedStory = Rejected e))
  /\ (write_ok = true ->
      (forall l, getMoodEntries read_ok disk = Resolved (Items l) ->
                 exists e, fst saved = Resolved e)
      /\ (forall l, getStories read_ok disk = Resolved (Items l) ->
                    fst savedStory = Resolved tt)).
Proof.
  intros saved savedStory. subst saved savedStory. unfold saveMoodEntry, saveStory, setItem.
  destruct (getMoodEntries_resolves read_ok disk) as [v Hv].
  destruct (getStories_resolves read_ok disk) as [w Hw].
  rewrite Hv, Hw.
  split; [|split; [|split]].
  - intros e. destruct v as [l|]; simpl; [|reflexivity]. now destruct write_ok.
  - intros e. destruct w as [l|]; simpl; [|reflexivity]. now destruct write_ok.
  - intros ->. split.
    + destruct v as [l|]; simpl; eauto.
    + destruct w as [l|]; simpl; eauto.
  - intros ->. split.
    + intros l Hl. injection Hl as ->. simpl. eauto.
    + intros l Hl. injection Hl as ->. reflexivity.
Qed.

(** X4. On a store with at most one entry per slot, the entries of a date
    ([getEntriesForDate], and [getTodayMoods] for today's date) are
    exactly the stored entries of that date, at most three of them, with
    different times of day. *)
Theorem getEntriesForDate_one_per_time (disk : gmap string Stored) (d : string) :
  store_invariant disk ->
  exists stored found,
    getMoodEntries true disk = Resolved (Items stored)
    /\ getEntriesForDate true disk d = Resolved found
    /\ getTodayMoods true disk d = Resolved found
    /\ (forall e, In e found <-> In e stored /\ date e = d)
    /\ List.NoDup (map timeOfDay found)
    /\ length found <= 3.
Proof.
  intros [l [Hread Hinv]].
  exists l, (List.filter (fun e => String.eqb (date e) d) l).
  assert (Hget : getEntriesForDate true disk d
                 = Resolved (List.filter (fun e => String.eqb (date e) d) l)).
  { unfold getEntriesForDate. now rewrite Hread. }
  split; [exact Hread|]. split; [exact Hget|]. split; [exact Hget|].
  split; [|split].
  - intros e. rewrite filter_In, String.eqb_eq. reflexivity.
  - now apply one_per_slot_times.
  - rewrite <- (length_map timeOfDay). apply times_of_day_bound.
    now apply one_per_slot_times.
Qed.

(** X5. For one reading of the clock, the entries of the last 7 days are
    those of the entries of the last 30 days that are at most 7 days old;
    the two reads resolve or reject together. *)
Theorem week_entries_within_month (read_ok : bool) (disk : gmap string Stored) (now : Z) :
  match getWeekEntries read_ok disk now, getMonthEntries read_ok disk now with
  | Resolved w, Resolved m =>
      w = List.filter (fun e => (now - 7 * 24 * 60 * 60 * 1000 <=? timestamp e)%Z) m
      /\ (forall e, In e w -> In e m)
      /\ (forall e, In e m -> (now - 30 * 24 * 60 * 60 * 1000 <= timestamp e)%Z)
  | Rejected e1, Rejected e2 => e1 = e2
  | _, _ => False
  end.
Proof.
  unfold getWeekEntries, getMonthEntries.
  destruct (getMoodEntries_resolves read_ok disk) as [v Hv]. rewrite Hv.
  destruct v as [l|]; simpl; [|reflexivity].
  assert (Hw : List.filter (fun e => (now - week_ms <=? timestamp e)%Z)
                 (List.filter (fun e => (now - month_ms <=? timestamp e)%Z) l)
               = List.filter (fun e => (now - week_ms <=? timestamp e)%Z) l).
  { apply filter_filter_implied. intros x Hx. apply Z.leb_le in Hx. apply Z.leb_le.
    unfold week_ms, month_ms in *. lia. }
  split; [|split].
  - symmetry. exact Hw.
  - intros e He. rewrite <- Hw in He. apply filter_In in He. tauto.
  - intros e He. apply filter_In in He. destruct He as [_ He]. apply Z.leb_le in He.
    unfold month_ms in He. lia.
Qed.

End StoreProperties.

Section StoreLists.
Import MoodStorage.

Lemma distinct_from_NoDup (seen l : list string) : List.NoDup (JS.distinct_from seen l).
Proof.
  revert seen. induction l as [|x l IH]; intros seen; simpl; [apply List.NoDup_nil|].
  destruct (existsb (String.eqb x) seen); [apply IH|].
  apply List.NoDup_cons; [|apply IH].
  rewrite distinct_from_In. simpl. tauto.
Qed.

(** Sorting by a comparator that is transitive and total. *)
Lemma sort_insert_sorted {T : Type} (cmp : T -> T -> Z) (x : T) (l : list T) :
  (forall a b c, (cmp a b <= 0)%Z -> (cmp b c <= 0)%Z -> (cmp a c <= 0)%Z) ->
  (forall a b, (cmp a b <= 0)%Z \/ (cmp b a <= 0)%Z) ->
  StronglySorted (fun a b => (cmp a b <= 0)%Z) l ->
  StronglySorted (fun a b => (cmp a b <= 0)%Z) (JS.sort_insert cmp x l).
Proof.
  intros Htrans Htotal. induction l as [|y l IH]; intros Hs; simpl.
  - constructor; constructor.
  - inversion Hs as [|? ? Hl Hy]; subst.
    destruct (cmp x y <=? 0)%Z eqn:Hc.
    + apply Z.leb_le in Hc. constructor; [exact Hs|].
      constructor; [exact Hc|].
      rewrite List.Forall_forall in Hy |- *. intros z Hz.
      apply (Htrans x y z Hc). now apply Hy.
    + apply Z.leb_gt in Hc. constructor; [now apply IH|].
      rewrite List.Forall_forall in Hy |- *. intros z Hz.
      apply (Permutation_in _ (sort_insert_perm _ x l)) in Hz.
      destruct Hz as [<-|Hz]; [|now apply Hy].
      destruct (Htotal y x) as [H|H]; [exact H|lia].
Qed.

Lemma sort_sorted {T : Type} (cmp : T -> T -> Z) (l : list T) :
  (forall a b c, (cmp a b <= 0)%Z -> (cmp b c <= 0)%Z -> (cmp a c <= 0)%Z) ->
  (forall a b, (cmp a b <= 0)%Z \/ (cmp b a <= 0)%Z) ->
  StronglySorted (fun a b => (cmp a b <= 0)%Z) (JS.sort cmp l).
Proof.
  intros Htrans Htotal. induction l as [|x l IH]; simpl; [constructor|].
  unfold JS.sort in *. simpl. now apply sort_insert_sorted.
Qed.

Lemma find_replaced {A : Type} (P : A -> bool) (x : A) (l : list A) :
  P x = true -> List.find P (List.filter (fun y => negb (P y)) l ++ [x]) = Some x.
Proof.
  intros HP. induction l as [|y l IH]; simpl; [now rewrite HP|].
  destruct (P y) eqn:Hy; simpl; [exact IH|]. now rewrite Hy.
Qed.

Lemma find_not_replaced {A : Type} (P Q : A -> bool) (x : A) (l : list A) :
  Q x = false -> (forall y, Q y = true -> P y = false) ->
  List.find Q (List.filter (fun y => negb (P y)) l ++ [x]) = List.find Q l.
Proof.
  intros HQ HPQ. induction l as [|y l IH]; simpl; [now rewrite HQ|].
  destruct (Q y) eqn:Hy.
  - rewrite (HPQ y Hy). simpl. now rewrite Hy.
  - destruct (P y); simpl; [exact IH|]. now rewrite Hy.
Qed.

End StoreLists.

Section StoreDates.
Import MoodStorage.

(** X6. The dates that [getDatesWithEntries] resolves with are exactly
    the dates of the stored entries, each of them once; and where the
    collation is transitive and total, they are ordered by it, the
    greatest first. *)
Theorem getDatesWithEntries_distinct_dates
    (read_ok : bool) (disk : gmap string Stored) (localeCompare : string -> string -> Z)
    (stored : list MoodEntry) :
  getMoodEntries read_ok disk = Resolved (Items stored) ->
  exists dates,
    getDatesWithEntries read_ok disk localeCompare = Resolved dates
    /\ List.NoDup dates
    /\ (forall d, In d dates <-> exists e, In e stored /\ date e = d)
    /\ length dates <= length stored
    /\ ((forall a b c, (localeCompare a b <= 0)%Z -> (localeCompare b c <= 0)%Z ->
                       (localeCompare a c <= 0)%Z) ->
        (forall a b, (localeCompare a b <= 0)%Z \/ (localeCompare b a <= 0)%Z) ->
        StronglySorted (fun a b => (localeCompare b a <= 0)%Z) dates).
Proof.
  intros Hread. unfold getDatesWithEntries. rewrite Hread. simpl.
  set (cmp := fun a b : string => localeCompare b a).
  pose proof (sort_perm cmp (JS.Set_spread (map date stored))) as Hperm.
  assert (Hnd : List.NoDup (JS.sort cmp (JS.Set_spread (map date stored)))).
  { apply (Permutation.Permutation_NoDup (Permutation_sym Hperm)).
    apply distinct_from_NoDup. }
  assert (Hin : forall d, In d (JS.sort cmp (JS.Set_spread (map date stored)))
                          <-> exists e, In e stored /\ date e = d).
  { intros d. split.
    - intros H. apply (Permutation_in _ Hperm) in H.
      rewrite Set_spread_In, in_map_iff in H. destruct H as [e [He Hin]]. eauto.
    - intros [e [He Hd]]. apply (Permutation_in _ (Permutation_sym Hperm)).
      rewrite Set_spread_In, in_map_iff. eauto. }
  eexists. split; [reflexivity|]. split; [exact Hnd|]. split; [exact Hin|]. split.
  - rewrite <- (length_map date stored). apply (List.NoDup_incl_length Hnd).
    intros d Hd. apply Hin in Hd. destruct Hd as [e [He <-]]. now apply in_map.
  - intros Htrans Htotal. apply (sort_sorted cmp).
    + intros a b c Hab Hbc. unfold cmp in *. exact (Htrans c b a Hbc Hab).
    + intros a b. unfold cmp. destruct (Htotal a b); tauto.
Qed.

(** X7. A save of a story whose write is carried out replaces the story
    of that date: afterwards the store has exactly one story for the
    date, the one saved, which [getStoryForDate] returns; the stories of
    the other dates and the texts under the other keys are as before. *)
Theorem saveStory_replaces_by_date
    (read_ok : bool) (disk : gmap string Stored) (story : DayStory) (stored : list DayStory) :
  getStories read_ok disk = Resolved (Items stored) ->
  let saved := saveStory read_ok true disk story in
  fst saved = Resolved tt
  /\ (exists stories,
        getStories true (snd saved) = Resolved (Items stories)
        /\ List.filter (fun s => String.eqb (story_date s) (story_date story)) stories
           = [story]
        /\ forall d, d <> story_date story ->
             List.filter (fun s => String.eqb (story_date s) d) stories
             = List.filter (fun s => String.eqb (story_date s) d) stored)
  /\ getStoryForDate true (snd saved) (story_date story) = Resolved (Some story)
  /\ (forall d, d <> story_date story ->
        getStoryForDate true (snd saved) d
        = Resolved (List.find (fun s => String.eqb (story_date s) d) stored))
  /\ (forall k, k <> STORIES -> snd saved !! k = disk !! k).
Proof.
  intros Hread saved.
  pose proof (saveStory_written read_ok disk story stored Hread) as Hsave.
  fold saved in Hsave.
  set (stories :=
         List.filter (fun s => negb (String.eqb (story_date s) (story_date story))) stored
         ++ [story]) in *.
  assert (Hafter : getStories true (snd saved) = Resolved (Items stories)).
  { rewrite Hsave. simpl. apply getStories_after_write. }
  split; [now rewrite Hsave|]. split; [|split; [|split]].
  - exists stories. split; [exact Hafter|]. split.
    + unfold stories. rewrite List.filter_app.
      rewrite (filter_none (fun s => String.eqb (story_date s) (story_date story))) by auto.
      simpl. now rewrite String.eqb_refl.
    + intros d Hd. unfold stories. rewrite List.filter_app. simpl.
      destruct (String.eqb_spec (story_date story) d) as [Heq|_]; [congruence|].
      rewrite app_nil_r. apply filter_filter_implied. intros x Hx.
      apply String.eqb_eq in Hx. apply negb_true_iff. apply String.eqb_neq. congruence.
  - unfold getStoryForDate. rewrite Hafter. simpl. f_equal. unfold stories.
    apply (find_replaced (fun s => String.eqb (story_date s) (story_date story))).
    apply String.eqb_refl.
  - intros d Hd. unfold getStoryForDate. rewrite Hafter. simpl. f_equal. unfold stories.
    apply (find_not_replaced (fun s => String.eqb (story_date s) (story_date story))
             (fun s => String.eqb (story_date s) d)).
    + apply String.eqb_neq. congruence.
    + intros y Hy. apply String.eqb_eq in Hy. apply String.eqb_neq. congruence.
  - intros k Hk. rewrite Hsave. simpl. now rewrite lookup_insert_ne.
Qed.

(** X8. [clearAllData] never rejects: when the device does not carry out
    the removal the error is swallowed and nothing is erased. Clearing a
    cleared device changes nothing. *)
Theorem clearAllData_never_rejects (write_ok : bool) (disk : gmap string Stored) :
  fst (clearAllData write_ok disk) = Resolved tt
  /\ snd (clearAllData false disk) = disk
  /\ snd (clearAllData true (snd (clearAllData true disk))) = snd (clearAllData true disk).
Proof.
  split; [now destruct write_ok|]. split; [reflexivity|].
  apply map_eq. intros k.
  change (foldr delete (foldr delete disk STORAGE_KEYS_values) STORAGE_KEYS_values !! k
          = foldr delete disk STORAGE_KEYS_values !! k).
  rewrite !multiRemove_lookup. now destruct (bool_decide (k ∈ STORAGE_KEYS_values)).
Qed.

(** X9. After a clear that is carried out, a save whose write is carried
    out leaves the new entry alone in the store, and no story. *)
Theorem saveMoodEntry_after_clear
    (disk : gmap string Stored) (entry : NewMoodEntry) (read_ok : bool)
    (now_id : Z) (suffix : string) (now : Z) :
  let newEntry := make_entry entry (generateId now_id suffix) now in
  let cleared := snd (clearAllData true disk) in
  let saved := saveMoodEntry read_ok true now_id suffix now cleared entry in
  fst saved = Resolved newEntry
  /\ getMoodEntries true (snd saved) = Resolved (Items [newEntry])
  /\ getEntriesForDate true (snd saved) (new_date entry) = Resolved [newEntry]
  /\ getStories true (snd saved) = Resolved (Items []).
Proof.
  intros newEntry cleared saved.
  assert (Hk : forall k, cleared !! k
                         = if bool_decide (k ∈ STORAGE_KEYS_values) then None else disk !! k).
  { intros k. apply multiRemove_lookup. }
  assert (Hread : getMoodEntries read_ok cleared = Resolved (Items [])).
  { apply getMoodEntries_absent. rewrite Hk. reflexivity. }
  pose proof (saveMoodEntry_written read_ok now_id suffix now cleared entry [] Hread) as Hsave.
  cbv zeta in Hsave. fold newEntry in Hsave. fold saved in Hsave. simpl in Hsave.
  assert (Hafter : getMoodEntries true (snd saved) = Resolved (Items [newEntry])).
  { rewrite Hsave. simpl. now apply getMoodEntries_after_write. }
  split; [now rewrite Hsave|]. split; [exact Hafter|]. split.
  - unfold getEntriesForDate. rewrite Hafter. simpl. now rewrite String.eqb_refl.
  - apply getStories_absent. rewrite Hsave. simpl.
    rewrite lookup_insert_ne by discriminate. rewrite Hk. reflexivity.
Qed.

End StoreDates.

(* ================================================================= *)
(** ** The weekly report: counts, detectors and streaks *)
(* ================================================================= *)

Section Fatigue.
Import MoodStorage.

(** [entry.mood === 'tired' || entry.mood === 'anxious']. *)
Definition worn (e : MoodEntry) : bool :=
  bool_decide (mood e = tired) || bool_decide (mood e = anxious).

(** The number of worn entries a list starts with, and the length of the
    longest stretch of worn entries in it. *)
Fixpoint leading_run (l : list MoodEntry) : nat :=
  match l with
  | [] => 0
  | e :: rest => if worn e then S (leading_run rest) else 0
  end.

Fixpoint longest_run (l : list MoodEntry) : nat :=
  match l with
  | [] => 0
  | _ :: rest => Nat.max (leading_run l) (longest_run rest)
  end.

Definition rest_needed : PatternInsight :=
  mkPattern pattern_streak "Rest Needed"
    "You've been tired or anxious for a while. Prioritize self-care." "🫂".

Definition rest_really_needed : PatternInsight :=
  mkPattern pattern_streak "Rest Needed"
    "You've been really tired or anxious for a while. Prioritize self-care." "🫂".

Lemma leading_le_longest (l : list MoodEntry) : leading_run l <= longest_run l.
Proof. destruct l; simpl; lia. Qed.

Lemma tired_loop (l : list MoodEntry) (c m : nat) :
  c <= m ->
  snd (fold_left tired_step l (c, m))
  = Nat.max m (Nat.max (c + leading_run l) (longest_run l)).
Proof.
  revert c m. induction l as [|e l IH]; intros c m Hcm; [simpl; lia|].
  cbn [fold_left]. unfold tired_step at 2. fold (worn e). cbn [fst snd].
  pose proof (leading_le_longest l) as Hle.
  cbn [leading_run longest_run]. destruct (worn e).
  - rewrite IH by lia. lia.
  - rewrite IH by lia. lia.
Qed.

Lemma leading_run_prefix (run rest : list MoodEntry) :
  Forall (fun e => worn e = true) run -> length run <= leading_run (run ++ rest).
Proof.
  induction 1 as [|e run He _ IH]; simpl; [lia|]. rewrite He. lia.
Qed.

Lemma leading_run_split (l : list MoodEntry) :
  exists run rest,
    l = run ++ rest /\ length run = leading_run l
    /\ Forall (fun e => worn e = true) run.
Proof.
  induction l as [|e l [run [rest [Hl [Hlen Hrun]]]]]; simpl.
  - exists [], []. repeat split. constructor.
  - destruct (worn e) eqn:He.
    + exists (e :: run), rest. simpl. rewrite Hl at 1. repeat split; [lia|].
      now constructor.
    + exists [], (e :: l). repeat split. constructor.
Qed.

(** The longest stretch is a stretch, and no stretch is longer. *)
Lemma longest_run_stretch (l : list MoodEntry) :
  exists before run after,
    l = before ++ run ++ after /\ length run = longest_run l
    /\ Forall (fun e => worn e = true) run.
Proof.
  induction l as [|e l [before [run [after [Hl [Hlen Hrun]]]]]].
  - exists [], [], []. repeat split. constructor.
  - cbn [longest_run].
    destruct (Nat.max_spec (leading_run (e :: l)) (longest_run l)) as [[_ ->]|[_ ->]].
    + exists (e :: before), run, after. simpl. now rewrite Hl at 1.
    + destruct (leading_run_split (e :: l)) as [run' [rest' [Hl' [Hlen' Hrun']]]].
      exists [], run', rest'. simpl. auto.
Qed.

Lemma stretch_le_longest (before run after : list MoodEntry) :
  Forall (fun e => worn e = true) run ->
  length run <= longest_run (before ++ run ++ after).
Proof.
  intros Hrun. induction before as [|x before IH]; simpl.
  - pose proof (leading_run_prefix run after Hrun).
    pose proof (leading_le_longest (run ++ after)). lia.
  - lia.
Qed.

Lemma fatigue_pattern_cases (weekEntries : list MoodEntry) :
  let n := longest_run (JS.sort (fun a b => (timestamp a - timestamp b)%Z) weekEntries) in
  fatigue_pattern weekEntries
  = if (3 <=? n)%nat then
      if (4 <=? n)%nat then [rest_really_needed] else [rest_needed]
    else [].
Proof.
  intros n. unfold fatigue_pattern. rewrite tired_loop by lia.
  pose proof (leading_le_longest
                (JS.sort (fun a b => (timestamp a - timestamp b)%Z) weekEntries)) as Hle.
  fold n in Hle |- *.
  replace (Nat.max 0 (Nat.max (0 + leading_run _) n)) with n by lia.
  destruct (3 <=? n)%nat; [|reflexivity]. now destruct (4 <=? n)%nat.
Qed.

Lemma StronglySorted_weaken {A : Type} (R R' : A -> A -> Prop) (l : list A) :
  (forall a b, R a b -> R' a b) -> StronglySorted R l -> StronglySorted R' l.
Proof.
  intros HR. induction 1 as [|a l _ IH Ha]; constructor; [exact IH|].
  rewrite List.Forall_forall in Ha |- *. auto.
Qed.

Lemma sort_ascending {T : Type} (key : T -> Z) (l : list T) :
  StronglySorted (fun a b => (key a <= key b)%Z) (JS.sort (fun a b => (key a - key b)%Z) l).
Proof.
  apply (StronglySorted_weaken (fun a b => (key a - key b <= 0)%Z)); [intros; lia|].
  apply (sort_sorted (fun a b => (key a - key b)%Z)); intros; lia.
Qed.

Lemma worn_spec (e : MoodEntry) : worn e = true <-> mood e = tired \/ mood e = anxious.
Proof.
  unfold worn. rewrite orb_true_iff, !bool_decide_eq_true. reflexivity.
Qed.

End Fatigue.

Section FatigueProperties.
Import MoodStorage.

(** X10. The fatigue detector looks at the week's entries in the order
    of their timestamps: it reports Rest Needed exactly when three or
    more consecutive entries of that order are tired or anxious, and the
    text says [really] exactly when four or more are. *)
Theorem fatigue_pattern_consecutive_entries (weekEntries : list MoodEntry) :
  let sortedEntries := JS.sort (fun a b => (timestamp a - timestamp b)%Z) weekEntries in
  let stretch := fun (k : nat) =>
    exists before run after,
      sortedEntries = before ++ run ++ after
      /\ k <= length run
      /\ Forall (fun e => mood e = tired \/ mood e = anxious) run in
  Permutation sortedEntries weekEntries
  /\ StronglySorted (fun a b => (timestamp a <= timestamp b)%Z) sortedEntries
  /\ (fatigue_pattern weekEntries <> [] <-> stretch 3)
  /\ (fatigue_pattern weekEntries = [rest_really_needed] <-> stretch 4)
  /\ (fatigue_pattern weekEntries = [rest_needed] <-> stretch 3 /\ ~ stretch 4).
Proof.
  intros sortedEntries stretch.
  assert (Hstretch : forall k, stretch k <-> k <= longest_run sortedEntries).
  { intros k. split.
    - intros [before [run [after [Hl [Hk Hrun]]]]].
      assert (Hworn : Forall (fun e => worn e = true) run).
      { eapply List.Forall_impl; [|exact Hrun]. intros e He. now apply worn_spec. }
      pose proof (stretch_le_longest before run after Hworn) as Hle.
      rewrite <- Hl in Hle. lia.
    - intros Hk. destruct (longest_run_stretch sortedEntries)
        as [before [run [after [Hl [Hlen Hrun]]]]].
      exists before, run, after. split; [exact Hl|]. split; [lia|].
      eapply List.Forall_impl; [|exact Hrun]. intros e He. now apply worn_spec. }
  split; [apply sort_perm|]. split; [apply (sort_ascending timestamp)|].
  rewrite !Hstretch. rewrite (fatigue_pattern_cases weekEntries). cbv zeta.
  fold sortedEntries.
  destruct (3 <=? longest_run sortedEntries)%nat eqn:H3;
    destruct (4 <=? longest_run sortedEntries)%nat eqn:H4;
    first [apply Nat.leb_le in H3 | apply Nat.leb_gt in H3];
    first [apply Nat.leb_le in H4 | apply Nat.leb_gt in H4];
    (split; [|split]); split; intros H;
    try discriminate; try congruence; try lia; try (exfalso; lia);
    try reflexivity; try (intro; discriminate); try (destruct H; congruence).
Qed.

End FatigueProperties.

Section Detectors.
Import MoodStorage.

Lemma filter_length_bound {A : Type} (P : A -> bool) (l : list A) :
  length (List.filter P l) <= length l.
Proof. induction l as [|x l IH]; simpl; [lia|]. destruct (P x); simpl; lia. Qed.

Lemma leading_run_length (l : list MoodEntry) : leading_run l <= length l.
Proof. induction l as [|e l IH]; simpl; [lia|]. destruct (worn e); lia. Qed.

Lemma longest_run_length (l : list MoodEntry) : longest_run l <= length l.
Proof.
  induction l as [|e l IH]; [simpl; lia|].
  pose proof (leading_run_length (e :: l)). cbn [longest_run length] in *. lia.
Qed.

Ltac case_ifs :=
  repeat match goal with
         | |- context [if ?c then _ else _] => destruct c
         end.

Lemma energy_pattern_types (weekEntries : list MoodEntry) :
  map pattern_type (energy_pattern weekEntries) = []
  \/ map pattern_type (energy_pattern weekEntries) = [pattern_energy].
Proof. unfold energy_pattern. case_ifs; simpl; auto. Qed.

Lemma time_pattern_types (weekEntries : list MoodEntry) :
  map pattern_type (time_pattern weekEntries) = []
  \/ map pattern_type (time_pattern weekEntries) = [pattern_time].
Proof. unfold time_pattern. case_ifs; simpl; auto. Qed.

Lemma trend_pattern_types (weekEntries allEntries : list MoodEntry) (now_start now_end : Z) :
  map pattern_type (trend_pattern weekEntries allEntries now_start now_end) = []
  \/ map pattern_type (trend_pattern weekEntries allEntries now_start now_end)
     = [pattern_trend].
Proof. unfold trend_pattern. case_ifs; simpl; auto. Qed.

Lemma fatigue_pattern_types (weekEntries : list MoodEntry) :
  map pattern_type (fatigue_pattern weekEntries) = []
  \/ map pattern_type (fatigue_pattern weekEntries) = [pattern_streak].
Proof. unfold fatigue_pattern. case_ifs; simpl; auto. Qed.

Lemma sum_increment (m : Mood) (counts : MoodCounts) :
  list_sum (map snd (increment m counts))
  = list_sum (map snd counts)
    + length (List.filter (fun k => bool_decide (k = m)) (map fst counts)).
Proof.
  unfold increment. induction counts as [|[k n] counts IH]; simpl; [reflexivity|].
  rewrite IH. destruct (bool_decide (k = m)); simpl; lia.
Qed.

Lemma tally_sum (entries : list MoodEntry) (counts : MoodCounts) :
  map fst counts = enumeration ->
  list_sum (map snd (fold_left (fun c e => increment (mood e) c) entries counts))
  = list_sum (map snd counts) + length entries.
Proof.
  revert counts. induction entries as [|e entries IH]; intros counts Hkeys; simpl; [lia|].
  rewrite IH by now rewrite increment_keys.
  rewrite sum_increment, Hkeys.
  replace (length (List.filter (fun k => bool_decide (k = mood e)) enumeration)) with 1
    by (destruct (mood e); reflexivity).
  lia.
Qed.

End Detectors.

Section DetectorProperties.
Import MoodStorage.

(** X11. The patterns of a week come in the order energy, time, trend,
    streak, at most one of each kind and none of the kind activity; the
    cut to four drops none of them. *)
Theorem generatePatternInsights_kinds (weekEntries allEntries : list MoodEntry)
    (now_start now_end : Z) :
  let found := generatePatternInsights weekEntries allEntries now_start now_end in
  sublist (map pattern_type found)
    [pattern_energy; pattern_time; pattern_trend; pattern_streak]
  /\ length found <= 4
  /\ (forall p, In p found -> pattern_type p <> pattern_activity)
  /\ found = energy_pattern weekEntries ++ time_pattern weekEntries
             ++ trend_pattern weekEntries allEntries now_start now_end
             ++ fatigue_pattern weekEntries.
Proof.
  intros found.
  pose proof (generatePatternInsights_all weekEntries allEntries now_start now_end) as Hall.
  fold found in Hall.
  assert (Hsub : sublist (map pattern_type found)
                   [pattern_energy; pattern_time; pattern_trend; pattern_streak]
                 /\ ~ In pattern_activity (map pattern_type found)).
  { rewrite Hall, !map_app.
    destruct (energy_pattern_types weekEntries) as [-> | ->],
             (time_pattern_types weekEntries) as [-> | ->],
             (trend_pattern_types weekEntries allEntries now_start now_end) as [-> | ->],
             (fatigue_pattern_types weekEntries) as [-> | ->]; simpl;
      (split;
       [repeat first [apply sublist_nil | apply sublist_skip | apply sublist_cons]
       |intuition discriminate]). }
  destruct Hsub as [Hsub Hnone].
  split; [exact Hsub|]. split; [|split; [|exact Hall]].
  - apply sublist_length in Hsub. rewrite length_map in Hsub. exact Hsub.
  - intros p Hp Htype. apply Hnone. rewrite <- Htype. now apply in_map.
Qed.

(** X12. A week with fewer than three entries has no pattern. *)
Theorem fewer_than_three_entries_no_pattern (weekEntries allEntries : list MoodEntry)
    (now_start now_end : Z) :
  length weekEntries < 3 ->
  generatePatternInsights weekEntries allEntries now_start now_end = [].
Proof.
  intros Hlen. rewrite generatePatternInsights_all.
  assert (He : energy_pattern weekEntries = []).
  { unfold energy_pattern.
    pose proof (filter_length_bound
                  (fun e => match energyLevel e with Some _ => true | None => false end)
                  weekEntries) as Hf.
    destruct (3 <=? _)%nat eqn:H3; [apply Nat.leb_le in H3; lia|reflexivity]. }
  assert (Ht : time_pattern weekEntries = []).
  { rewrite time_pattern_cases.
    pose proof (filter_length_bound is_morning weekEntries) as Hm.
    pose proof (filter_length_bound is_evening weekEntries) as Hv.
    fold (morning_count weekEntries) in Hm. fold (evening_count weekEntries) in Hv.
    destruct (3 <=? morning_count weekEntries)%nat eqn:H3;
      [apply Nat.leb_le in H3; lia|].
    destruct (3 <=? evening_count weekEntries)%nat eqn:H4;
      [apply Nat.leb_le in H4; lia|]. reflexivity. }
  assert (Hr : trend_pattern weekEntries allEntries now_start now_end = []).
  { unfold trend_pattern.
    destruct (3 <=? length weekEntries)%nat eqn:H3; [apply Nat.leb_le in H3; lia|].
    reflexivity. }
  assert (Hf : fatigue_pattern weekEntries = []).
  { rewrite fatigue_pattern_cases. cbv zeta.
    pose proof (longest_run_length
                  (JS.sort (fun a b => (timestamp a - timestamp b)%Z) weekEntries)) as Hl.
    rewrite (Permutation_length (sort_perm _ weekEntries)) in Hl.
    destruct (3 <=? _)%nat eqn:H3; [apply Nat.leb_le in H3; lia|reflexivity]. }
  now rewrite He, Ht, Hr, Hf.
Qed.

(** X13. The counts of the moods add up to the number of entries
    counted, so no count exceeds it. *)
Theorem tally_counts_each_entry_once (entries : list MoodEntry) :
  list_sum (map snd (tally entries)) = length entries
  /\ (forall m, count_of (tally entries) m <= length entries)
  /\ length (tally entries) = 8.
Proof.
  split; [|split].
  - unfold tally. now rewrite tally_sum.
  - intros m. destruct (tally_counts entries) as [_ Hc]. rewrite Hc.
    apply filter_length_bound.
  - destruct (tally_counts entries) as [Hk _].
    rewrite <- (length_map fst), Hk. reflexivity.
Qed.

End DetectorProperties.

Section EnergyArithmetic.
Import MoodStorage.

(** [e.energyLevel !== undefined] and [e.energyLevel || 0]. *)
Definition has_energy (e : MoodEntry) : bool :=
  match energyLevel e with Some _ => true | None => false end.

Definition level_or_0 (e : MoodEntry) : Z :=
  match energyLevel e with Some z => z | None => 0%Z end.

(** The sum of the levels, as an integer. *)
Definition level_total (l : list MoodEntry) : Z :=
  fold_right (fun e acc => (level_or_0 e + acc)%Z) 0%Z l.

Definition high_energy_week : PatternInsight :=
  mkPattern pattern_energy "High Energy Week"
    "Your energy levels have been above average this week!" "⚡".

Definition low_energy_pattern : PatternInsight :=
  mkPattern pattern_energy "Low Energy Pattern"
    "You might need more rest. Consider taking breaks." "🔋".

(** Adding a level between 1 and 5 to a sum below [5 * bound] is exact in
    doubles. *)
Definition sum_agrees (s z : nat) : bool :=
  PrimFloat.Leibniz.eqb
    (PrimFloat.add (JS.number_of_Z (Z.of_nat s)) (JS.number_of_Z (Z.of_nat z)))
    (JS.number_of_Z (Z.of_nat (s + z))).

Definition sum_check (bound : nat) : bool :=
  forallb (fun s => forallb (sum_agrees s) (seq 1 5)) (seq 0 (5 * bound)).

(** The average of [n] levels that add up to [s], as the code computes
    it, against the two thresholds. *)
Definition average (s n : nat) : float :=
  PrimFloat.div (JS.number_of_Z (Z.of_nat s)) (JS.number_of_nat n).

Definition average_agrees (n s : nat) : bool :=
  Bool.eqb (JS.ge (average s n) 4%float) (4 * n <=? s)%nat
  && Bool.eqb (JS.le (average s n) 2%float) (s <=? 2 * n)%nat.

Definition average_check (bound : nat) : bool :=
  forallb (fun n => forallb (average_agrees n) (seq 0 (S (5 * n)))) (seq 1 bound).

Lemma sum_check_sound (bound s z : nat) :
  sum_check bound = true -> s < 5 * bound -> 1 <= z <= 5 ->
  PrimFloat.add (JS.number_of_Z (Z.of_nat s)) (JS.number_of_Z (Z.of_nat z))
  = JS.number_of_Z (Z.of_nat (s + z)).
Proof.
  intros Hcheck Hs Hz. unfold sum_check in Hcheck.
  pose proof (forallb_seq _ 0 (5 * bound) s Hcheck ltac:(lia)) as H1. cbv beta in H1.
  pose proof (forallb_seq _ 1 5 z H1 ltac:(lia)) as H2.
  unfold sum_agrees in H2. now apply FloatAxioms.Leibniz.eqb_spec in H2.
Qed.

Lemma average_check_sound (bound n s : nat) :
  average_check bound = true -> 1 <= n <= bound -> s <= 5 * n ->
  average_agrees n s = true.
Proof.
  intros Hcheck Hn Hs. unfold average_check in Hcheck.
  pose proof (forallb_seq _ 1 bound n Hcheck ltac:(lia)) as H1. cbv beta in H1.
  exact (forallb_seq _ 0 (S (5 * n)) s H1 ltac:(lia)).
Qed.

Lemma sum_check_100 : sum_check 100 = true.
Proof. vm_compute. reflexivity. Qed.

Lemma average_check_100 : average_check 100 = true.
Proof. vm_compute. reflexivity. Qed.

(** The levels of the entries are between 1 and 5. *)
Definition levels_in_range (l : list MoodEntry) : Prop :=
  Forall (fun e => forall z, energyLevel e = Some z -> (1 <= z <= 5)%Z) l.

Lemma level_total_bounds (l : list MoodEntry) :
  levels_in_range l -> Forall (fun e => has_energy e = true) l ->
  (Z.of_nat (length l) <= level_total l <= 5 * Z.of_nat (length l))%Z.
Proof.
  intros Hrange Hhas. induction l as [|e l IH]; [simpl; lia|].
  inversion Hrange as [|? ? He Hl]; subst. inversion Hhas as [|? ? Hhe Hhl]; subst.
  specialize (IH Hl Hhl). cbn [level_total fold_right length] in *.
  fold (level_total l). unfold level_or_0, has_energy in *.
  destruct (energyLevel e) as [z|]; [|discriminate].
  specialize (He z eq_refl). lia.
Qed.

(** The sum the code accumulates in doubles is the integer sum. *)
Lemma energy_sum_exact (bound : nat) (l : list MoodEntry) (s : nat) :
  sum_check bound = true ->
  levels_in_range l -> Forall (fun e => has_energy e = true) l ->
  s + 5 * length l <= 5 * bound ->
  fold_left (fun sum e => PrimFloat.add sum (JS.number_of_Z (level_or_0 e))) l
    (JS.number_of_Z (Z.of_nat s))
  = JS.number_of_Z (Z.of_nat s + level_total l).
Proof.
  intros Hcheck. revert s. induction l as [|e l IH]; intros s Hrange Hhas Hs.
  - simpl. now rewrite Z.add_0_r.
  - inversion Hrange as [|? ? He Hl]; subst. inversion Hhas as [|? ? Hhe Hhl]; subst.
    cbn [fold_left level_total fold_right length] in *. fold (level_total l).
    assert (Hz : (1 <= level_or_0 e <= 5)%Z).
    { unfold level_or_0, has_energy in *. destruct (energyLevel e) as [z|]; [|discriminate].
      exact (He z eq_refl). }
    rewrite <- (Z2Nat.id (level_or_0 e)) by lia.
    rewrite (sum_check_sound bound s (Z.to_nat (level_or_0 e)) Hcheck) by lia.
    rewrite (IH (s + Z.to_nat (level_or_0 e)) Hl Hhl) by lia.
    f_equal. lia.
Qed.

End EnergyArithmetic.

Section EnergyProperties.
Import MoodStorage.

(** X14. With levels between 1 and 5 and at most 100 entries that have
    one, the energy detector decides by the exact average of those
    entries: High Energy Week when there are at least three and the
    average is at least 4, Low Energy Pattern when there are at least
    three and it is at most 2, nothing otherwise. *)
Theorem energy_pattern_by_average (weekEntries : list MoodEntry) :
  let withEnergy := List.filter has_energy weekEntries in
  let n := Z.of_nat (length withEnergy) in
  let total := level_total withEnergy in
  levels_in_range weekEntries ->
  length withEnergy <= 100 ->
  (energy_pattern weekEntries = [high_energy_week] <-> (3 <= n /\ 4 * n <= total)%Z)
  /\ (energy_pattern weekEntries = [low_energy_pattern] <-> (3 <= n /\ total <= 2 * n)%Z)
  /\ (energy_pattern weekEntries = [] <-> (n < 3 \/ 2 * n < total < 4 * n)%Z).
Proof.
  intros withEnergy n total Hrange Hbound.
  assert (Hr : levels_in_range withEnergy).
  { unfold levels_in_range in *. rewrite List.Forall_forall in Hrange |- *.
    intros e He. apply filter_In in He. now apply Hrange. }
  assert (Hh : Forall (fun e => has_energy e = true) withEnergy).
  { rewrite List.Forall_forall. intros e He. apply filter_In in He. tauto. }
  pose proof (level_total_bounds withEnergy Hr Hh) as Htot. fold n total in Htot.
  unfold energy_pattern. fold has_energy. fold withEnergy.
  change (fun (sum : float) (e : MoodEntry) =>
            PrimFloat.add sum
              (JS.number_of_Z match energyLevel e with Some z => z | None => 0%Z end))
    with (fun (sum : float) (e : MoodEntry) =>
            PrimFloat.add sum (JS.number_of_Z (level_or_0 e))).
  destruct (3 <=? length withEnergy)%nat eqn:H3;
    [apply Nat.leb_le in H3|apply Nat.leb_gt in H3].
  - change 0%float with (JS.number_of_Z (Z.of_nat 0)).
    rewrite (energy_sum_exact 100 withEnergy 0 sum_check_100 Hr Hh) by lia.
    rewrite Z.add_0_l. fold total.
    pose proof (average_check_sound 100 (length withEnergy) (Z.to_nat total)
                  average_check_100 ltac:(lia) ltac:(lia)) as Hagree.
    unfold average_agrees, average in Hagree. rewrite Z2Nat.id in Hagree by lia.
    apply andb_true_iff in Hagree. destruct Hagree as [Hge Hle].
    apply eqb_prop in Hge, Hle. rewrite Hge, Hle.
    destruct (4 * length withEnergy <=? Z.to_nat total)%nat eqn:H4;
      [apply Nat.leb_le in H4|apply Nat.leb_gt in H4];
      destruct (Z.to_nat total <=? 2 * length withEnergy)%nat eqn:H2;
      [apply Nat.leb_le in H2|apply Nat.leb_gt in H2
      |apply Nat.leb_le in H2|apply Nat.leb_gt in H2];
      (split; [|split]); split; intros H;
      try discriminate; try reflexivity; try lia.
  - (split; [|split]); split; intros H; try discriminate; try reflexivity; lia.
Qed.

End EnergyProperties.

Section Sentences.
Import MoodStorage.

Definition dominant_sentence (dominant : Mood) : string :=
  "You've been feeling mostly " +:+ moodDescriptions dominant +:+ " this week.".

Definition evening_sentence : string :=
  "Evenings bring you peace. You're often calmer as the day winds down.".

Definition morning_sentence : string :=
  "Mornings have been heavy. Consider adjusting your sleep routine.".

(** [a > n / 2] in doubles against the integers. *)
Definition half_agrees (n a : nat) : bool :=
  Bool.eqb (JS.gt (JS.number_of_nat a) (half n)) (n <? 2 * a)%nat.

Definition half_check (bound : nat) : bool :=
  forallb (fun n => forallb (half_agrees n) (seq 0 (S n))) (seq 0 bound).

Lemma half_check_sound (bound n a : nat) :
  half_check bound = true -> n < bound -> a <= n -> half_agrees n a = true.
Proof.
  intros Hcheck Hn Ha. unfold half_check in Hcheck.
  pose proof (forallb_seq _ 0 bound n Hcheck ltac:(lia)) as H1. cbv beta in H1.
  exact (forallb_seq _ 0 (S n) a H1 ltac:(lia)).
Qed.

Lemma half_check_101 : half_check 101 = true.
Proof. vm_compute. reflexivity. Qed.

(** The test [n > 0 && a > n / 2] of the code, for [a] of [n] entries. *)
Lemma more_than_half (n a : nat) :
  n <= 100 -> a <= n ->
  (0 <? n)%nat && JS.gt (JS.number_of_nat a) (half n) = (n <? 2 * a)%nat.
Proof.
  intros Hn Ha.
  pose proof (half_check_sound 101 n a half_check_101 ltac:(lia) Ha) as H.
  unfold half_agrees in H. apply eqb_prop in H. rewrite H.
  destruct (0 <? n)%nat eqn:H0; [reflexivity|].
  apply Nat.ltb_ge in H0. symmetry. apply Nat.ltb_ge. lia.
Qed.

Lemma activity_insights_form (amap : ActivityMoodMap) (s : string) :
  In s (activity_insights amap) ->
  exists a, s = activityName a +:+ " seems to lift your spirits.".
Proof.
  unfold activity_insights. rewrite in_flat_map. intros [[a ms] [_ Hs]].
  destruct (JS.gt _ _); [|destruct Hs]. destruct Hs as [<-|[]]. now exists a.
Qed.

Lemma activity_sentence_other (amap : ActivityMoodMap) (s : string) :
  In s (activity_insights amap) -> s <> evening_sentence /\ s <> morning_sentence.
Proof.
  intros Hs. apply activity_insights_form in Hs. destruct Hs as [a ->].
  destruct a; split; intros H; vm_compute in H; discriminate H.
Qed.

Lemma dominant_sentence_other (dominant : Mood) :
  dominant_sentence dominant <> evening_sentence
  /\ dominant_sentence dominant <> morning_sentence.
Proof. destruct dominant; split; intros H; vm_compute in H; discriminate H. Qed.

Lemma In_take {A : Type} (n : nat) (l : list A) (x : A) : In x (take n l) -> In x l.
Proof.
  revert l. induction n as [|n IH]; intros [|y l]; simpl; try tauto.
  intros [->|H]; auto.
Qed.

End Sentences.

Section SentenceProperties.
Import MoodStorage.

(** X15. The basic insights of a week of at most 100 entries are one to
    three sentences; the first names the dominant mood. The sentence on
    evenings is among them exactly when more than half of the evening
    entries are calm, happy or sad, and the sentence on mornings exactly
    when more than half of the morning entries are tired; the cut to
    three never drops either. *)
Theorem generateBasicInsights_sentences
    (entries : list MoodEntry) (counts : MoodCounts) (dominant : Mood) :
  let result := generateBasicInsights entries counts dominant in
  let evenings := List.filter is_evening entries in
  let mornings := List.filter is_morning entries in
  length entries <= 100 ->
  List.hd_error result = Some (dominant_sentence dominant)
  /\ 1 <= length result <= 3
  /\ (In evening_sentence result <->
      length evenings
      < 2 * length (List.filter (fun e => mood_in [calm; happy; sad] (mood e)) evenings))
  /\ (In morning_sentence result <->
      length mornings
      < 2 * length (List.filter (fun e => bool_decide (mood e = tired)) mornings)).
Proof.
  intros result evenings mornings Hlen.
  pose proof (filter_length_bound is_evening entries) as He.
  pose proof (filter_length_bound is_morning entries) as Hm.
  fold evenings in He. fold mornings in Hm.
  pose proof (filter_length_bound (fun e => mood_in [calm; happy; sad] (mood e)) evenings)
    as Hec.
  pose proof (filter_length_bound (fun e => bool_decide (mood e = tired)) mornings) as Hmt.
  pose proof (dominant_sentence_other dominant) as [Hd1 Hd2].
  assert (Hem : evening_sentence <> morning_sentence) by discriminate.
  subst result. unfold generateBasicInsights.
  fold is_evening is_morning. fold evenings mornings. fold (dominant_sentence dominant).
  fold evening_sentence morning_sentence.
  rewrite !more_than_half by lia.
  set (acts := activity_insights _).
  assert (Hacts : forall s, In s acts -> s <> evening_sentence /\ s <> morning_sentence).
  { intros s. apply activity_sentence_other. }
  assert (Htake : forall k s, In s (take k acts) ->
                              s <> evening_sentence /\ s <> morning_sentence).
  { intros k s Hs. apply Hacts. eapply In_take. exact Hs. }
  clearbody acts.
  destruct (length evenings <? _)%nat eqn:HE;
    [apply Nat.ltb_lt in HE|apply Nat.ltb_ge in HE];
    destruct (length mornings <? _)%nat eqn:HM;
    [apply Nat.ltb_lt in HM|apply Nat.ltb_ge in HM
    |apply Nat.ltb_lt in HM|apply Nat.ltb_ge in HM];
    destruct (0 <? _)%nat; cbn [app firstn List.hd_error length In];
    (split; [reflexivity|]);
    (split; [try (destruct acts as [|? [|? [|? ?]]]; simpl; lia); lia|]);
    split; split; intros H; try lia; try tauto;
    repeat match goal with
           | H : _ \/ _ |- _ => destruct H as [H|H]
           | H : False |- _ => destruct H
           end;
    try congruence;
    try (apply (Htake 1) in H; tauto);
    try (apply (Htake 2) in H; tauto);
    try (apply (Htake 0) in H; tauto).
Qed.

End SentenceProperties.

Section StreakBounds.
Import MoodStorage.

Lemma loggingStreak_le_30 allEntries getDateDaysAgo localeCompare :
  loggingStreak allEntries getDateDaysAgo localeCompare <= 30.
Proof.
  rewrite loggingStreak_eq.
  pose proof (run_of_days_spec (logged allEntries getDateDaysAgo) 29 1) as [H _].
  destruct (logged allEntries getDateDaysAgo 0); lia.
Qed.

Lemma positiveStreak_le_length (allEntries : list MoodEntry) :
  positiveStreak allEntries <= length allEntries.
Proof.
  unfold positiveStreak.
  destruct (positive_loop_spec
              (JS.sort (fun a b => (timestamp b - timestamp a)%Z) allEntries) 0)
    as [run [rest [Hl [_ [_ ->]]]]].
  rewrite <- (Permutation_length (sort_perm (fun a b => (timestamp b - timestamp a)%Z)
                                    allEntries)).
  rewrite Hl, length_app. lia.
Qed.

End StreakBounds.

Section StreakProperties.
Import MoodStorage.

(** X16. The streaks reported are at most two, the logging streak before
    the mood streak. A reported logging streak counts between 2 and 30
    days and its text is in the plural; a reported mood streak counts at
    least 3 entries and at most as many as there are. Without entries no
    streak is reported. *)
Theorem calculateStreaks_bounds (allEntries : list MoodEntry)
    (getDateDaysAgo : nat -> string) (localeCompare : string -> string -> Z) :
  let streaks := calculateStreaks allEntries getDateDaysAgo localeCompare in
  sublist (map streak_type streaks) [streak_logging; streak_mood]
  /\ (forall s, In s streaks -> streak_type s = streak_logging ->
        2 <= count s <= 30
        /\ streak_description s
           = string_of_nat (count s) +:+ " days logging streak! 🔥")
  /\ (forall s, In s streaks -> streak_type s = streak_mood ->
        3 <= count s <= length allEntries
        /\ streak_description s
           = string_of_nat (count s) +:+ " positive entries in a row! ✨")
  /\ calculateStreaks [] getDateDaysAgo localeCompare = [].
Proof.
  intros streaks. subst streaks. rewrite calculateStreaks_eq.
  pose proof (loggingStreak_le_30 allEntries getDateDaysAgo localeCompare) as H30.
  pose proof (positiveStreak_le_length allEntries) as Hpos.
  set (n := loggingStreak allEntries getDateDaysAgo localeCompare) in *.
  set (p := positiveStreak allEntries) in *.
  assert (Hplural : (2 <= n) ->
            streak_description (logging_info n)
            = string_of_nat n +:+ " days logging streak! 🔥").
  { intros H2. unfold logging_info. cbn [streak_description].
    destruct (1 <? n)%nat eqn:H1; [reflexivity|]. apply Nat.ltb_ge in H1. lia. }
  split; [|split; [|split]].
  - destruct (2 <=? n)%nat, (3 <=? p)%nat; simpl;
      repeat first [apply sublist_nil | apply sublist_skip | apply sublist_cons].
  - intros s Hs Htype.
    destruct (2 <=? n)%nat eqn:H2, (3 <=? p)%nat eqn:H3; simpl in Hs;
      repeat match goal with
             | H : _ \/ _ |- _ => destruct H as [H|H]
             | H : False |- _ => destruct H
             end; subst s; try discriminate Htype.
    all: apply Nat.leb_le in H2; cbn [count logging_info]; split; [lia|].
    all: now apply Hplural.
  - intros s Hs Htype.
    destruct (2 <=? n)%nat eqn:H2, (3 <=? p)%nat eqn:H3; simpl in Hs;
      repeat match goal with
             | H : _ \/ _ |- _ => destruct H as [H|H]
             | H : False |- _ => destruct H
             end; subst s; try discriminate Htype.
    all: apply Nat.leb_le in H3; cbn [count mood_info streak_description]; split; [lia|].
    all: reflexivity.
  - reflexivity.
Qed.

End StreakProperties.

(* ================================================================= *)
(** ** The narrative: where the note goes and what the texts are *)
(* ================================================================= *)

Section NoteUse.
Import StoryEngine.

(** [{ ...c, note: undefined }]. *)
Definition without_note (c : StoryContext) : StoryContext :=
  mkStoryContext (mood c) (timeOfDay c) (activities c) (energyLevel c) None.



(** The activity and energy stages neither make nor remove a note
    placeholder, and leave some text. *)
Definition check_note_kept (template : string) : bool :=
  forallb
    (fun a =>
       forallb
         (fun e =>
            Bool.eqb (JS.includes (pre_note template (rep_context a e)) NOTE_REFLECTION)
              (JS.includes template NOTE_REFLECTION)
            && negb (String.eqb (pre_note template (rep_context a e)) ""))
         energy_cases)
    activity_cases.

Lemma pool_note_kept : forallb check_note_kept pool = true.
Proof. vm_compute. reflexivity. Qed.



Lemma pre_note_rep (template : string) (context : StoryContext) :
  pre_note template context
  = pre_note template (rep_context (primary context) (energy_class context)).
Proof.
  unfold pre_note.
  rewrite (fill_activities_rep template context (energy_class context)).
  now rewrite (fill_energy_rep _ context (primary context)).
Qed.

Lemma pool_pre_note_kept (template : string) (context : StoryContext) :
  In template pool ->
  JS.includes (pre_note template context) NOTE_REFLECTION
  = JS.includes template NOTE_REFLECTION
  /\ pre_note template context <> "".
Proof.
  intros Hin.
  pose proof (proj1 (forallb_forall _ _) pool_note_kept template Hin) as Hc.
  unfold check_note_kept in Hc.
  pose proof (proj1 (forallb_forall _ _) Hc (primary context) (primary_case context)) as Hc1.
  pose proof (proj1 (forallb_forall _ _) Hc1 (energy_class context)
                (energy_class_case context)) as Hc2.
  cbv beta in Hc2. rewrite <- pre_note_rep in Hc2.
  apply andb_true_iff in Hc2. destruct Hc2 as [Hkept Hne].
  apply eqb_prop in Hkept. apply negb_true_iff, String.eqb_neq in Hne. auto.
Qed.

Lemma fill_note_absent (r : string) (context : StoryContext) :
  JS.includes r NOTE_REFLECTION = false -> fill_note r context = r.
Proof.
  intros Hr. unfold JS.includes in Hr. unfold fill_note. fold NOTE_REFLECTION.
  destruct (JS.split_at_first NOTE_REFLECTION r) eqn:Hs; [discriminate|].
  destruct (note_given context); now apply replace_absent.
Qed.



Lemma pre_note_without_note (template : string) (context : StoryContext) :
  pre_note template (without_note context) = pre_note template context.
Proof. reflexivity. Qed.







Lemma pick_In {T : Type} (arr : list T) (r : nat) (t : T) :
  pickRandom arr r = Some t -> In t arr.
Proof. unfold pickRandom, JS.at_index. apply nth_error_In. Qed.


End NoteUse.

Section Segments.
Import StoryEngine.






(** [fillTemplate] reads the first activity, the energy level up to its
    description, and the trimmed note; nothing else of the context. *)
Lemma fillTemplate_same (template : string) (c c' : StoryContext) :
  primary c = primary c' -> energy_class c = energy_class c' ->
  note_given c = note_given c' ->
  fillTemplate template c = fillTemplate template c'.
Proof.
  intros Hp He Hn.
  assert (Hpre : pre_note template c = pre_note template c').
  { rewrite (pre_note_rep template c), (pre_note_rep template c'). now rewrite Hp, He. }
  unfold fillTemplate. fold (pre_note template c) (pre_note template c').
  rewrite Hpre. unfold fill_note. now rewrite Hn.
Qed.

End Segments.

Section NarrativeProperties.
Import StoryEngine.





End NarrativeProperties.

Section FillTemplateReads.
Import StoryEngine.

(** X21. [fillTemplate] reads of the context the first activity, the
    energy level and the note, and nothing else: the mood, the time of
    day and the further activities never change the text. A level of 0
    reads as no level, a level outside 1..5 as level 3, and a note that
    is only white space as no note. *)
Theorem fillTemplate_reads_three_things (template : string) (c : StoryContext) :
  (forall c', primary c = primary c' -> energy_class c = energy_class c' ->
              note_given c = note_given c' ->
              fillTemplate template c = fillTemplate template c')
  /\ (forall m t rest a,
        activities c = Some (a :: rest) ->
        fillTemplate template c
        = fillTemplate template (mkStoryContext m t (Some [a]) (energyLevel c) (note c)))
  /\ (energyLevel c = Some 0%Z ->
      fillTemplate template c
      = fillTemplate template
          (mkStoryContext (mood c) (timeOfDay c) (activities c) None (note c)))
  /\ (forall z, energyLevel c = Some z -> (z < 0 \/ 5 < z)%Z ->
        fillTemplate template c
        = fillTemplate template
            (mkStoryContext (mood c) (timeOfDay c) (activities c) (Some 3%Z) (note c)))
  /\ (forall n, note c = Some n -> JS.trim n = "" ->
        fillTemplate template c
        = fillTemplate template
            (mkStoryContext (mood c) (timeOfDay c) (activities c) (energyLevel c) None)).
Proof.
  split; [intros c'; apply fillTemplate_same|].
  split; [|split; [|split]].
  - intros m t rest a Ha. apply fillTemplate_same; try reflexivity.
    unfold primary. cbn [activities]. now rewrite Ha.
  - intros He. apply fillTemplate_same; try reflexivity.
    unfold energy_class, energy_given. cbn [energyLevel]. now rewrite He.
  - intros z He Hz. apply fillTemplate_same; try reflexivity.
    unfold energy_class, energy_given. cbn [energyLevel]. rewrite He.
    destruct (z =? 0)%Z eqn:H0; [apply Z.eqb_eq in H0; lia|].
    destruct (1 <=? z)%Z eqn:H1; destruct (z <=? 5)%Z eqn:H5; try reflexivity.
    apply Z.leb_le in H1, H5. lia.
  - intros n Hn Htrim. apply fillTemplate_same; try reflexivity.
    unfold note_given. cbn [note]. rewrite Hn, Htrim.
    now destruct (JS.truthy_string n).
Qed.

End FillTemplateReads.

Section ActivityPhrases.
Import StoryEngine.

Definition activity_ids : list ActivityId :=
  [work; social; exercise; creative; rest; nature; learning; family].

(** The activity placeholders with what [fillTemplate] puts for them when
    the first activity is [a]. *)
Definition activity_renderings (a : ActivityId) : list (string * string) :=
  [ ("{{ACTIVITY_DOING}}", doing (activityPhrases a))
  ; ("{{ACTIVITY_PAST}}", past (activityPhrases a))
  ; ("{{ACTIVITY_EFFECT}}", effect (activityPhrases a))
  ; ("{{ACTIVITY_SUMMARY}}", "filled with " +:+ doing (activityPhrases a)) ].

(** A template with an activity placeholder has no note placeholder, and
    the phrase of the activity is in what the activity and energy stages
    give. *)
Definition check_activity_shown (template : string) : bool :=
  forallb
    (fun a =>
       forallb
         (fun rendering =>
            if JS.includes template (fst rendering) then
              negb (JS.includes template NOTE_REFLECTION)
              && forallb
                   (fun e =>
                      JS.includes (pre_note template (rep_context (Some a) e))
                        (snd rendering))
                   energy_cases
            else true)
         (activity_renderings a))
    activity_ids.

Lemma pool_activity_shown : forallb check_activity_shown pool = true.
Proof. vm_compute. reflexivity. Qed.

Lemma activity_ids_all (a : ActivityId) : In a activity_ids.
Proof. destruct a; simpl; tauto. Qed.

End ActivityPhrases.

Section ActivityProperties.
Import StoryEngine.

(** X22. When activities are given, the phrase of the first one is in
    the text of every template that has an activity placeholder: the
    doing, past or effect phrase of that activity, or [filled with] and
    its doing phrase in a summary. *)
Theorem first_activity_is_told (m : Mood) (t : TimeOfDay) (template : string)
    (context : StoryContext) (a : ActivityId) (others : list ActivityId)
    (placeholder phrase : string) :
  In template (storyTemplates m t) \/ In template (summaryTemplates m) ->
  activities context = Some (a :: others) ->
  In (placeholder, phrase) (activity_renderings a) ->
  JS.includes template placeholder = true ->
  JS.includes (fillTemplate template context) phrase = true.
Proof.
  intros Hpool Hacts Hrender Hinc. apply in_pool in Hpool.
  pose proof (proj1 (forallb_forall _ _) pool_activity_shown template Hpool) as Hc.
  unfold check_activity_shown in Hc.
  pose proof (proj1 (forallb_forall _ _) Hc a (activity_ids_all a)) as Hc1.
  pose proof (proj1 (forallb_forall _ _) Hc1 (placeholder, phrase) Hrender) as Hc2.
  cbn [fst snd] in Hc2. rewrite Hinc in Hc2.
  apply andb_true_iff in Hc2. destruct Hc2 as [Hfree Hshown].
  apply negb_true_iff in Hfree.
  pose proof (proj1 (forallb_forall _ _) Hshown (energy_class context)
                (energy_class_case context)) as Hpre.
  cbv beta in Hpre.
  assert (Hprimary : primary context = Some a) by (unfold primary; now rewrite Hacts).
  rewrite <- Hprimary, <- pre_note_rep in Hpre.
  destruct (pool_pre_note_kept template context Hpool) as [Hkept _].
  rewrite Hfree in Hkept.
  unfold fillTemplate. fold (pre_note template context).
  now rewrite fill_note_absent.
Qed.

End ActivityProperties.

Section EmptyReport.
Import MoodStorage.

(** The report of a week without entries. *)
Definition empty_report (today : string) : WeeklyInsight :=
  mkWeeklyInsight today neutral
    [ (happy, 0); (calm, 0); (tired, 0); (anxious, 0)
    ; (focused, 0); (neutral, 0); (excited, 0); (sad, 0) ]
    ["You've been feeling mostly balanced this week."] [] [].

(** X23. When the store has no entries, or neither read is carried out,
    the weekly report is the one of an empty week: dominant mood
    neutral, all counts 0, the one sentence on a balanced week, no
    pattern and no streak. *)
Theorem calculateWeeklyInsights_without_entries (env : Env) (disk : gmap string Stored) :
  (getMoodEntries (read_week_ok env) disk = Resolved (Items []) ->
   getMoodEntries (read_all_ok env) disk = Resolved (Items []) ->
   calculateWeeklyInsights env disk = Resolved (empty_report (getTodayDate env)))
  /\ (read_week_ok env = false -> read_all_ok env = false ->
      calculateWeeklyInsights env disk = Resolved (empty_report (getTodayDate env)))
  /\ (disk !! MOOD_ENTRIES = None ->
      calculateWeeklyInsights env disk = Resolved (empty_report (getTodayDate env))).
Proof.
  assert (Hempty : getMoodEntries (read_week_ok env) disk = Resolved (Items []) ->
                   getMoodEntries (read_all_ok env) disk = Resolved (Items []) ->
                   calculateWeeklyInsights env disk
                   = Resolved (empty_report (getTodayDate env))).
  { intros Hw Ha. unfold calculateWeeklyInsights, getWeekEntries.
    rewrite Hw. cbn [await array_of List.filter]. rewrite Ha. reflexivity. }
  split; [exact Hempty|]. split.
  - intros Hw Ha. apply Hempty; [rewrite Hw|rewrite Ha]; reflexivity.
  - intros Hnone. apply Hempty; now apply getMoodEntries_absent.
Qed.

End EmptyReport.

Section ActivityMoods.
Import MoodStorage.

(** [map[act]], the empty list when the key is absent. *)
Fixpoint moods_at (amap : ActivityMoodMap) (act : ActivityId) : list Mood :=
  match amap with
  | [] => []
  | (k, ms) :: rest => if bool_decide (k = act) then ms else moods_at rest act
  end.

(** The moods of the entries that name the activity, one for each time an
    entry names it, in the order of the entries. *)
Definition moods_with (act : ActivityId) (entries : list MoodEntry) : list Mood :=
  flat_map
    (fun e =>
       flat_map (fun a => if bool_decide (a = act) then [mood e] else [])
         (activities_or_empty e))
    entries.

Lemma push_mood_at (act k : ActivityId) (m : Mood) (amap : ActivityMoodMap) :
  moods_at (push_mood act m amap) k
  = if bool_decide (act = k) then moods_at amap k ++ [m] else moods_at amap k.
Proof.
  induction amap as [|[k' ms] amap IH]; simpl.
  - destruct (decide (act = k)) as [->|Hne].
    + now rewrite !bool_decide_eq_true_2.
    + now rewrite !bool_decide_eq_false_2.
  - destruct (decide (k' = act)) as [->|Hne].
    + rewrite (bool_decide_eq_true_2 (act = act)) by reflexivity. simpl.
      now destruct (bool_decide (act = k)).
    + rewrite (bool_decide_eq_false_2 (k' = act)) by exact Hne. simpl.
      rewrite IH. destruct (decide (k' = k)) as [->|Hk].
      * rewrite (bool_decide_eq_true_2 (k = k)) by reflexivity.
        now rewrite (bool_decide_eq_false_2 (act = k)) by congruence.
      * now rewrite (bool_decide_eq_false_2 (k' = k)) by exact Hk.
Qed.

Lemma push_mood_keys (act : ActivityId) (m : Mood) (amap : ActivityMoodMap) :
  List.NoDup (map fst amap) -> List.NoDup (map fst (push_mood act m amap))
  /\ forall k, In k (map fst (push_mood act m amap)) <-> k = act \/ In k (map fst amap).
Proof.
  induction amap as [|[k' ms] amap IH]; intros Hnd; simpl.
  - split; [repeat constructor; auto|]. intros k. intuition.
  - inversion Hnd as [|? ? Hk' Hrest]; subst. specialize (IH Hrest).
    destruct IH as [IHnd IHin].
    destruct (decide (k' = act)) as [->|Hne].
    + rewrite (bool_decide_eq_true_2 (act = act)) by reflexivity. simpl.
      split; [exact Hnd|]. intros k. intuition.
    + rewrite (bool_decide_eq_false_2 (k' = act)) by exact Hne. simpl. split.
      * constructor; [|exact IHnd]. rewrite IHin. intros [Heq|Hin]; [congruence|tauto].
      * intros k. rewrite IHin. intuition.
Qed.

Lemma moods_at_In (amap : ActivityMoodMap) (act : ActivityId) (ms : list Mood) :
  List.NoDup (map fst amap) -> In (act, ms) amap -> moods_at amap act = ms.
Proof.
  induction amap as [|[k' ms'] amap IH]; intros Hnd Hin; [destruct Hin|].
  inversion Hnd as [|? ? Hk' Hrest]; subst. simpl.
  destruct Hin as [Heq|Hin].
  - injection Heq as -> ->. now rewrite bool_decide_eq_true_2.
  - rewrite bool_decide_eq_false_2; [now apply IH|].
    intros ->. apply Hk'. apply in_map_iff. exists (act, ms). auto.
Qed.

Lemma push_activities (e_mood : Mood) (acts : list ActivityId) (amap : ActivityMoodMap) :
  List.NoDup (map fst amap) ->
  let amap' := fold_left (fun amap act => push_mood act e_mood amap) acts amap in
  List.NoDup (map fst amap')
  /\ forall k,
       moods_at amap' k
       = moods_at amap k
         ++ flat_map (fun a => if bool_decide (a = k) then [e_mood] else []) acts.
Proof.
  revert amap. induction acts as [|a acts IH]; intros amap Hnd; simpl.
  - split; [exact Hnd|]. intros k. now rewrite app_nil_r.
  - destruct (push_mood_keys a e_mood amap Hnd) as [Hnd' _].
    destruct (IH (push_mood a e_mood amap) Hnd') as [Hnd'' Hat].
    split; [exact Hnd''|]. intros k. rewrite Hat, push_mood_at.
    destruct (bool_decide (a = k)); simpl; [now rewrite <- app_assoc|reflexivity].
Qed.

Lemma activityMoodMap_from (entries : list MoodEntry) (amap : ActivityMoodMap) :
  List.NoDup (map fst amap) ->
  let amap' :=
    fold_left
      (fun amap e => fold_left (fun amap act => push_mood act (mood e) amap)
                       (activities_or_empty e) amap)
      entries amap in
  List.NoDup (map fst amap')
  /\ forall k, moods_at amap' k = moods_at amap k ++ moods_with k entries.
Proof.
  revert amap. induction entries as [|e entries IH]; intros amap Hnd; simpl.
  - split; [exact Hnd|]. intros k. now rewrite app_nil_r.
  - destruct (push_activities (mood e) (activities_or_empty e) amap Hnd) as [Hnd' Hat].
    destruct (IH _ Hnd') as [Hnd'' Hat'].
    split; [exact Hnd''|]. intros k. rewrite Hat', Hat. now rewrite <- app_assoc.
Qed.

Lemma moods_with_filter (act : ActivityId) (entries : list MoodEntry) :
  moods_with act
    (List.filter (fun e => match activities e with Some (_ :: _) => true | _ => false end)
       entries)
  = moods_with act entries.
Proof.
  unfold moods_with. induction entries as [|e entries IH]; simpl; [reflexivity|].
  unfold activities_or_empty at 2. destruct (activities e) as [[|a l]|] eqn:Ha; simpl.
  - exact IH.
  - rewrite IH. unfold activities_or_empty. now rewrite Ha.
  - exact IH.
Qed.

(** The lists of the map the code builds. *)
Lemma activityMoodMap_pairs (entries : list MoodEntry) (act : ActivityId) (ms : list Mood) :
  In (act, ms) (activityMoodMap entries) -> ms = moods_with act entries.
Proof.
  intros Hin. unfold activityMoodMap in Hin.
  destruct (activityMoodMap_from entries [] (List.NoDup_nil _)) as [Hnd Hat].
  cbv zeta in Hnd, Hat. rewrite <- (moods_at_In _ act ms Hnd Hin). now rewrite Hat.
Qed.

End ActivityMoods.

Section ActivitySentences.
Import MoodStorage.

Lemma gt_half (n a : nat) :
  n <= 100 -> a <= n -> JS.gt (JS.number_of_nat a) (half n) = (n <? 2 * a)%nat.
Proof.
  intros Hn Ha.
  pose proof (half_check_sound 101 n a half_check_101 ltac:(lia) Ha) as H.
  unfold half_agrees in H. now apply eqb_prop in H.
Qed.

Lemma moods_with_length (act : ActivityId) (entries : list MoodEntry) :
  length (moods_with act entries) <= length (flat_map activities_or_empty entries).
Proof.
  unfold moods_with. induction entries as [|e entries IH]; simpl; [lia|].
  rewrite !length_app.
  assert (H : length (flat_map (fun a => if bool_decide (a = act) then [mood e] else [])
                        (activities_or_empty e))
              <= length (activities_or_empty e)).
  { induction (activities_or_empty e) as [|a l IHl]; simpl; [lia|].
    rewrite length_app. destruct (bool_decide (a = act)); simpl; lia. }
  lia.
Qed.

Lemma moods_with_named (act : ActivityId) (entries : list MoodEntry) :
  moods_with act entries <> [] ->
  exists e, In e entries /\ In act (activities_or_empty e).
Proof.
  unfold moods_with. intros Hne.
  destruct (flat_map _ entries) as [|m ms] eqn:Hflat; [congruence|].
  assert (Hin : In m (flat_map
                        (fun e => flat_map
                                    (fun a => if bool_decide (a = act) then [mood e] else [])
                                    (activities_or_empty e)) entries))
    by (rewrite Hflat; now left).
  apply in_flat_map in Hin. destruct Hin as [e [He Hm]].
  apply in_flat_map in Hm. destruct Hm as [a [Ha Hm]].
  exists e. split; [exact He|].
  destruct (decide (a = act)) as [<-|Hn]; [exact Ha|].
  rewrite bool_decide_eq_false_2 in Hm by exact Hn. destruct Hm.
Qed.

End ActivitySentences.

Section ActivitySentenceProperties.
Import MoodStorage.

(** X24. Every sentence of the basic insights is the sentence on the
    dominant mood, the one on evenings, the one on mornings, or a
    sentence on an activity; and a sentence on an activity names an
    activity that an entry of the week has, more than half of whose
    mentions are in entries with a positive mood (for at most 100
    mentions of activities in the week). *)
Theorem activity_sentences_are_earned
    (entries : list MoodEntry) (counts : MoodCounts) (dominant : Mood) (s : string) :
  length (flat_map activities_or_empty entries) <= 100 ->
  In s (generateBasicInsights entries counts dominant) ->
  s = dominant_sentence dominant \/ s = evening_sentence \/ s = morning_sentence
  \/ exists act,
       s = activityName act +:+ " seems to lift your spirits."
       /\ (exists e, In e entries /\ In act (activities_or_empty e))
       /\ length (moods_with act entries)
          < 2 * length (List.filter positive (moods_with act entries)).
Proof.
  intros Hbound Hin. unfold generateBasicInsights in Hin. apply In_take in Hin.
  fold (dominant_sentence dominant) evening_sentence morning_sentence in Hin.
  set (withActs := List.filter
                     (fun e => match activities e with Some (_ :: _) => true | _ => false end)
                     entries) in *.
  assert (Hact : In s (activity_insights (activityMoodMap withActs)) ->
            exists act,
              s = activityName act +:+ " seems to lift your spirits."
              /\ (exists e, In e entries /\ In act (activities_or_empty e))
              /\ length (moods_with act entries)
                 < 2 * length (List.filter positive (moods_with act entries))).
  { unfold activity_insights. rewrite in_flat_map. intros [[act ms] [Hpair Hs]].
    apply activityMoodMap_pairs in Hpair. unfold withActs in Hpair.
    rewrite moods_with_filter in Hpair. subst ms.
    pose proof (moods_with_length act entries) as Hlen.
    pose proof (filter_length_bound positive (moods_with act entries)) as Hpos.
    rewrite gt_half in Hs by lia.
    destruct (length (moods_with act entries) <? _)%nat eqn:Hlt; [|destruct Hs].
    apply Nat.ltb_lt in Hlt. destruct Hs as [<-|[]].
    exists act. split; [reflexivity|]. split; [|exact Hlt].
    apply moods_with_named. intros Hnil. rewrite Hnil in Hlt. simpl in Hlt. lia. }
  repeat match type of Hin with
         | context [if ?c then _ else _] => destruct c
         end;
    repeat (apply in_app_or in Hin; destruct Hin as [Hin|Hin]);
    repeat match goal with
           | H : In _ [_] |- _ => destruct H as [H|[]]
           | H : In _ [] |- _ => destruct H
           end;
    subst; auto.
Qed.

End ActivitySentenceProperties.

(* ================================================================= *)
(** ** Concrete instances *)
(* ================================================================= *)

Section Instances.
Import MoodStorage.

Definition entry_at (d : string) (t : TimeOfDay) (m : Mood) (ts : Z) : MoodEntry :=
  mkMoodEntry ("id-" +:+ d) d t m None None None None ts.

(** The calendar of 8 January 2024 and a collation by code points. *)
Definition calendar_2024_01_08 (i : nat) : string :=
  nth i ["2024-01-08"; "2024-01-07"; "2024-01-06"; "2024-01-05"; "2024-01-04";
         "2024-01-03"; "2024-01-02"; "2024-01-01"] "2023-12-31".

Definition compare_code_points (a b : string) : Z :=
  match String.compare a b with Lt => (-1)%Z | Eq => 0%Z | Gt => 1%Z end.

Definition noon_2024_01_08 : Z := 1704715200000.
Definition day_ms : Z := 24 * 60 * 60 * 1000.

Definition env_2024_01_08 : Env :=
  mkEnv true true noon_2024_01_08 noon_2024_01_08 noon_2024_01_08
    calendar_2024_01_08 "2024-01-08" compare_code_points.

(** Two happy and two calm entries in the last days. *)
Definition week_happy_calm : list MoodEntry :=
  [ entry_at "2024-01-06" StoryEngine.morning calm (noon_2024_01_08 - 2 * day_ms)
  ; entry_at "2024-01-06" StoryEngine.evening happy (noon_2024_01_08 - 2 * day_ms + 1)
  ; entry_at "2024-01-07" StoryEngine.morning calm (noon_2024_01_08 - day_ms)
  ; entry_at "2024-01-07" StoryEngine.evening happy (noon_2024_01_08 - day_ms + 1) ].

Definition disk_happy_calm : gmap string Stored :=
  {[ MOOD_ENTRIES := EntriesJson week_happy_calm ]}.

Definition report_happy_calm : WeeklyInsight :=
  mkWeeklyInsight "2024-01-08" (fst (find_dominant (tally week_happy_calm)))
    (tally week_happy_calm)
    (generateBasicInsights week_happy_calm (tally week_happy_calm)
       (fst (find_dominant (tally week_happy_calm))))
    (generatePatternInsights week_happy_calm week_happy_calm
       noon_2024_01_08 noon_2024_01_08)
    (calculateStreaks week_happy_calm calendar_2024_01_08 compare_code_points).

Lemma report_happy_calm_computed :
  calculateWeeklyInsights env_2024_01_08 disk_happy_calm = Resolved report_happy_calm.
Proof. vm_compute. reflexivity. Qed.



(** A week of five entries, three of them positive, after a week of five
    entries, four of them positive. *)
Definition week_three_of_five : list MoodEntry :=
  [ entry_at "2024-01-04" StoryEngine.morning happy (noon_2024_01_08 - 4 * day_ms)
  ; entry_at "2024-01-05" StoryEngine.morning calm (noon_2024_01_08 - 3 * day_ms)
  ; entry_at "2024-01-06" StoryEngine.morning focused (noon_2024_01_08 - 2 * day_ms)
  ; entry_at "2024-01-07" StoryEngine.morning neutral (noon_2024_01_08 - day_ms)
  ; entry_at "2024-01-08" StoryEngine.morning sad noon_2024_01_08 ].

Definition week_four_of_five : list MoodEntry :=
  [ entry_at "2023-12-27" StoryEngine.morning happy (noon_2024_01_08 - 12 * day_ms)
  ; entry_at "2023-12-28" StoryEngine.morning calm (noon_2024_01_08 - 11 * day_ms)
  ; entry_at "2023-12-29" StoryEngine.morning focused (noon_2024_01_08 - 10 * day_ms)
  ; entry_at "2023-12-30" StoryEngine.morning excited (noon_2024_01_08 - 9 * day_ms)
  ; entry_at "2023-12-31" StoryEngine.morning neutral (noon_2024_01_08 - 8 * day_ms) ].

(** A store with a happy morning on 1 January 2024. *)
Definition disk_one_morning : gmap string Stored :=
  {[ MOOD_ENTRIES :=
       EntriesJson [entry_at "2024-01-01" StoryEngine.morning happy 1704096000000] ]}.

Definition tired_morning : NewMoodEntry :=
  mkNewMoodEntry "2024-01-01" StoryEngine.morning tired None (Some "slept badly") None
    (Some 2%Z).

Lemma disk_one_morning_invariant : store_invariant disk_one_morning.
Proof.
  exists [entry_at "2024-01-01" StoryEngine.morning happy 1704096000000].
  split; [reflexivity|]. intros d t. simpl.
  destruct (same_slot d t _); simpl; lia.
Defined.

(** C1 at a store that already has an entry for the slot. *)
Lemma saveMoodEntry_replaces_slot_witness :
  store_invariant disk_one_morning
  /\ exists l',
       getMoodEntries true
         (snd (saveMoodEntry true true 1704099600000 "k3j9x0q2a" 1704099600001
                 disk_one_morning tired_morning))
       = Resolved (Items l')
       /\ List.filter (same_slot "2024-01-01" StoryEngine.morning) l'
          = [make_entry tired_morning (generateId 1704099600000 "k3j9x0q2a") 1704099600001]
       /\ at_most_one_per_slot l'.
Proof.
  split; [exact disk_one_morning_invariant|].
  exact (proj1 (proj2 (proj2 (proj2 (proj2
    (saveMoodEntry_replaces_slot disk_one_morning tired_morning true 1704099600000
       "k3j9x0q2a" 1704099600001 disk_one_morning_invariant)))))).
Defined.

(** C4 on the week of two happy and two calm entries. *)
Lemma dominant_mood_witness :
  calculateWeeklyInsights env_2024_01_08 disk_happy_calm = Resolved report_happy_calm
  /\ exists entries,
       getWeekEntries true disk_happy_calm noon_2024_01_08 = Resolved entries
       /\ map fst (moodCounts report_happy_calm) = enumeration.
Proof.
  split; [exact report_happy_calm_computed|].
  destruct (dominant_mood_is_first_with_highest_count env_2024_01_08 disk_happy_calm
              report_happy_calm report_happy_calm_computed)
    as [entries [Hweek [Hkeys _]]].
  exists entries. split; [exact Hweek|exact Hkeys].
Defined.



(** C7 with the exact 0.2 test does not hold: with 3 positive entries
    out of 5 after a week with 4 out of 5 the fractions differ by exactly
    0.2, and the Challenging Week pattern is found. *)
Lemma three_of_five_after_four_of_five :
  lastWeekEntries (week_four_of_five ++ week_three_of_five) noon_2024_01_08 noon_2024_01_08
  = week_four_of_five
  /\ length week_three_of_five = 5
  /\ positive_count week_three_of_five = 3
  /\ length week_four_of_five = 5
  /\ positive_count week_four_of_five = 4
  /\ ~ exceeds_by_more_than_fifth 4 5 3 5
  /\ ~ exceeds_by_more_than_fifth 3 5 4 5
  /\ generatePatternInsights week_three_of_five (week_four_of_five ++ week_three_of_five)
       noon_2024_01_08 noon_2024_01_08
     = [challenging_week].
Proof.
  split; [vm_compute; reflexivity|].
  split; [reflexivity|]. split; [reflexivity|].
  split; [reflexivity|]. split; [reflexivity|].
  split; [unfold exceeds_by_more_than_fifth; lia|].
  split; [unfold exceeds_by_more_than_fifth; lia|].
  vm_compute. reflexivity.
Qed.

End Instances.

Section NarrativeInstances.
Import StoryEngine.




End NarrativeInstances.

Section StreakInstances.
Import MoodStorage.

(** Entries today, yesterday and the day before, none three days ago, and
    an older one. *)
Definition three_days_running : list MoodEntry :=
  [ entry_at "2024-01-03" StoryEngine.morning calm (noon_2024_01_08 - 5 * day_ms)
  ; entry_at "2024-01-06" StoryEngine.evening tired (noon_2024_01_08 - 2 * day_ms)
  ; entry_at "2024-01-07" StoryEngine.morning excited (noon_2024_01_08 - day_ms)
  ; entry_at "2024-01-08" StoryEngine.morning happy noon_2024_01_08 ].


(** C3 on the same entries: latest first their moods are happy, excited,
    tired, calm. *)
Lemma mood_streak_witness : positiveStreak three_days_running = 2.
Proof.
  refine (proj2 (proj2 (proj2 (proj2 (proj2 (proj2
    (mood_streak_is_leading_positive_run three_days_running calendar_2024_01_08
       compare_code_points)))))) _).
  reflexivity.
Defined.

End StreakInstances.

(* ================================================================= *)
(** ** Further instances *)
(* ================================================================= *)

Section StoreInstances.
Import MoodStorage.

Definition calm_evening : NewMoodEntry :=
  mkNewMoodEntry "2024-01-07" StoryEngine.evening calm None None None (Some 3%Z).

(** A device whose text under the entries key is not JSON. *)
Definition disk_not_json : gmap string Stored :=
  {[ MOOD_ENTRIES := NotJson "[{" ]}.

Definition story_of (d text : string) : DayStory :=
  mkDayStory d text text text text (mkStoryMoods None None None) None None None.

Definition disk_one_story : gmap string Stored :=
  {[ STORIES := StoriesJson [story_of "2024-01-08" "first"] ]}.


(** X2 on a device whose stored text is not JSON. *)
Lemma saveMoodEntry_on_unreadable_store_witness :
  (exists s, disk_not_json !! MOOD_ENTRIES = Some (NotJson s))
  /\ getMoodEntries true
       (snd (saveMoodEntry true true 1704715200000 "k3j9x0q2a" 1704715200001
               disk_not_json calm_evening))
     = Resolved
         (Items [make_entry calm_evening (generateId 1704715200000 "k3j9x0q2a")
                   1704715200001]).
Proof.
  assert (H : exists s, disk_not_json !! MOOD_ENTRIES = Some (NotJson s))
    by (eexists; reflexivity).
  split; [exact H|].
  exact (proj2 (proj2
    (saveMoodEntry_on_unreadable_store disk_not_json calm_evening true 1704715200000
       "k3j9x0q2a" 1704715200001 (or_intror (or_intror H))))).
Defined.

(** X4 on the store with one morning entry. *)
Lemma getEntriesForDate_one_per_time_witness :
  store_invariant disk_one_morning
  /\ exists found,
       getEntriesForDate true disk_one_morning "2024-01-01" = Resolved found
       /\ length found <= 3.
Proof.
  split; [exact disk_one_morning_invariant|].
  destruct (getEntriesForDate_one_per_time disk_one_morning "2024-01-01"
              disk_one_morning_invariant)
    as [stored [found [_ [Hget [_ [_ [_ Hlen]]]]]]].
  exists found. split; [exact Hget|exact Hlen].
Defined.

(** X6 on the week of two happy and two calm entries, which has two
    dates. *)
Lemma getDatesWithEntries_distinct_dates_witness :
  getMoodEntries true disk_happy_calm = Resolved (Items week_happy_calm)
  /\ exists dates,
       getDatesWithEntries true disk_happy_calm compare_code_points = Resolved dates
       /\ List.NoDup dates
       /\ length dates <= length week_happy_calm.
Proof.
  split; [reflexivity|].
  destruct (getDatesWithEntries_distinct_dates true disk_happy_calm compare_code_points
              week_happy_calm eq_refl)
    as [dates [Hget [Hnd [_ [Hlen _]]]]].
  exists dates. split; [exact Hget|]. split; [exact Hnd|exact Hlen].
Defined.

(** X7 on a store that has a story for the date. *)
Lemma saveStory_replaces_by_date_witness :
  getStories true disk_one_story = Resolved (Items [story_of "2024-01-08" "first"])
  /\ getStoryForDate true
       (snd (saveStory true true disk_one_story (story_of "2024-01-08" "second")))
       "2024-01-08"
     = Resolved (Some (story_of "2024-01-08" "second")).
Proof.
  split; [reflexivity|].
  exact (proj1 (proj2 (proj2
    (saveStory_replaces_by_date true disk_one_story (story_of "2024-01-08" "second")
       [story_of "2024-01-08" "first"] eq_refl)))).
Defined.

End StoreInstances.

Section ReportInstances.
Import MoodStorage.

Definition entry_with_energy (d : string) (t : TimeOfDay) (m : Mood) (level ts : Z)
    : MoodEntry :=
  mkMoodEntry ("id-" +:+ d) d t m None None None (Some level) ts.

(** Three entries with the levels 4, 5 and 4, and one without a level. *)
Definition week_of_high_energy : list MoodEntry :=
  [ entry_with_energy "2024-01-06" StoryEngine.morning focused 4 (noon_2024_01_08 - 2 * day_ms)
  ; entry_with_energy "2024-01-07" StoryEngine.morning happy 5 (noon_2024_01_08 - day_ms)
  ; entry_at "2024-01-07" StoryEngine.evening calm (noon_2024_01_08 - day_ms + 1)
  ; entry_with_energy "2024-01-08" StoryEngine.morning excited 4 noon_2024_01_08 ].

(** X12 on a week of two entries. *)
Lemma fewer_than_three_entries_no_pattern_witness :
  length (take 2 week_happy_calm) < 3
  /\ generatePatternInsights (take 2 week_happy_calm) week_happy_calm
       noon_2024_01_08 noon_2024_01_08
     = [].
Proof.
  assert (H : length (take 2 week_happy_calm) < 3) by (simpl; lia).
  split; [exact H|].
  exact (fewer_than_three_entries_no_pattern (take 2 week_happy_calm) week_happy_calm
           noon_2024_01_08 noon_2024_01_08 H).
Defined.

(** X14 on three levels that add up to 13. *)
Lemma energy_pattern_by_average_witness :
  levels_in_range week_of_high_energy
  /\ length (List.filter has_energy week_of_high_energy) <= 100
  /\ energy_pattern week_of_high_energy = [high_energy_week].
Proof.
  assert (Hrange : levels_in_range week_of_high_energy).
  { unfold levels_in_range, week_of_high_energy.
    repeat (apply List.Forall_cons;
            [intros z Hz; simpl in Hz; first [discriminate Hz | injection Hz as <-; lia]|]).
    apply List.Forall_nil. }
  assert (Hlen : length (List.filter has_energy week_of_high_energy) <= 100)
    by (simpl; lia).
  split; [exact Hrange|]. split; [exact Hlen|].
  apply (proj1 (energy_pattern_by_average week_of_high_energy Hrange Hlen)).
  vm_compute. split; discriminate.
Defined.

(** X15 on the week of two happy and two calm entries. *)
Lemma generateBasicInsights_sentences_witness :
  length week_happy_calm <= 100
  /\ List.hd_error (generateBasicInsights week_happy_calm (tally week_happy_calm) happy)
     = Some (dominant_sentence happy)
  /\ In evening_sentence
       (generateBasicInsights week_happy_calm (tally week_happy_calm) happy).
Proof.
  assert (Hlen : length week_happy_calm <= 100) by (simpl; lia).
  destruct (generateBasicInsights_sentences week_happy_calm (tally week_happy_calm) happy
              Hlen) as [Hhd [_ [Hevening _]]].
  split; [exact Hlen|]. split; [exact Hhd|].
  apply Hevening. simpl. lia.
Defined.

End ReportInstances.

Section MoreNarrativeInstances.
Import StoryEngine.



(** X22 on a template of the happy afternoons and the activities work
    and rest. *)
Lemma first_activity_is_told_witness :
  In "The day unfolded with warmth, {{ACTIVITY_DOING}}." (storyTemplates happy afternoon)
  /\ JS.includes "The day unfolded with warmth, {{ACTIVITY_DOING}}." "{{ACTIVITY_DOING}}"
     = true
  /\ JS.includes
       (fillTemplate "The day unfolded with warmth, {{ACTIVITY_DOING}}."
          (mkStoryContext happy afternoon (Some [work; rest]) None None))
       "navigating work demands"
     = true.
Proof.
  assert (Hin : In "The day unfolded with warmth, {{ACTIVITY_DOING}}."
                  (storyTemplates happy afternoon)) by (left; reflexivity).
  split; [exact Hin|]. split; [reflexivity|].
  refine (first_activity_is_told happy afternoon
            "The day unfolded with warmth, {{ACTIVITY_DOING}}."
            (mkStoryContext happy afternoon (Some [work; rest]) None None)
            work [rest] "{{ACTIVITY_DOING}}" "navigating work demands"
            (or_introl Hin) eq_refl _ eq_refl).
  left. reflexivity.
Defined.

End MoreNarrativeInstances.

Section ActivitySentenceInstances.
Import MoodStorage.

Definition entry_doing (d : string) (t : TimeOfDay) (m : Mood) (acts : list ActivityId)
    (ts : Z) : MoodEntry :=
  mkMoodEntry ("id-" +:+ d) d t m None None (Some acts) None ts.

(** Exercise on two happy mornings and on a tired one, work on the tired
    one. *)
Definition week_of_exercise : list MoodEntry :=
  [ entry_doing "2024-01-06" StoryEngine.morning happy [StoryEngine.exercise]
      (noon_2024_01_08 - 2 * day_ms)
  ; entry_doing "2024-01-07" StoryEngine.morning tired
      [StoryEngine.work; StoryEngine.exercise] (noon_2024_01_08 - day_ms)
  ; entry_doing "2024-01-08" StoryEngine.morning happy [StoryEngine.exercise]
      noon_2024_01_08 ].

(** X24 on that week: the sentence on exercise is reported. *)
Lemma activity_sentences_are_earned_witness :
  length (flat_map activities_or_empty week_of_exercise) <= 100
  /\ In "Exercise seems to lift your spirits."
       (generateBasicInsights week_of_exercise (tally week_of_exercise) happy)
  /\ ("Exercise seems to lift your spirits." = dominant_sentence happy
      \/ "Exercise seems to lift your spirits." = evening_sentence
      \/ "Exercise seems to lift your spirits." = morning_sentence
      \/ exists act,
           "Exercise seems to lift your spirits."
           = activityName act +:+ " seems to lift your spirits."
           /\ (exists e, In e week_of_exercise /\ In act (activities_or_empty e))
           /\ length (moods_with act week_of_exercise)
              < 2 * length (List.filter positive (moods_with act week_of_exercise))).
Proof.
  assert (Hlen : length (flat_map activities_or_empty week_of_exercise) <= 100)
    by (simpl; lia).
  assert (Hin : In "Exercise seems to lift your spirits."
                  (generateBasicInsights week_of_exercise (tally week_of_exercise) happy)).
  { vm_compute. right. left. reflexivity. }
  split; [exact Hlen|]. split; [exact Hin|].
  exact (activity_sentences_are_earned week_of_exercise (tally week_of_exercise) happy
           "Exercise seems to lift your spirits." Hlen Hin).
Defined.

End ActivitySentenceInstances.
